(** * Inventory ledger of the medical-shop service

    A shallow embedding of the inventory model (models/Inventory.js), the
    inventory controller (controllers/inventoryController.js), the request
    validators (validators/inventoryValidator.js) and the order event
    handlers (the handlers module of events/) of the medical-shop service,
    with the properties of the ledger stated and proved over it.

    Conventions of the embedding.
    - JavaScript numbers that hold stock counts are integers ([Z]).  The
      source computes with IEEE doubles, which agree with [Z] on whole
      numbers of magnitude up to [maxSafeInteger]; a property that states
      the value of a sum or a difference of counts carries [safeInteger]
      hypotheses on the numbers it reads and on the numbers it stores.
      Dates are milliseconds
      since the epoch ([Z]); the clock ([new Date()]) is an explicit
      argument of every call that reads it: one argument for the readings
      of one synchronous stretch of code, separate arguments for readings
      that an [await] separates.
    - Strings are lists of code units below 256.  Movement types, reasons
      and statuses are compared with [String.eqb], exactly as the source
      compares them with [===] and as the schema checks them against its
      [enum] lists.  The schema's [trim: true] setters are [trim]: a batch
      number, a movement reference and movement notes are trimmed when they
      are set on a document and when they are cast in a query filter.
    - The MongoDB collection is a list of documents in insertion order;
      [findOne] returns the first match.  The unique index on shop and
      medicine is checked by every write: the insert of [create], the write
      of [save] and the write of [findByIdAndUpdate].
    - Asynchronous code is sequential state passing: a computation takes the
      world (collections, console, published events) and returns an outcome
      (a value or a thrown error) with the new world.
    - The fields [unit], [pricing], [supplier] and [location], the two alert
      dates and the timestamps take part in no ledger computation and are
      left out of the document; request bodies are taken to carry values
      for the first four that pass both validators.
    - The validation middleware parses the body and hands the original body
      on, so keys the request validator does not declare reach the
      controller.  [OtherData] holds the keys of that kind that name a path
      of the document, and the update operator [$inc]; a body carries no
      [_id] and no other operator.
    - Requests arrive authenticated ([protect] has set [req.user]); console
      lines are kept without their emoji prefix. *)

From Stdlib Require Import ZArith List String Ascii Bool Lia.
Import ListNotations.

Local Open Scope string_scope.
Local Open Scope Z_scope.

(** ** Documents *)

(** One entry of [stockMovements]. *)
Record StockMovement := mkStockMovement {
  mv_type        : string;
  mv_quantity    : Z;
  mv_reason      : string;
  mv_reference   : option string;
  mv_performedBy : string;
  mv_notes       : string;
  mv_timestamp   : Z
}.

Record Alerts := mkAlerts {
  lowStockThreshold : Z;
  expiryAlertDays   : Z
}.

(** An inventory document (one lot). *)
Record Inventory := mkInventory {
  _id               : nat;
  shopId            : string;
  medicineId        : string;
  batchNumber       : string;
  quantity          : Z;
  reservedQuantity  : Z;
  availableQuantity : Z;
  manufacturingDate : Z;
  expiryDate        : Z;
  status            : string;
  alerts            : Alerts;
  stockMovements    : list StockMovement;
  lastStockUpdate   : Z;
  createdBy         : string
}.

Definition set_quantity (d : Inventory) (v : Z) : Inventory :=
  mkInventory (_id d) (shopId d) (medicineId d) (batchNumber d) v
    (reservedQuantity d) (availableQuantity d) (manufacturingDate d)
    (expiryDate d) (status d) (alerts d) (stockMovements d)
    (lastStockUpdate d) (createdBy d).

Definition set_reservedQuantity (d : Inventory) (v : Z) : Inventory :=
  mkInventory (_id d) (shopId d) (medicineId d) (batchNumber d) (quantity d)
    v (availableQuantity d) (manufacturingDate d)
    (expiryDate d) (status d) (alerts d) (stockMovements d)
    (lastStockUpdate d) (createdBy d).

Definition set_availableQuantity (d : Inventory) (v : Z) : Inventory :=
  mkInventory (_id d) (shopId d) (medicineId d) (batchNumber d) (quantity d)
    (reservedQuantity d) v (manufacturingDate d)
    (expiryDate d) (status d) (alerts d) (stockMovements d)
    (lastStockUpdate d) (createdBy d).

Definition set_status (d : Inventory) (v : string) : Inventory :=
  mkInventory (_id d) (shopId d) (medicineId d) (batchNumber d) (quantity d)
    (reservedQuantity d) (availableQuantity d) (manufacturingDate d)
    (expiryDate d) v (alerts d) (stockMovements d)
    (lastStockUpdate d) (createdBy d).

Definition set_alerts (d : Inventory) (v : Alerts) : Inventory :=
  mkInventory (_id d) (shopId d) (medicineId d) (batchNumber d) (quantity d)
    (reservedQuantity d) (availableQuantity d) (manufacturingDate d)
    (expiryDate d) (status d) v (stockMovements d)
    (lastStockUpdate d) (createdBy d).

Definition set_stockMovements (d : Inventory) (v : list StockMovement)
  : Inventory :=
  mkInventory (_id d) (shopId d) (medicineId d) (batchNumber d) (quantity d)
    (reservedQuantity d) (availableQuantity d) (manufacturingDate d)
    (expiryDate d) (status d) (alerts d) v
    (lastStockUpdate d) (createdBy d).

Definition set_lastStockUpdate (d : Inventory) (v : Z) : Inventory :=
  mkInventory (_id d) (shopId d) (medicineId d) (batchNumber d) (quantity d)
    (reservedQuantity d) (availableQuantity d) (manufacturingDate d)
    (expiryDate d) (status d) (alerts d) (stockMovements d)
    v (createdBy d).

Definition set_shopId (d : Inventory) (v : string) : Inventory :=
  mkInventory (_id d) v (medicineId d) (batchNumber d) (quantity d)
    (reservedQuantity d) (availableQuantity d) (manufacturingDate d)
    (expiryDate d) (status d) (alerts d) (stockMovements d)
    (lastStockUpdate d) (createdBy d).

Definition set_medicineId (d : Inventory) (v : string) : Inventory :=
  mkInventory (_id d) (shopId d) v (batchNumber d) (quantity d)
    (reservedQuantity d) (availableQuantity d) (manufacturingDate d)
    (expiryDate d) (status d) (alerts d) (stockMovements d)
    (lastStockUpdate d) (createdBy d).

Definition set_batchNumber (d : Inventory) (v : string) : Inventory :=
  mkInventory (_id d) (shopId d) (medicineId d) v (quantity d)
    (reservedQuantity d) (availableQuantity d) (manufacturingDate d)
    (expiryDate d) (status d) (alerts d) (stockMovements d)
    (lastStockUpdate d) (createdBy d).

Definition set_manufacturingDate (d : Inventory) (v : Z) : Inventory :=
  mkInventory (_id d) (shopId d) (medicineId d) (batchNumber d) (quantity d)
    (reservedQuantity d) (availableQuantity d) v
    (expiryDate d) (status d) (alerts d) (stockMovements d)
    (lastStockUpdate d) (createdBy d).

Definition set_expiryDate (d : Inventory) (v : Z) : Inventory :=
  mkInventory (_id d) (shopId d) (medicineId d) (batchNumber d) (quantity d)
    (reservedQuantity d) (availableQuantity d) (manufacturingDate d)
    v (status d) (alerts d) (stockMovements d)
    (lastStockUpdate d) (createdBy d).

Definition set_createdBy (d : Inventory) (v : string) : Inventory :=
  mkInventory (_id d) (shopId d) (medicineId d) (batchNumber d) (quantity d)
    (reservedQuantity d) (availableQuantity d) (manufacturingDate d)
    (expiryDate d) (status d) (alerts d) (stockMovements d)
    (lastStockUpdate d) v.

(** A shop, as far as the controllers read it. *)
Record MedicalShop := mkShop {
  shop_id : string;
  ownerId : string
}.

(** The authenticated user of a request ([req.user]). *)
Record User := mkUser {
  user_id : string;
  role    : string
}.

(** ** The world: collections, console and event bus *)

Inductive LogLine :=
| ConsoleLog (msg : string)
| ConsoleError (msg : string).

Record World := mkWorld {
  inventories : list Inventory;
  shops       : list MedicalShop;
  medicines   : list string;
  nextId      : nat;
  console     : list LogLine;
  published   : list (string * string)
}.

Definition set_inventories (w : World) (v : list Inventory) : World :=
  mkWorld v (shops w) (medicines w) (nextId w) (console w) (published w).

(** ** Errors and the computation monad *)

Inductive Err :=
| HttpError (statusCode : nat) (message : string)
| ValidationError (errors : list string)
| DuplicateKey (field : string)
| CastError (path : string)
| TypeError (message : string)
| ConflictingUpdate (path : string).

Definition errMessage (e : Err) : string :=
  match e with
  | HttpError _ message => message
  | ValidationError errors =>
      "Inventory validation failed: " ++ String.concat ", " errors
  | DuplicateKey field => "E11000 duplicate key error: " ++ field
  | CastError path => "Cast to ObjectId failed at path " ++ path
  | TypeError message => message
  | ConflictingUpdate path =>
      "Updating the path '" ++ path ++ "' would create a conflict at '"
      ++ path ++ "'"
  end.

Inductive Outcome (A : Type) :=
| Ok (a : A)
| Throw (e : Err).
Arguments Ok {A} a.
Arguments Throw {A} e.

Definition M (A : Type) : Type := World -> Outcome A * World.

Definition ret {A} (a : A) : M A := fun w => (Ok a, w).

Definition throw {A} (e : Err) : M A := fun w => (Throw e, w).

Definition bind {A B} (m : M A) (f : A -> M B) : M B :=
  fun w =>
    match m w with
    | (Ok a, w') => f a w'
    | (Throw e, w') => (Throw e, w')
    end.

Notation "x <- m ;; k" := (bind m (fun x => k))
  (at level 61, m at next level, right associativity).
Notation "m ;; k" := (bind m (fun _ => k))
  (at level 61, right associativity).

(** [try { body } catch (error) { handler }]. *)
Definition tryCatch {A} (body : M A) (handler : Err -> M A) : M A :=
  fun w =>
    match body w with
    | (Ok a, w') => (Ok a, w')
    | (Throw e, w') => handler e w'
    end.

(** [for (const x of xs) { body }]: a throw leaves the loop. *)
Fixpoint forOf {A} (xs : list A) (body : A -> M unit) : M unit :=
  match xs with
  | [] => ret tt
  | x :: rest => body x ;; forOf rest body
  end.

Definition console_log (msg : string) : M unit :=
  fun w => (Ok tt, mkWorld (inventories w) (shops w) (medicines w) (nextId w)
                     (console w ++ [ConsoleLog msg]) (published w)).

Definition console_error (msg : string) : M unit :=
  fun w => (Ok tt, mkWorld (inventories w) (shops w) (medicines w) (nextId w)
                     (console w ++ [ConsoleError msg]) (published w)).

(** [publishEvent(topic, eventType, data)]: the transport is taken to accept
    the message; only topic and type are kept. *)
Definition publishEvent (topic eventType : string) : M unit :=
  fun w => (Ok tt, mkWorld (inventories w) (shops w) (medicines w) (nextId w)
                     (console w) (published w ++ [(topic, eventType)])).

Definition execWorld {A} (m : M A) (w : World) : World := snd (m w).
Definition evalOutcome {A} (m : M A) (w : World) : Outcome A := fst (m w).

(** ** The schema (models/Inventory.js) *)

(** *** Setters and casts *)

(** The white space of [String.prototype.trim] among the code units below
    256: tab to carriage return, space, no-break space. *)
Definition isWhitespace (c : ascii) : bool :=
  let n := nat_of_ascii c in
  ((9 <=? n) && (n <=? 13) || (n =? 32) || (n =? 160))%nat.

Fixpoint trimStart (s : string) : string :=
  match s with
  | EmptyString => EmptyString
  | String c rest => if isWhitespace c then trimStart rest else s
  end.

Definition reverse (s : string) : string :=
  string_of_list_ascii (rev (list_ascii_of_string s)).

(** The setter of [trim: true]. *)
Definition trim (s : string) : string :=
  reverse (trimStart (reverse (trimStart s))).

Definition isHexDigit (c : ascii) : bool :=
  let n := nat_of_ascii c in
  ((48 <=? n) && (n <=? 57) || (97 <=? n) && (n <=? 102)
   || (65 <=? n) && (n <=? 70))%nat.

(** What the driver accepts as an ObjectId given as a string: 24 hexadecimal
    characters, or a string of 12 bytes. *)
Definition castObjectId (s : string) : bool :=
  ((String.length s =? 24)%nat && forallb isHexDigit (list_ascii_of_string s))
  || (String.length s =? 12)%nat.

(** A [stockMovements] entry as the array holds it: [reference] and [notes]
    go through their [trim] setters. *)
Definition castMovement (m : StockMovement) : StockMovement :=
  mkStockMovement (mv_type m) (mv_quantity m) (mv_reason m)
    (option_map trim (mv_reference m)) (mv_performedBy m)
    (trim (mv_notes m)) (mv_timestamp m).

(** *** Validators *)

Definition inEnum (s : string) (values : list string) : bool :=
  existsb (String.eqb s) values.

Definition statusEnum : list string :=
  ["active"; "expired"; "damaged"; "returned"; "low-stock"].

Definition movementTypeEnum : list string :=
  ["in"; "out"; "adjustment"; "return"].

Definition movementReasonEnum : list string :=
  ["purchase"; "sale"; "damage"; "expiry"; "correction"; "transfer"].

Definition check (ok : bool) (message : string) : list string :=
  if ok then [] else [message].

Definition enumMessage (value path : string) : string :=
  "`" ++ value ++ "` is not a valid enum value for path `" ++ path ++ "`.".

Definition castMessage (value path : string) : string :=
  "Cast to ObjectId failed for value '" ++ value ++ "' at path '" ++ path
  ++ "'".

(** Validators of one [stockMovements] entry. *)
Definition validateMovement (m : StockMovement) : list string :=
  check (inEnum (mv_type m) movementTypeEnum)
        (enumMessage (mv_type m) "type")
  ++ check (inEnum (mv_reason m) movementReasonEnum)
           (enumMessage (mv_reason m) "reason")
  ++ check (castObjectId (mv_performedBy m))
           (castMessage (mv_performedBy m) "performedBy").

(** Validators of a whole document, as [save()] and [create()] run them.
    The batch number of a document is already trimmed: every assignment to
    it goes through the setter. *)
Definition validate (d : Inventory) : list string :=
  check (negb (String.eqb (batchNumber d) EmptyString))
        "Batch number is required"
  ++ check (0 <=? quantity d) "Quantity cannot be negative"
  ++ check (0 <=? reservedQuantity d) "Reserved quantity cannot be negative"
  ++ check (0 <=? availableQuantity d) "Available quantity cannot be negative"
  ++ check (inEnum (status d) statusEnum) (enumMessage (status d) "status")
  ++ check (0 <=? lowStockThreshold (alerts d))
           "Low stock threshold cannot be negative"
  ++ check (0 <=? expiryAlertDays (alerts d))
           "Expiry alert days cannot be negative"
  ++ check (castObjectId (createdBy d)) (castMessage (createdBy d) "createdBy")
  ++ flat_map validateMovement (stockMovements d).

(** [inventorySchema.pre("save")]: runs after validation, before the write. *)
Definition preSave (d : Inventory) : Inventory :=
  set_availableQuantity d (Z.max 0 (quantity d - reservedQuantity d)).

(** *** Writes *)

(** The write of [save()] on a loaded document: the stored document with the
    same [_id] is replaced. *)
Fixpoint replaceById (doc : Inventory) (db : list Inventory)
  : list Inventory :=
  match db with
  | [] => []
  | d :: rest =>
      if Nat.eqb (_id d) (_id doc) then doc :: rest
      else d :: replaceById doc rest
  end.

(** [inventorySchema.index({ shopId: 1, medicineId: 1 }, { unique: true })]:
    a stored document holds the pair of [doc]. *)
Definition uniqueIndexHit (doc : Inventory) (db : list Inventory) : bool :=
  existsb (fun d => String.eqb (shopId d) (shopId doc)
                    && String.eqb (medicineId d) (medicineId doc)) db.

(** The index on a write over a stored document: the write is refused when
    it moves the document to a pair that a stored document holds. *)
Definition indexConflict (doc : Inventory) (db : list Inventory) : bool :=
  negb (existsb (fun d => Nat.eqb (_id d) (_id doc)
                          && String.eqb (shopId d) (shopId doc)
                          && String.eqb (medicineId d) (medicineId doc)) db)
  && uniqueIndexHit doc db.

(** [doc.save()]: validate, run the pre-save hook, write.  The result is the
    document as the caller holds it afterwards. *)
Definition save (doc : Inventory) : M Inventory :=
  fun w =>
    match validate doc with
    | [] =>
        let doc' := preSave doc in
        if indexConflict doc' (inventories w)
        then (Throw (DuplicateKey "shopId"), w)
        else (Ok doc', set_inventories w (replaceById doc' (inventories w)))
    | errs => (Throw (ValidationError errs), w)
    end.

(** *** Request bodies *)

(** The operator [$inc] of an update, on the number paths of the
    document. *)
Record Increments := mkInc {
  inc_quantity          : option Z;
  inc_reservedQuantity  : option Z;
  inc_availableQuantity : option Z;
  inc_lowStockThreshold : option Z;
  inc_expiryAlertDays   : option Z
}.

Definition noInc : Increments := mkInc None None None None None.

(** Keys of a request body that reach a controller although its request
    validator does not declare them all: the validation middleware parses
    the body and then passes the original body on.  A key that the record of
    a body holds itself ([b_shopId], [bi_medicineId], ...) is the body's
    only key of that name: the field of the same name here is then not
    read. *)
Record OtherData := mkOther {
  od_reservedQuantity  : option Z;
  od_availableQuantity : option Z;
  od_status            : option string;
  od_alerts            : option Alerts;
  od_shopId            : option string;
  od_medicineId        : option string;
  od_batchNumber       : option string;
  od_manufacturingDate : option Z;
  od_expiryDate        : option Z;
  od_stockMovements    : option (list StockMovement);
  od_lastStockUpdate   : option Z;
  od_createdBy         : option string;
  od_inc               : Increments
}.

Definition noOther : OtherData :=
  mkOther None None None None None None None None None None None None noInc.

(** A body whose only other key is [$inc]. *)
Definition onlyInc (i : Increments) : OtherData :=
  mkOther None None None None None None None None None None None None i.

(** A body whose only other key is [alerts]. *)
Definition onlyAlerts (a : Alerts) : OtherData :=
  mkOther None None None (Some a) None None None None None None None None
    noInc.

Definition orDefault {A} (o : option A) (default : A) : A :=
  match o with Some v => v | None => default end.

Definition isSome {A} (o : option A) : bool :=
  match o with Some _ => true | None => false end.

Record InventoryData := mkInventoryData {
  d_shopId            : string;
  d_medicineId        : string;
  d_batchNumber       : string;
  d_quantity          : Z;
  d_manufacturingDate : Z;
  d_expiryDate        : Z;
  d_createdBy         : string;
  d_otherData         : OtherData
}.

(** [Inventory.create(data)]: a new document from the keys of [data] that
    name a path, with the schema defaults for the others; then validation,
    the pre-save hook and the insert under the unique index.  An operator
    key names no path and is dropped. *)
Definition Inventory_create (now : Z) (data : InventoryData) : M Inventory :=
  fun w =>
    let o := d_otherData data in
    let doc :=
      mkInventory (nextId w) (d_shopId data) (d_medicineId data)
        (trim (d_batchNumber data)) (d_quantity data)
        (orDefault (od_reservedQuantity o) 0)
        (orDefault (od_availableQuantity o) 0)
        (d_manufacturingDate data) (d_expiryDate data)
        (orDefault (od_status o) "active")
        (orDefault (od_alerts o) (mkAlerts 10 30))
        (map castMovement (orDefault (od_stockMovements o) []))
        (orDefault (od_lastStockUpdate o) now)
        (d_createdBy data) in
    match validate doc with
    | [] =>
        let doc' := preSave doc in
        if uniqueIndexHit doc' (inventories w)
        then (Throw (DuplicateKey "shopId"), w)
        else (Ok doc',
              mkWorld (inventories w ++ [doc']) (shops w) (medicines w)
                      (S (nextId w)) (console w) (published w))
    | errs => (Throw (ValidationError errs), w)
    end.

(** *** Reads *)

(** The filter [{ shopId, medicineId, batchNumber }]; the batch number of
    the filter is cast through the setter of the path. *)
Definition matchesLot (shop medicine batch : string) (d : Inventory) : bool :=
  String.eqb (shopId d) shop
  && String.eqb (medicineId d) medicine
  && String.eqb (batchNumber d) (trim batch).

(** [Inventory.findOne({ shopId, medicineId, batchNumber })]. *)
Definition Inventory_findOne (shop medicine batch : string)
  : M (option Inventory) :=
  fun w =>
    if negb (castObjectId shop) then (Throw (CastError "shopId"), w)
    else if negb (castObjectId medicine) then (Throw (CastError "medicineId"), w)
    else (Ok (find (matchesLot shop medicine batch) (inventories w)), w).

(** [Inventory.findOne({ shopId, medicineId })] (the delivered handler). *)
Definition Inventory_findOneByMedicine (shop medicine : string)
  : M (option Inventory) :=
  fun w =>
    if negb (castObjectId shop) then (Throw (CastError "shopId"), w)
    else if negb (castObjectId medicine) then (Throw (CastError "medicineId"), w)
    else
      (Ok (find (fun d => String.eqb (shopId d) shop
                          && String.eqb (medicineId d) medicine)
                (inventories w)), w).

(** [Inventory.findById(id)]. *)
Definition Inventory_findById (id : nat) : M (option Inventory) :=
  fun w => (Ok (find (fun d => Nat.eqb (_id d) id) (inventories w)), w).

(** [MedicalShop.findById(id)]. *)
Definition MedicalShop_findById (id : string) : M (option MedicalShop) :=
  fun w =>
    if negb (castObjectId id) then (Throw (CastError "_id"), w)
    else (Ok (find (fun s => String.eqb (shop_id s) id) (shops w)), w).

(** [Medicine.findById(id)]: only existence is read. *)
Definition Medicine_findById (id : string) : M (option string) :=
  fun w =>
    if negb (castObjectId id) then (Throw (CastError "_id"), w)
    else (Ok (find (String.eqb id) (medicines w)), w).

(** *** Updates *)

(** The body of an inventory update, as far as it touches the ledger: the
    quantity that the request validator declares, and the other keys. *)
Record UpdateBody := mkUpdateBody {
  u_quantity : option Z;
  u_other    : OtherData
}.

(** Casting the update: an id that is no ObjectId is an error. *)
Definition castUpdate (b : UpdateBody) : option Err :=
  let o := u_other b in
  let bad (v : option string) :=
    match v with Some s => negb (castObjectId s) | None => false end in
  if bad (od_shopId o) then Some (CastError "shopId")
  else if bad (od_medicineId o) then Some (CastError "medicineId")
  else if bad (od_createdBy o) then Some (CastError "createdBy")
  else if negb (forallb (fun m => castObjectId (mv_performedBy m))
                        (orDefault (od_stockMovements o) []))
  then Some (CastError "stockMovements")
  else None.

(** Update validators ([runValidators: true]) run on the paths that the
    update sets, with their values after casting; they do not run on the
    entries of a movement list, and they do not run on [$inc]. *)
Definition validateUpdate (b : UpdateBody) : list string :=
  let o := u_other b in
  match u_quantity b with
  | Some q => check (0 <=? q) "Quantity cannot be negative"
  | None => []
  end
  ++ match od_reservedQuantity o with
     | Some r => check (0 <=? r) "Reserved quantity cannot be negative"
     | None => []
     end
  ++ match od_availableQuantity o with
     | Some a => check (0 <=? a) "Available quantity cannot be negative"
     | None => []
     end
  ++ match od_status o with
     | Some s => check (inEnum s statusEnum) (enumMessage s "status")
     | None => []
     end
  ++ match od_alerts o with
     | Some a =>
         check (0 <=? lowStockThreshold a)
               "Low stock threshold cannot be negative"
         ++ check (0 <=? expiryAlertDays a)
                  "Expiry alert days cannot be negative"
     | None => []
     end
  ++ match od_batchNumber o with
     | Some s => check (negb (String.eqb (trim s) EmptyString))
                       "Batch number is required"
     | None => []
     end.

(** The database refuses an update that sets a path and increments it. *)
Definition updateConflict (b : UpdateBody) : option string :=
  let o := u_other b in
  let i := od_inc o in
  if isSome (u_quantity b) && isSome (inc_quantity i)
  then Some "quantity"
  else if isSome (od_reservedQuantity o) && isSome (inc_reservedQuantity i)
  then Some "reservedQuantity"
  else if isSome (od_availableQuantity o) && isSome (inc_availableQuantity i)
  then Some "availableQuantity"
  else if isSome (od_alerts o)
          && (isSome (inc_lowStockThreshold i)
              || isSome (inc_expiryAlertDays i))
  then Some "alerts"
  else None.

(** Setting the keys of [OtherData] that name a path, each through the
    setter of its path: [Object.assign(doc, other)], and the [$set] of an
    update. *)
Definition assignOther (d : Inventory) (o : OtherData) : Inventory :=
  let d := match od_reservedQuantity o with
           | Some r => set_reservedQuantity d r | None => d end in
  let d := match od_availableQuantity o with
           | Some a => set_availableQuantity d a | None => d end in
  let d := match od_status o with
           | Some s => set_status d s | None => d end in
  let d := match od_alerts o with
           | Some a => set_alerts d a | None => d end in
  let d := match od_shopId o with
           | Some s => set_shopId d s | None => d end in
  let d := match od_medicineId o with
           | Some m => set_medicineId d m | None => d end in
  let d := match od_batchNumber o with
           | Some b => set_batchNumber d (trim b) | None => d end in
  let d := match od_manufacturingDate o with
           | Some t => set_manufacturingDate d t | None => d end in
  let d := match od_expiryDate o with
           | Some t => set_expiryDate d t | None => d end in
  let d := match od_stockMovements o with
           | Some ms => set_stockMovements d (map castMovement ms)
           | None => d end in
  let d := match od_lastStockUpdate o with
           | Some t => set_lastStockUpdate d t | None => d end in
  match od_createdBy o with
  | Some u => set_createdBy d u | None => d end.

Definition applyUpdate (d : Inventory) (b : UpdateBody) : Inventory :=
  let d := match u_quantity b with
           | Some q => set_quantity d q | None => d end in
  assignOther d (u_other b).

Definition incBy (n : option Z) (v : Z) : Z :=
  match n with Some n => v + n | None => v end.

(** The [$inc] of an update. *)
Definition applyInc (d : Inventory) (i : Increments) : Inventory :=
  let d := set_quantity d (incBy (inc_quantity i) (quantity d)) in
  let d := set_reservedQuantity d
             (incBy (inc_reservedQuantity i) (reservedQuantity d)) in
  let d := set_availableQuantity d
             (incBy (inc_availableQuantity i) (availableQuantity d)) in
  set_alerts d
    (mkAlerts (incBy (inc_lowStockThreshold i) (lowStockThreshold (alerts d)))
              (incBy (inc_expiryAlertDays i) (expiryAlertDays (alerts d)))).

(** [Inventory.findByIdAndUpdate(id, body, { new: true, runValidators: true })]:
    the keys of the body that name a path are cast and become the [$set] of
    the update, the update validators run on them, and the database applies
    [$set] and [$inc] under the unique index.  No document middleware runs,
    so [preSave] is not applied. *)
Definition Inventory_findByIdAndUpdate (id : nat) (b : UpdateBody)
  : M (option Inventory) :=
  fun w =>
    match castUpdate b with
    | Some e => (Throw e, w)
    | None =>
        match validateUpdate b with
        | [] =>
            match updateConflict b with
            | Some path => (Throw (ConflictingUpdate path), w)
            | None =>
                match find (fun d => Nat.eqb (_id d) id) (inventories w) with
                | Some d =>
                    let d' := applyInc (applyUpdate d b) (od_inc (u_other b)) in
                    if indexConflict d' (inventories w)
                    then (Throw (DuplicateKey "shopId"), w)
                    else (Ok (Some d'),
                          set_inventories w (replaceById d' (inventories w)))
                | None => (Ok None, w)
                end
            end
        | errs => (Throw (ValidationError errs), w)
        end
    end.

(** *** Instance methods *)

Definition isLowStock (d : Inventory) : bool :=
  availableQuantity d <=? lowStockThreshold (alerts d).

Definition msPerDay : Z := 86400000.

(** [date.setDate(date.getDate() + days)], on a server whose time zone has
    no daylight saving changes: every day has [msPerDay] milliseconds. *)
Definition addDays (date days : Z) : Z := date + days * msPerDay.

Definition isExpiringSoon (now : Z) (d : Inventory) : bool :=
  expiryDate d <=? addDays now (expiryAlertDays (alerts d)).

Definition isExpired (now : Z) (d : Inventory) : bool :=
  expiryDate d <? now.

(** The entry that [addStockMovement] pushes, as the array holds it. *)
Definition movementOf (now : Z) (type : string) (qty : Z)
    (reason performedBy : string) (reference : option string)
    (notes : string) : StockMovement :=
  castMovement
    (mkStockMovement type qty reason reference performedBy notes now).

(** [inventorySchema.methods.addStockMovement], up to its [save()]: the
    changes the method makes to the document it is called on. *)
Definition applyMovement (self : Inventory) (now : Z)
    (type : string) (qty : Z) (reason performedBy : string)
    (reference : option string) (notes : string) : Inventory :=
  let movement :=
    movementOf now type qty reason performedBy reference notes in
  let self := set_stockMovements self (stockMovements self ++ [movement]) in
  let self :=
    if String.eqb type "in" then set_quantity self (quantity self + qty)
    else if String.eqb type "out" then set_quantity self (quantity self - qty)
    else if String.eqb type "adjustment" then set_quantity self qty
    else self in
  let self :=
    set_availableQuantity self
      (Z.max 0 (quantity self - reservedQuantity self)) in
  let self := set_lastStockUpdate self now in
  set_status self
    (if isExpired now self then "expired"
     else if quantity self =? 0 then "out-of-stock"
     else if isLowStock self then "low-stock"
     else "active").

(** [inventorySchema.methods.addStockMovement]. *)
Definition Inventory_addStockMovement (self : Inventory) (now : Z)
    (type : string) (qty : Z) (reason performedBy : string)
    (reference : option string) (notes : string) : M Inventory :=
  save (applyMovement self now type qty reason performedBy reference notes).

(** *** Static queries *)

(** [inventorySchema.statics.findLowStockItems]: the filter is on shop and
    status only. *)
Definition Inventory_findLowStockItems (shop : string)
  : M (list Inventory) :=
  fun w =>
    if negb (castObjectId shop) then (Throw (CastError "shopId"), w)
    else
      (Ok (filter (fun d => String.eqb (shopId d) shop
                            && inEnum (status d) ["active"; "low-stock"])
                  (inventories w)), w).

(** [inventorySchema.statics.findExpiringItems]: the clock is read once for
    the alert date ([now]) and once more for the lower bound of the filter
    ([later]). *)
Definition Inventory_findExpiringItems (now later : Z) (shop : string)
    (daysAhead : Z) : M (list Inventory) :=
  fun w =>
    if negb (castObjectId shop) then (Throw (CastError "shopId"), w)
    else
      let alertDate := addDays now daysAhead in
      (Ok (filter (fun d => String.eqb (shopId d) shop
                            && (expiryDate d <=? alertDate)
                            && (later <? expiryDate d)
                            && String.eqb (status d) "active")
                  (inventories w)), w).

(** [Inventory.find({ shopId, expiryDate: { $lt: new Date() },
    status: "active" })] of [getInventoryAlerts]. *)
Definition Inventory_findExpiredActive (now : Z) (shop : string)
  : M (list Inventory) :=
  fun w =>
    if negb (castObjectId shop) then (Throw (CastError "shopId"), w)
    else
      (Ok (filter (fun d => String.eqb (shopId d) shop
                            && (expiryDate d <? now)
                            && String.eqb (status d) "active")
                  (inventories w)), w).

(** ** Request validators (validators/inventoryValidator.js) *)

Definition alertsOk (a : option Alerts) : bool :=
  match a with
  | Some a => (0 <=? lowStockThreshold a) && (0 <=? expiryAlertDays a)
  | None => true
  end.

Record CreateBody := mkCreateBody {
  b_shopId            : string;
  b_medicineId        : string;
  b_batchNumber       : string;
  b_quantity          : Z;
  b_manufacturingDate : Z;
  b_expiryDate        : Z;
  b_otherData         : OtherData
}.

Definition createInventorySchema (b : CreateBody) : bool :=
  (1 <=? String.length (b_medicineId b))%nat
  && (1 <=? String.length (b_batchNumber b))%nat
  && (String.length (b_batchNumber b) <=? 50)%nat
  && (0 <=? b_quantity b)
  && alertsOk (od_alerts (b_otherData b))
  && (b_manufacturingDate b <? b_expiryDate b).

Definition updateInventorySchema (b : UpdateBody) : bool :=
  match u_quantity b with Some q => 0 <=? q | None => true end
  && alertsOk (od_alerts (u_other b))
  && match od_status (u_other b) with
     | Some s => inEnum s ["active"; "expired"; "damaged"; "returned"]
     | None => true
     end.

Record MovementBody := mkMovementBody {
  m_type      : string;
  m_quantity  : Z;
  m_reason    : string;
  m_reference : option string;
  m_notes     : string
}.

Definition stockMovementSchema (b : MovementBody) : bool :=
  inEnum (m_type b) ["in"; "out"; "adjustment"]
  && (1 <=? m_quantity b)
  && inEnum (m_reason b)
       ["purchase"; "sale"; "damage"; "expiry"; "correction"; "transfer"]
  && (String.length (m_notes b) <=? 200)%nat.

Record BulkItem := mkBulkItem {
  bi_medicineId  : string;
  bi_batchNumber : string;
  bi_quantity    : Z;
  bi_other       : OtherData
}.

(** The other keys of a bulk item: its medicine and its batch number are
    [bi_medicineId] and [bi_batchNumber]. *)
Definition undeclared (o : OtherData) : OtherData :=
  mkOther (od_reservedQuantity o) (od_availableQuantity o) (od_status o)
    (od_alerts o) (od_shopId o) None None (od_manufacturingDate o)
    (od_expiryDate o) (od_stockMovements o) (od_lastStockUpdate o)
    (od_createdBy o) (od_inc o).

Definition bulkInventoryUpdateSchema (items : list BulkItem) : bool :=
  (1 <=? List.length items)%nat && (List.length items <=? 50)%nat
  && forallb (fun i => (1 <=? String.length (bi_medicineId i))%nat
                       && (1 <=? String.length (bi_batchNumber i))%nat
                       && (0 <=? bi_quantity i)) items.

Definition updateAlertSettingsSchema (a : Alerts) : bool :=
  (0 <=? lowStockThreshold a) && (0 <=? expiryAlertDays a).

(** The route's [validate(schema)] middleware in front of a controller. *)
Definition validated {A} (ok : bool) (controller : M A) : M A :=
  if ok then controller else throw (HttpError 400 "Validation failed").

(** ** The inventory controller (controllers/inventoryController.js) *)

Module Controller.

Definition notOwner (shop : MedicalShop) (user : User) : bool :=
  negb (String.eqb (ownerId shop) (user_id user))
  && negb (String.eqb (role user) "admin").

(** [addInventoryItem]: the data of the new document are the declared keys,
    [createdBy: req.user.id], and then the other keys of the body, so a
    [createdBy] of the body wins. *)
Definition addInventoryItem (now : Z) (user : User) (body : CreateBody)
  : M Inventory :=
  shop <- MedicalShop_findById (b_shopId body) ;;
  match shop with
  | None => throw (HttpError 404 "Shop not found")
  | Some shop =>
      if notOwner shop user
      then throw (HttpError 403
                    "Not authorized to manage this shop's inventory")
      else
        medicine <- Medicine_findById (b_medicineId body) ;;
        match medicine with
        | None => throw (HttpError 404 "Medicine not found")
        | Some _ =>
            existingInventory <-
              Inventory_findOne (b_shopId body) (b_medicineId body)
                                (b_batchNumber body) ;;
            match existingInventory with
            | Some _ =>
                throw (HttpError 400
                  "Inventory item with this batch number already exists for this medicine")
            | None =>
                inventory <-
                  Inventory_create now
                    (mkInventoryData (b_shopId body) (b_medicineId body)
                       (b_batchNumber body) (b_quantity body)
                       (b_manufacturingDate body) (b_expiryDate body)
                       (orDefault (od_createdBy (b_otherData body))
                                  (user_id user))
                       (b_otherData body)) ;;
                publishEvent "inventory-events" "inventory.added" ;;
                ret inventory
            end
        end
  end.

Definition updateInventoryItem (user : User) (id : nat) (body : UpdateBody)
  : M (option Inventory) :=
  inventory <- Inventory_findById id ;;
  match inventory with
  | None => throw (HttpError 404 "Inventory item not found")
  | Some inventory =>
      shop <- MedicalShop_findById (shopId inventory) ;;
      match shop with
      | None => throw (TypeError "Cannot read properties of null")
      | Some shop =>
          if notOwner shop user
          then throw (HttpError 403
                        "Not authorized to update this inventory item")
          else
            updatedInventory <- Inventory_findByIdAndUpdate id body ;;
            publishEvent "inventory-events" "inventory.updated" ;;
            ret updatedInventory
      end
  end.

Definition addStockMovement (now : Z) (user : User) (id : nat)
    (body : MovementBody) : M Inventory :=
  inventory <- Inventory_findById id ;;
  match inventory with
  | None => throw (HttpError 404 "Inventory item not found")
  | Some inventory =>
      shop <- MedicalShop_findById (shopId inventory) ;;
      match shop with
      | None => throw (TypeError "Cannot read properties of null")
      | Some shop =>
          if notOwner shop user
          then throw (HttpError 403
                        "Not authorized to modify this inventory item")
          else
            inventory <-
              Inventory_addStockMovement inventory now (m_type body)
                (m_quantity body) (m_reason body) (user_id user)
                (m_reference body) (m_notes body) ;;
            publishEvent "inventory-events" "inventory.stock_movement" ;;
            ret inventory
      end
  end.

(** The per-item outcome lists of a bulk update. *)
Record BulkResults := mkBulkResults {
  successful : list (nat * string * string);
  failed     : list (string * string * string)
}.

(** [Object.assign(inventory, item)]: every key of the item is set on the
    document, the three that the request validator declares and the
    others. *)
Definition assignItem (inventory : Inventory) (item : BulkItem) : Inventory :=
  let inventory := set_medicineId inventory (bi_medicineId item) in
  let inventory := set_batchNumber inventory (trim (bi_batchNumber item)) in
  let inventory := set_quantity inventory (bi_quantity item) in
  assignOther inventory (undeclared (bi_other item)).

(** The body of the loop of [bulkUpdateInventory], inside its try: a lot
    that is not found is reported like a thrown error, with the message
    the source pushes to [results.failed]. *)
Definition bulkItem (shop : string) (item : BulkItem)
  : M (nat * string * string) :=
  inventory <-
    Inventory_findOne shop (bi_medicineId item) (bi_batchNumber item) ;;
  match inventory with
  | None => throw (HttpError 404 "Inventory item not found")
  | Some inventory =>
      inventory <- save (assignItem inventory item) ;;
      ret (_id inventory, bi_medicineId item, bi_batchNumber item)
  end.

(** The loop of [bulkUpdateInventory]: every item has its own try/catch, so
    a failing item is listed and the loop goes on. *)
Fixpoint bulkLoop (shop : string) (items : list BulkItem)
    (results : BulkResults) : M BulkResults :=
  match items with
  | [] => ret results
  | item :: rest =>
      fun w =>
        match bulkItem shop item w with
        | (Ok entry, w') =>
            bulkLoop shop rest
              (mkBulkResults (successful results ++ [entry])
                             (failed results)) w'
        | (Throw e, w') =>
            bulkLoop shop rest
              (mkBulkResults (successful results)
                 (failed results
                  ++ [(bi_medicineId item, bi_batchNumber item,
                       errMessage e)])) w'
        end
  end.

Definition bulkUpdateInventory (user : User) (shop : string)
    (items : list BulkItem) : M BulkResults :=
  s <- MedicalShop_findById shop ;;
  match s with
  | None => throw (HttpError 404 "Shop not found")
  | Some s =>
      if notOwner s user
      then throw (HttpError 403
                    "Not authorized to update this shop's inventory")
      else
        results <- bulkLoop shop items (mkBulkResults [] []) ;;
        publishEvent "inventory-events" "inventory.bulk_updated" ;;
        ret results
  end.

Definition updateAlertSettings (user : User) (id : nat) (settings : Alerts)
  : M Alerts :=
  inventory <- Inventory_findById id ;;
  match inventory with
  | None => throw (HttpError 404 "Inventory item not found")
  | Some inventory =>
      shop <- MedicalShop_findById (shopId inventory) ;;
      match shop with
      | None => throw (TypeError "Cannot read properties of null")
      | Some shop =>
          if notOwner shop user
          then throw (HttpError 403
                        "Not authorized to update this inventory item")
          else
            inventory <- save (set_alerts inventory settings) ;;
            ret (alerts inventory)
      end
  end.

(** The three lists of [getInventoryAlerts]; each count of the response is
    the length of its list. *)
Record AlertsReport := mkAlertsReport {
  lowStock : list Inventory;
  expiring : list Inventory;
  expired  : list Inventory
}.

(** [getInventoryAlerts] reads the clock three times, each after an await:
    twice in [findExpiringItems] ([t1], [t2]) and once for the expired
    filter ([t3]). *)
Definition getInventoryAlerts (t1 t2 t3 : Z) (user : User) (shop : string)
  : M AlertsReport :=
  s <- MedicalShop_findById shop ;;
  match s with
  | None => throw (HttpError 404 "Shop not found")
  | Some s =>
      if notOwner s user
      then throw (HttpError 403 "Not authorized to view this shop's alerts")
      else
        lowStockItems <- Inventory_findLowStockItems shop ;;
        expiringItems <- Inventory_findExpiringItems t1 t2 shop 30 ;;
        expiredItems <- Inventory_findExpiredActive t3 shop ;;
        ret (mkAlertsReport lowStockItems expiringItems expiredItems)
  end.

End Controller.

(** ** Order event handlers (the handlers module of events/) *)

Record OrderItem := mkItem {
  item_medicineId  : string;
  item_batchNumber : string;
  item_quantity    : Z
}.

Record OrderData := mkOrderData {
  orderId   : string;
  ev_shopId : string;
  userId    : string;
  items     : list OrderItem
}.

Record Event := mkEvent {
  ev_type : string;
  data    : OrderData
}.

Module Handlers.

(** One turn of the loop of [handleOrderPlaced]. *)
Definition placedItem (now : Z) (d : OrderData) (item : OrderItem) : M unit :=
  inventory <-
    Inventory_findOne (ev_shopId d) (item_medicineId item)
                      (item_batchNumber item) ;;
  match inventory with
  | None =>
      console_error
        ("Inventory not found for medicine: " ++ item_medicineId item)
  | Some inventory =>
      if availableQuantity inventory <? item_quantity item
      then console_error
             ("Insufficient stock for medicine: " ++ item_medicineId item)
      else
        let inventory :=
          set_reservedQuantity inventory
            (reservedQuantity inventory + item_quantity item) in
        inventory <- save inventory ;;
        Inventory_addStockMovement inventory now "out" (item_quantity item)
          "order_reservation" (userId d) (Some (orderId d))
          ("Reserved for order " ++ orderId d) ;;
        ret tt
  end.

Definition handleOrderPlaced (now : Z) (event : Event) : M unit :=
  let d := data event in
  console_log ("Processing order: " ++ orderId d ++ " for shop: "
               ++ ev_shopId d) ;;
  tryCatch
    (forOf (items d) (placedItem now d) ;;
     console_log ("Inventory reserved for order: " ++ orderId d))
    (fun error =>
       console_error ("Failed to reserve inventory for order " ++ orderId d
                      ++ ": " ++ errMessage error)).

(** One turn of the loop of [handleOrderConfirmed]. *)
Definition confirmedItem (now : Z) (d : OrderData) (item : OrderItem)
  : M unit :=
  inventory <-
    Inventory_findOne (ev_shopId d) (item_medicineId item)
                      (item_batchNumber item) ;;
  match inventory with
  | None => ret tt
  | Some inventory =>
      let inventory :=
        set_reservedQuantity inventory
          (reservedQuantity inventory - item_quantity item) in
      let inventory :=
        set_quantity inventory (quantity inventory - item_quantity item) in
      let inventory :=
        set_availableQuantity inventory
          (Z.max 0 (quantity inventory - reservedQuantity inventory)) in
      inventory <- save inventory ;;
      Inventory_addStockMovement inventory now "out" (item_quantity item)
        "order_confirmed" (userId d) (Some (orderId d))
        ("Sold in order " ++ orderId d) ;;
      ret tt
  end.

Definition handleOrderConfirmed (now : Z) (event : Event) : M unit :=
  let d := data event in
  console_log ("Confirming order: " ++ orderId d) ;;
  tryCatch
    (forOf (items d) (confirmedItem now d) ;;
     console_log ("Inventory updated for confirmed order: " ++ orderId d))
    (fun error =>
       console_error ("Failed to update inventory for confirmed order "
                      ++ orderId d ++ ": " ++ errMessage error)).

(** One turn of the loop of [handleOrderCancelled]. *)
Definition cancelledItem (now : Z) (d : OrderData) (item : OrderItem)
  : M unit :=
  inventory <-
    Inventory_findOne (ev_shopId d) (item_medicineId item)
                      (item_batchNumber item) ;;
  match inventory with
  | None => ret tt
  | Some inventory =>
      let inventory :=
        set_reservedQuantity inventory
          (Z.max 0 (reservedQuantity inventory - item_quantity item)) in
      let inventory :=
        set_availableQuantity inventory
          (Z.max 0 (quantity inventory - reservedQuantity inventory)) in
      inventory <- save inventory ;;
      Inventory_addStockMovement inventory now "adjustment"
        (quantity inventory) "order_cancelled" "system" (Some (orderId d))
        ("Reservation released for cancelled order " ++ orderId d) ;;
      ret tt
  end.

Definition handleOrderCancelled (now : Z) (event : Event) : M unit :=
  let d := data event in
  console_log ("Cancelling order: " ++ orderId d) ;;
  tryCatch
    (forOf (items d) (cancelledItem now d) ;;
     console_log ("Inventory reservation released for cancelled order: "
                  ++ orderId d))
    (fun error =>
       console_error ("Failed to release inventory for cancelled order "
                      ++ orderId d ++ ": " ++ errMessage error)).

(** One turn of the loop of [handleOrderDelivered]. *)
Definition deliveredItem (d : OrderData) (item : OrderItem) : M unit :=
  inventory <-
    Inventory_findOneByMedicine (ev_shopId d) (item_medicineId item) ;;
  match inventory with
  | Some inventory =>
      if isLowStock inventory
      then publishEvent "inventory-events" "inventory.low_stock_alert"
      else ret tt
  | None => ret tt
  end.

Definition handleOrderDelivered (event : Event) : M unit :=
  let d := data event in
  console_log ("Order delivered: " ++ orderId d) ;;
  tryCatch
    (forOf (items d) (deliveredItem d))
    (fun error =>
       console_error ("Failed to check reorder alerts for delivered order "
                      ++ orderId d ++ ": " ++ errMessage error)).

Definition handleOrderEvents (now : Z) (event : Event) : M unit :=
  tryCatch
    (if String.eqb (ev_type event) "order.placed"
     then handleOrderPlaced now event
     else if String.eqb (ev_type event) "order.confirmed"
     then handleOrderConfirmed now event
     else if String.eqb (ev_type event) "order.delivered"
     then handleOrderDelivered event
     else if String.eqb (ev_type event) "order.cancelled"
     then handleOrderCancelled now event
     else console_log ("Unhandled order event: " ++ ev_type event))
    (fun error =>
       console_error ("Error handling order event: " ++ errMessage error)).

End Handlers.

(** ** Traces of operations *)

(** Everything that writes a lot: the five controller routes behind their
    validation middleware, and the order events. *)
Inductive Operation :=
| AddInventoryItem (user : User) (body : CreateBody)
| UpdateInventoryItem (user : User) (id : nat) (body : UpdateBody)
| AddStockMovement (user : User) (id : nat) (body : MovementBody)
| BulkUpdateInventory (user : User) (shop : string) (items : list BulkItem)
| UpdateAlertSettings (user : User) (id : nat) (settings : Alerts)
| OrderEvent (event : Event).

Definition perform (now : Z) (op : Operation) (w : World) : World :=
  match op with
  | AddInventoryItem user body =>
      execWorld (validated (createInventorySchema body)
                   (Controller.addInventoryItem now user body)) w
  | UpdateInventoryItem user id body =>
      execWorld (validated (updateInventorySchema body)
                   (Controller.updateInventoryItem user id body)) w
  | AddStockMovement user id body =>
      execWorld (validated (stockMovementSchema body)
                   (Controller.addStockMovement now user id body)) w
  | BulkUpdateInventory user shop items =>
      execWorld (validated (bulkInventoryUpdateSchema items)
                   (Controller.bulkUpdateInventory user shop items)) w
  | UpdateAlertSettings user id settings =>
      execWorld (validated (updateAlertSettingsSchema settings)
                   (Controller.updateAlertSettings user id settings)) w
  | OrderEvent event =>
      execWorld (Handlers.handleOrderEvents now event) w
  end.

(** A trace is a list of operations, each with the time it runs at. *)
Fixpoint run (trace : list (Z * Operation)) (w : World) : World :=
  match trace with
  | [] => w
  | (now, op) :: rest => run rest (perform now op w)
  end.

Definition initialWorld (shops : list MedicalShop) (medicines : list string)
  : World :=
  mkWorld [] shops medicines 0 [] [].

(** * Vocabulary of the properties *)

(** ** Valid documents *)

(** A movement entry passes its validators. *)
Definition movementOk (m : StockMovement) : Prop :=
  inEnum (mv_type m) movementTypeEnum = true
  /\ inEnum (mv_reason m) movementReasonEnum = true
  /\ castObjectId (mv_performedBy m) = true.

(** A document passes every validator of the schema. *)
Record Valid (d : Inventory) : Prop := mkValid {
  valid_batch     : String.eqb (batchNumber d) EmptyString = false;
  valid_quantity  : 0 <= quantity d;
  valid_reserved  : 0 <= reservedQuantity d;
  valid_available : 0 <= availableQuantity d;
  valid_status    : inEnum (status d) statusEnum = true;
  valid_threshold : 0 <= lowStockThreshold (alerts d);
  valid_days      : 0 <= expiryAlertDays (alerts d);
  valid_createdBy : castObjectId (createdBy d) = true;
  valid_movements : Forall movementOk (stockMovements d)
}.

(** ** Numbers *)

(** [Number.MAX_SAFE_INTEGER]: on the integers between its negative and
    itself, sum and difference of doubles are exact as long as the result
    stays in the range. *)
Definition maxSafeInteger : Z := 9007199254740991.

Definition safeInteger (z : Z) : Prop :=
  - maxSafeInteger <= z <= maxSafeInteger.

(** The counts of a lot are in the range. *)
Definition safeLot (d : Inventory) : Prop :=
  safeInteger (quantity d) /\ safeInteger (reservedQuantity d)
  /\ safeInteger (availableQuantity d)
  /\ safeInteger (lowStockThreshold (alerts d)).

(** ** Computations that keep a property of the world *)

Definition preserves (P : World -> Prop) {A} (m : M A) : Prop :=
  forall w, P w -> P (snd (m w)).

(** ** Invariants of the collection *)

(** Every stored document passes the schema. *)
Definition AllValid (w : World) : Prop := Forall Valid (inventories w).

(** Every stored available quantity is the derived one. *)
Definition availableDerived (d : Inventory) : Prop :=
  availableQuantity d = Z.max 0 (quantity d - reservedQuantity d).

Definition AllDerived (w : World) : Prop :=
  Forall availableDerived (inventories w).

(** Document ids are distinct and below the id counter. *)
Definition IdsFresh (w : World) : Prop :=
  NoDup (map _id (inventories w))
  /\ Forall (fun d => (_id d < nextId w)%nat) (inventories w).

(** ** Order events with one line *)

(** The event carries one line, and the handler's query finds a lot for
    it. *)
Record Targets (event : Event) (item : OrderItem) (inv : Inventory)
    (w : World) : Prop := mkTargets {
  tg_items    : items (data event) = [item];
  tg_shop     : castObjectId (ev_shopId (data event)) = true;
  tg_medicine : castObjectId (item_medicineId item) = true;
  tg_found    : find (matchesLot (ev_shopId (data event))
                        (item_medicineId item) (item_batchNumber item))
                     (inventories w) = Some inv
}.

(** The documents the three writing handlers store for a line. *)
Definition reservedDoc (inv : Inventory) (qty : Z) : Inventory :=
  preSave (set_reservedQuantity inv (reservedQuantity inv + qty)).

Definition confirmedDoc (inv : Inventory) (qty : Z) : Inventory :=
  preSave
    (set_availableQuantity
       (set_quantity
          (set_reservedQuantity inv (reservedQuantity inv - qty))
          (quantity inv - qty))
       (Z.max 0 (quantity inv - qty - (reservedQuantity inv - qty)))).


(** ** The audit trail *)

(** The second world holds the same documents, by id, with the same
    movement lists. *)
Definition SameTrail (w w' : World) : Prop :=
  map _id (inventories w') = map _id (inventories w)
  /\ map stockMovements (inventories w')
     = map stockMovements (inventories w).

(** ** How the collection evolves *)

(** The second document is a later state of the first: same id, same shop,
    medicine and batch, and a movement list that extends the first's. *)
Definition Keeps (d d' : Inventory) : Prop :=
  _id d' = _id d /\ shopId d' = shopId d /\ medicineId d' = medicineId d
  /\ batchNumber d' = batchNumber d
  /\ exists more, stockMovements d' = (stockMovements d ++ more)%list.

(** The collection and the id counter are as before. *)
Definition Quiet (w w' : World) : Prop :=
  inventories w' = inventories w /\ nextId w' = nextId w.

(** One stored document was written over by a later state of itself. *)
Definition OneWrite (w w' : World) : Prop :=
  exists inv doc,
    In inv (inventories w) /\ Keeps inv doc
    /\ inventories w' = replaceById doc (inventories w)
    /\ nextId w' = nextId w.

(** One new document was inserted under the unique index with the next
    id. *)
Definition OneInsert (w w' : World) : Prop :=
  exists doc,
    inventories w' = (inventories w ++ [doc])%list
    /\ _id doc = nextId w /\ nextId w' = S (nextId w)
    /\ uniqueIndexHit doc (inventories w) = false.

Definition Step (w w' : World) : Prop :=
  Quiet w w' \/ OneWrite w w' \/ OneInsert w w'.

Inductive Steps : World -> World -> Prop :=
| steps_refl : forall w, Steps w w
| steps_step : forall w1 w2 w3, Steps w1 w2 -> Step w2 w3 -> Steps w1 w3.

(** What one turn of a handler's loop leaves: nothing written when the turn
    completes; nothing or one lot written when it throws. *)
Definition lineEffect (w : World) (r : Outcome unit * World) : Prop :=
  match r with
  | (Ok _, w') => Quiet w w'
  | (Throw _, w') => Quiet w w' \/ OneWrite w w'
  end.

(** A world reached by writing nothing or one lot. *)
Definition atMostOneWrite (w w' : World) : Prop := Quiet w w' \/ OneWrite w w'.


(** The key of the unique index. *)
Definition pairKey (d : Inventory) : string * string :=
  (shopId d, medicineId d).

Definition PairUnique (w : World) : Prop :=
  NoDup (map pairKey (inventories w)).

(** A user who is no admin and owns no shop. *)
Definition stranger (u : User) (w : World) : Prop :=
  String.eqb (role u) "admin" = false
  /\ forall s, In s (shops w) -> String.eqb (ownerId s) (user_id u) = false.

(** The inventory update, which writes through [findByIdAndUpdate]. *)
Definition isUpdate (op : Operation) : bool :=
  match op with
  | UpdateInventoryItem _ _ _ => true
  | _ => false
  end.

(** The two routes that write the keys of the request body over a stored
    lot: the inventory update and the bulk update. *)
Definition writesBody (op : Operation) : bool :=
  match op with
  | UpdateInventoryItem _ _ _ => true
  | BulkUpdateInventory _ _ _ => true
  | _ => false
  end.

(** The user behind a controller request. *)
Definition requester (op : Operation) : option User :=
  match op with
  | AddInventoryItem user _ => Some user
  | UpdateInventoryItem user _ _ => Some user
  | AddStockMovement user _ _ => Some user
  | BulkUpdateInventory user _ _ => Some user
  | UpdateAlertSettings user _ _ => Some user
  | OrderEvent _ => None
  end.

(** ** Worked scenarios *)

Module Scenario.

Definition shopA : string := "64b0000000000000000000a1".
Definition medA : string := "64b0000000000000000000b1".
Definition medB : string := "64b0000000000000000000b2".
Definition owner : User := mkUser "64b0000000000000000000c1" "shop_owner".
Definition buyer : string := "64b0000000000000000000d1".

Definition world0 : World :=
  initialWorld [mkShop shopA (user_id owner)] [medA; medB].

(** A create request for batch [batch] of [medicine] with [qty] units and a
    low stock threshold of 10. *)
Definition createLot (medicine batch : string) (qty : Z) : Operation :=
  AddInventoryItem owner
    (mkCreateBody shopA medicine batch qty 1000 9000000
       (onlyAlerts (mkAlerts 10 30))).

(** An order event of the given kind with one line for batch B1 of
    [medA]. *)
Definition order (kind : string) (qty : Z) : Event :=
  mkEvent kind (mkOrderData "ORD1" shopA buyer [mkItem medA "B1" qty]).

(** An order event with two lines, one per medicine. *)
Definition orderTwoLines (kind : string) (qtyA qtyB : Z) : Event :=
  mkEvent kind
    (mkOrderData "ORD2" shopA buyer
       [mkItem medA "B1" qtyA; mkItem medB "B7" qtyB]).

(** The lot of 100 units, just created. *)
Definition created : World := run [(2000, createLot medA "B1" 100)] world0.

(** Scenario A: the lot of 100 units, then [placed] for 95. *)
Definition worldA : World :=
  perform 2001 (OrderEvent (order "order.placed" 95)) created.

(** Scenario B: from A, [confirmed] for 95. *)
Definition worldB : World :=
  perform 2002 (OrderEvent (order "order.confirmed" 95)) worldA.

(** Scenario F: 10 units reserved, then [cancelled] for 30. *)
Definition reserved10 : World :=
  perform 2001 (OrderEvent (order "order.placed" 10)) created.

Definition worldF : World :=
  perform 2002 (OrderEvent (order "order.cancelled" 30)) reserved10.

End Scenario.

(** The ledger fields of a stored lot. *)
Definition ledger (d : Inventory)
  : Z * Z * Z * string * list StockMovement :=
  (quantity d, reservedQuantity d, availableQuantity d, status d,
   stockMovements d).

(** * Properties *)

(** ** Validation *)

Lemma check_nil (ok : bool) (message : string) :
  check ok message = [] <-> ok = true.
Proof. destruct ok; simpl; split; congruence. Qed.

Lemma flat_map_nil {A B} (f : A -> list B) (l : list A) :
  flat_map f l = [] <-> Forall (fun x => f x = []) l.
Proof.
  induction l as [|x l IH]; simpl.
  - split; auto.
  - split.
    + intros H. apply app_eq_nil in H as [Hx Hl].
      constructor; [exact Hx | now apply IH].
    + intros H. inversion H; subst.
      rewrite H2. simpl. now apply IH.
Qed.

Lemma validateMovement_nil (m : StockMovement) :
  validateMovement m = [] <-> movementOk m.
Proof.
  unfold validateMovement, movementOk. split.
  - intros H.
    apply app_eq_nil in H as [H1 H].
    apply app_eq_nil in H as [H2 H3].
    rewrite check_nil in H1, H2, H3. auto.
  - intros (H1 & H2 & H3). rewrite H1, H2, H3. reflexivity.
Qed.

Lemma validate_nil (d : Inventory) : validate d = [] <-> Valid d.
Proof.
  unfold validate. split.
  - intros H.
    repeat (let Hc := fresh "Hc" in
            apply app_eq_nil in H; destruct H as [Hc H]).
    repeat match goal with
           | E : check _ _ = [] |- _ => rewrite check_nil in E
           end.
    apply flat_map_nil in H.
    constructor; try (apply Z.leb_le; assumption); try assumption.
    + now apply negb_true_iff.
    + eapply Forall_impl; [|exact H]. intros m. apply validateMovement_nil.
  - intros [Hb Hq Hr Ha Hs Ht Hd Hc Hm].
    apply Z.leb_le in Hq, Hr, Ha, Ht, Hd.
    rewrite Hb, Hq, Hr, Ha, Hs, Ht, Hd, Hc. simpl.
    apply flat_map_nil.
    eapply Forall_impl; [|exact Hm]. intros m. apply validateMovement_nil.
Qed.

Lemma validate_negative_quantity (d : Inventory) :
  quantity d < 0 -> validate d <> [].
Proof.
  intros Hq Hv. apply validate_nil in Hv. destruct Hv. lia.
Qed.

Lemma validate_negative_reserved (d : Inventory) :
  reservedQuantity d < 0 -> validate d <> [].
Proof.
  intros Hq Hv. apply validate_nil in Hv. destruct Hv. lia.
Qed.

Lemma validate_bad_movement (d : Inventory) (m : StockMovement) :
  In m (stockMovements d) -> ~ movementOk m -> validate d <> [].
Proof.
  intros Hin Hbad Hv. apply validate_nil in Hv. destruct Hv as [? ? ? ? ? ? ? ? Hm].
  rewrite Forall_forall in Hm. auto.
Qed.

Lemma Valid_preSave (d : Inventory) : Valid d -> Valid (preSave d).
Proof.
  intros []. constructor; simpl; auto. lia.
Qed.

(** ** The primitives, by cases *)

(** A write that keeps the shop and the medicine of the stored document
    passes the unique index. *)
Lemma indexConflict_kept (doc inv : Inventory) (db : list Inventory) :
  In inv db -> _id doc = _id inv -> shopId doc = shopId inv ->
  medicineId doc = medicineId inv ->
  indexConflict doc db = false.
Proof.
  intros Hin Hid Hs Hm. unfold indexConflict.
  apply andb_false_iff. left. apply negb_false_iff. apply existsb_exists.
  exists inv. split; [exact Hin|].
  now rewrite Hid, Hs, Hm, Nat.eqb_refl, !String.eqb_refl.
Qed.

Lemma save_valid (doc : Inventory) (w : World) :
  Valid doc -> indexConflict (preSave doc) (inventories w) = false ->
  save doc w
  = (Ok (preSave doc),
     set_inventories w (replaceById (preSave doc) (inventories w))).
Proof.
  intros H Hi. apply validate_nil in H. unfold save. now rewrite H, Hi.
Qed.

(** [save()] of a valid document that is a stored document with its shop
    and medicine unchanged. *)
Lemma save_kept (doc inv : Inventory) (w : World) :
  Valid doc -> In inv (inventories w) -> _id doc = _id inv ->
  shopId doc = shopId inv -> medicineId doc = medicineId inv ->
  save doc w
  = (Ok (preSave doc),
     set_inventories w (replaceById (preSave doc) (inventories w))).
Proof.
  intros Hv Hin Hid Hs Hm. apply save_valid; [exact Hv|].
  now apply indexConflict_kept with (inv := inv).
Qed.

Lemma save_invalid (doc : Inventory) (w : World) :
  validate doc <> [] ->
  save doc w = (Throw (ValidationError (validate doc)), w).
Proof.
  intros H. unfold save. destruct (validate doc); [congruence | reflexivity].
Qed.

Lemma save_cases (doc : Inventory) (w : World) :
  (Valid doc /\ indexConflict (preSave doc) (inventories w) = false
   /\ save doc w
      = (Ok (preSave doc),
         set_inventories w (replaceById (preSave doc) (inventories w))))
  \/ (exists e, save doc w = (Throw e, w)).
Proof.
  destruct (validate doc) eqn:E.
  - destruct (indexConflict (preSave doc) (inventories w)) eqn:C.
    + right. eexists. unfold save. now rewrite E, C.
    + left. apply validate_nil in E.
      split; [exact E | split; [reflexivity | now apply save_valid]].
  - right. eexists. unfold save. now rewrite E.
Qed.

(** ** The stored list under a write *)

Lemma replaceById_ids (doc : Inventory) (db : list Inventory) :
  map _id (replaceById doc db) = map _id db.
Proof.
  induction db as [|d db IH]; simpl; [reflexivity|].
  destruct (Nat.eqb (_id d) (_id doc)) eqn:E; simpl.
  - apply Nat.eqb_eq in E. now rewrite E.
  - now rewrite IH.
Qed.

Lemma replaceById_Forall (Q : Inventory -> Prop) (doc : Inventory)
    (db : list Inventory) :
  Q doc -> Forall Q db -> Forall Q (replaceById doc db).
Proof.
  intros Hdoc Hdb. induction Hdb as [|d db Hd Hdb IH]; simpl.
  - constructor.
  - destruct (Nat.eqb (_id d) (_id doc)); constructor; auto.
Qed.

(** Looking a document up again after it was written back: the query finds
    the written document, whatever else the collection holds. *)
Lemma find_replaceById (f : Inventory -> bool) (doc d : Inventory)
    (db : list Inventory) :
  find f db = Some d -> _id doc = _id d -> f doc = true ->
  find f (replaceById doc db) = Some doc.
Proof.
  intros Hfind Hid Hf. induction db as [|h db IH]; simpl in *; [discriminate|].
  destruct (Nat.eqb (_id h) (_id doc)) eqn:E; simpl.
  - now rewrite Hf.
  - destruct (f h) eqn:Fh.
    + injection Hfind as ->. apply Nat.eqb_neq in E. congruence.
    + auto.
Qed.

Lemma replaceById_movements (doc d : Inventory) (db : list Inventory) :
  NoDup (map _id db) -> In d db -> _id doc = _id d ->
  stockMovements doc = stockMovements d ->
  map stockMovements (replaceById doc db) = map stockMovements db.
Proof.
  intros Hnd Hin Hid Hmv. induction db as [|h db IH]; simpl in *; [reflexivity|].
  inversion Hnd as [|? ? Hnotin Hnd']; subst.
  destruct (Nat.eqb (_id h) (_id doc)) eqn:E; simpl.
  - apply Nat.eqb_eq in E. destruct Hin as [->|Hin]; [now rewrite Hmv|].
    exfalso. apply Hnotin. rewrite E, Hid. now apply in_map.
  - apply Nat.eqb_neq in E. destruct Hin as [->|Hin]; [congruence|].
    f_equal. auto.
Qed.

(** ** The movement method *)

Section ApplyMovement.

Variables (self : Inventory) (now : Z) (type : string) (qty : Z)
          (reason performedBy : string) (reference : option string)
          (notes : string).

Let movement : StockMovement :=
  movementOf now type qty reason performedBy reference notes.
Let after : Inventory :=
  applyMovement self now type qty reason performedBy reference notes.

Lemma applyMovement_quantity :
  quantity after
  = if String.eqb type "in" then quantity self + qty
    else if String.eqb type "out" then quantity self - qty
    else if String.eqb type "adjustment" then qty
    else quantity self.
Proof.
  subst after. unfold applyMovement.
  destruct (String.eqb type "in"), (String.eqb type "out"),
    (String.eqb type "adjustment"); reflexivity.
Qed.

Lemma applyMovement_movements :
  stockMovements after = (stockMovements self ++ [movement])%list.
Proof.
  subst after movement. unfold applyMovement.
  destruct (String.eqb type "in"), (String.eqb type "out"),
    (String.eqb type "adjustment"); reflexivity.
Qed.

Lemma applyMovement_reserved :
  reservedQuantity after = reservedQuantity self.
Proof.
  subst after. unfold applyMovement.
  destruct (String.eqb type "in"), (String.eqb type "out"),
    (String.eqb type "adjustment"); reflexivity.
Qed.

Lemma applyMovement_available :
  availableQuantity after
  = Z.max 0 (quantity after - reservedQuantity after).
Proof.
  subst after. unfold applyMovement.
  destruct (String.eqb type "in"), (String.eqb type "out"),
    (String.eqb type "adjustment"); reflexivity.
Qed.

Lemma applyMovement_id : _id after = _id self.
Proof.
  subst after. unfold applyMovement.
  destruct (String.eqb type "in"), (String.eqb type "out"),
    (String.eqb type "adjustment"); reflexivity.
Qed.

Lemma applyMovement_status :
  status after
  = if expiryDate self <? now then "expired"
    else if quantity after =? 0 then "out-of-stock"
    else if availableQuantity after <=? lowStockThreshold (alerts self)
         then "low-stock"
    else "active".
Proof.
  subst after. unfold applyMovement, isExpired, isLowStock.
  destruct (String.eqb type "in"), (String.eqb type "out"),
    (String.eqb type "adjustment"); reflexivity.
Qed.

Lemma applyMovement_keys :
  shopId after = shopId self /\ medicineId after = medicineId self
  /\ batchNumber after = batchNumber self.
Proof.
  subst after. unfold applyMovement.
  destruct (String.eqb type "in"), (String.eqb type "out"),
    (String.eqb type "adjustment"); auto.
Qed.

(** The method on a stored lot: when the changed document passes the
    schema, it is written. *)
Lemma addStockMovement_saved (w : World) :
  In self (inventories w) -> Valid after ->
  Inventory_addStockMovement self now type qty reason performedBy reference
    notes w
  = (Ok (preSave after),
     set_inventories w (replaceById (preSave after) (inventories w))).
Proof.
  intros Hin Hv. unfold Inventory_addStockMovement.
  destruct applyMovement_keys as (Ks & Km & _).
  apply save_kept with (inv := self); auto. apply applyMovement_id.
Qed.

(** A movement the schema refuses is never written: the method throws the
    validation error and the collection is as before. *)
Lemma addStockMovement_rejected (w : World) :
  ~ movementOk movement ->
  Inventory_addStockMovement self now type qty reason performedBy reference
    notes w
  = (Throw (ValidationError (validate after)), w)
  /\ validate after <> [].
Proof.
  intros Hbad.
  assert (validate after <> []) as Hne.
  { apply validate_bad_movement with (m := movement); [|exact Hbad].
    rewrite applyMovement_movements. apply in_or_app. right. now left. }
  split; [|exact Hne].
  unfold Inventory_addStockMovement. now apply save_invalid.
Qed.

(** When the document was valid, the entry is valid, and the new on-hand
    quantity is positive, the method writes the changed document. *)
Lemma applyMovement_Valid :
  Valid self -> movementOk movement -> 0 < quantity after -> Valid after.
Proof.
  intros [Hb Hq Hr Ha Hs Ht Hd Hc Hm] Hmv Hpos.
  assert (batchNumber after = batchNumber self
          /\ alerts after = alerts self
          /\ createdBy after = createdBy self) as (E1 & E2 & E3).
  { subst after. unfold applyMovement.
    destruct (String.eqb type "in"), (String.eqb type "out"),
      (String.eqb type "adjustment"); auto. }
  constructor.
  - now rewrite E1.
  - lia.
  - now rewrite applyMovement_reserved.
  - rewrite applyMovement_available. lia.
  - rewrite applyMovement_status.
    destruct (expiryDate self <? now); [reflexivity|].
    destruct (quantity after =? 0) eqn:E; [apply Z.eqb_eq in E; lia|].
    destruct (availableQuantity after <=? lowStockThreshold (alerts self));
      reflexivity.
  - now rewrite E2.
  - now rewrite E2.
  - now rewrite E3.
  - rewrite applyMovement_movements. apply Forall_app. split; [exact Hm|].
    constructor; [exact Hmv | constructor].
Qed.

End ApplyMovement.

(** ** The update, field by field *)

Lemma assignOther_id (d : Inventory) (o : OtherData) :
  _id (assignOther d o) = _id d.
Proof.
  unfold assignOther.
  destruct (od_reservedQuantity o), (od_availableQuantity o), (od_status o),
    (od_alerts o), (od_shopId o), (od_medicineId o), (od_batchNumber o),
    (od_manufacturingDate o), (od_expiryDate o), (od_stockMovements o),
    (od_lastStockUpdate o), (od_createdBy o); reflexivity.
Qed.

Lemma update_id (d : Inventory) (b : UpdateBody) :
  _id (applyInc (applyUpdate d b) (od_inc (u_other b))) = _id d.
Proof.
  unfold applyInc, applyUpdate. simpl. rewrite assignOther_id.
  destruct (u_quantity b); reflexivity.
Qed.

(** ** Properties of the world kept by every computation *)

Section Preservation.

Variable P : World -> Prop.

(** [P] reads the collection and the id counter only. *)
Hypothesis P_console :
  forall w c p,
    P w ->
    P (mkWorld (inventories w) (shops w) (medicines w) (nextId w) c p).

(** [P] survives the write of a valid document that passed the unique
    index. *)
Hypothesis P_save :
  forall doc w,
    Valid doc -> indexConflict (preSave doc) (inventories w) = false ->
    P w ->
    P (set_inventories w (replaceById (preSave doc) (inventories w))).

(** [P] survives the insert of a valid new document under the unique
    index. *)
Hypothesis P_create :
  forall doc w,
    Valid doc -> _id doc = nextId w ->
    uniqueIndexHit (preSave doc) (inventories w) = false -> P w ->
    P (mkWorld (inventories w ++ [preSave doc]) (shops w) (medicines w)
               (S (nextId w)) (console w) (published w)).

Lemma preserves_ret {A} (a : A) : preserves P (ret a).
Proof. intros w Hw. exact Hw. Qed.

Lemma preserves_throw {A} (e : Err) : preserves P (@throw A e).
Proof. intros w Hw. exact Hw. Qed.

Lemma preserves_bind {A B} (m : M A) (f : A -> M B) :
  preserves P m -> (forall a, preserves P (f a)) -> preserves P (bind m f).
Proof.
  intros Hm Hf w Hw. unfold bind. specialize (Hm w Hw).
  destruct (m w) as [[a|e] w']; simpl in *; [now apply Hf | exact Hm].
Qed.

Lemma preserves_tryCatch {A} (body : M A) (handler : Err -> M A) :
  preserves P body -> (forall e, preserves P (handler e)) ->
  preserves P (tryCatch body handler).
Proof.
  intros Hm Hf w Hw. unfold tryCatch. specialize (Hm w Hw).
  destruct (body w) as [[a|e] w']; simpl in *; [exact Hm | now apply Hf].
Qed.

Lemma preserves_forOf {A} (xs : list A) (body : A -> M unit) :
  (forall x, preserves P (body x)) -> preserves P (forOf xs body).
Proof.
  intros Hb. induction xs as [|x xs IH]; simpl.
  - apply preserves_ret.
  - apply preserves_bind; auto.
Qed.

Lemma preserves_console_log (msg : string) : preserves P (console_log msg).
Proof. intros w Hw. simpl. now apply P_console. Qed.

Lemma preserves_console_error (msg : string) :
  preserves P (console_error msg).
Proof. intros w Hw. simpl. now apply P_console. Qed.

Lemma preserves_publishEvent (topic eventType : string) :
  preserves P (publishEvent topic eventType).
Proof. intros w Hw. simpl. now apply P_console. Qed.

Lemma preserves_validated {A} (ok : bool) (m : M A) :
  preserves P m -> preserves P (validated ok m).
Proof. intros H. destruct ok; simpl; [exact H | apply preserves_throw]. Qed.

Lemma preserves_findOne (s m b : string) :
  preserves P (Inventory_findOne s m b).
Proof.
  intros w Hw. unfold Inventory_findOne.
  destruct (negb (castObjectId s)), (negb (castObjectId m)); exact Hw.
Qed.

Lemma preserves_findOneByMedicine (s m : string) :
  preserves P (Inventory_findOneByMedicine s m).
Proof.
  intros w Hw. unfold Inventory_findOneByMedicine.
  destruct (negb (castObjectId s)), (negb (castObjectId m)); exact Hw.
Qed.

Lemma preserves_findById (id : nat) : preserves P (Inventory_findById id).
Proof. intros w Hw. exact Hw. Qed.

Lemma preserves_shop_findById (id : string) :
  preserves P (MedicalShop_findById id).
Proof.
  intros w Hw. unfold MedicalShop_findById.
  destruct (negb (castObjectId id)); exact Hw.
Qed.

Lemma preserves_medicine_findById (id : string) :
  preserves P (Medicine_findById id).
Proof.
  intros w Hw. unfold Medicine_findById.
  destruct (negb (castObjectId id)); exact Hw.
Qed.

Lemma preserves_save (doc : Inventory) : preserves P (save doc).
Proof.
  intros w Hw. destruct (save_cases doc w) as [(Hv & Hi & ->)|[e ->]]; simpl.
  - now apply P_save.
  - exact Hw.
Qed.

Lemma preserves_create (now : Z) (data : InventoryData) :
  preserves P (Inventory_create now data).
Proof.
  intros w Hw. unfold Inventory_create.
  match goal with |- context [validate ?d] => set (doc := d) end.
  destruct (validate doc) eqn:E; [|exact Hw].
  destruct (uniqueIndexHit (preSave doc) (inventories w)) eqn:U; [exact Hw|].
  simpl. apply P_create; auto. now apply validate_nil.
Qed.

Lemma preserves_addStockMovement self now type qty reason by_ ref notes :
  preserves P
    (Inventory_addStockMovement self now type qty reason by_ ref notes).
Proof. apply preserves_save. Qed.

Ltac preserve :=
  repeat first
    [ apply preserves_ret
    | apply preserves_throw
    | apply preserves_console_log
    | apply preserves_console_error
    | apply preserves_publishEvent
    | apply preserves_findOne
    | apply preserves_findOneByMedicine
    | apply preserves_findById
    | apply preserves_shop_findById
    | apply preserves_medicine_findById
    | apply preserves_save
    | apply preserves_create
    | apply preserves_addStockMovement
    | apply preserves_validated
    | apply preserves_bind; [|intros ?]
    | apply preserves_tryCatch; [|intros ?]
    | apply preserves_forOf; intros ?
    | match goal with
      | |- preserves _ (match ?x with _ => _ end) => destruct x
      end ].

Lemma preserves_addInventoryItem now user body :
  preserves P (Controller.addInventoryItem now user body).
Proof. unfold Controller.addInventoryItem. preserve. Qed.

Lemma preserves_ctl_addStockMovement now user id body :
  preserves P (Controller.addStockMovement now user id body).
Proof. unfold Controller.addStockMovement. preserve. Qed.

Lemma preserves_updateAlertSettings user id settings :
  preserves P (Controller.updateAlertSettings user id settings).
Proof. unfold Controller.updateAlertSettings. preserve. Qed.

Lemma preserves_bulkItem shop item :
  preserves P (Controller.bulkItem shop item).
Proof. unfold Controller.bulkItem. cbv zeta. preserve. Qed.

Lemma preserves_bulkLoop shop items results :
  preserves P (Controller.bulkLoop shop items results).
Proof.
  revert results. induction items as [|item items IH]; intros results w Hw.
  - exact Hw.
  - simpl. pose proof (preserves_bulkItem shop item w Hw) as H.
    destruct (Controller.bulkItem shop item w) as [[entry|e] w'];
      simpl in H; now apply IH.
Qed.

Lemma preserves_bulkUpdateInventory user shop items :
  preserves P (Controller.bulkUpdateInventory user shop items).
Proof.
  unfold Controller.bulkUpdateInventory.
  preserve. apply preserves_bulkLoop.
Qed.

Lemma preserves_handleOrderEvents now event :
  preserves P (Handlers.handleOrderEvents now event).
Proof.
  unfold Handlers.handleOrderEvents, Handlers.handleOrderPlaced,
    Handlers.handleOrderConfirmed, Handlers.handleOrderCancelled,
    Handlers.handleOrderDelivered, Handlers.placedItem,
    Handlers.confirmedItem, Handlers.cancelledItem, Handlers.deliveredItem.
  cbv zeta. preserve.
Qed.

(** Every operation but the inventory update goes through [save()] or
    [create()]. *)
Lemma perform_preserves_saving now op w :
  (forall user id body, op <> UpdateInventoryItem user id body) ->
  P w -> P (perform now op w).
Proof.
  intros Hop Hw. destruct op; simpl; unfold execWorld.
  - apply preserves_validated; [apply preserves_addInventoryItem | exact Hw].
  - exfalso. eapply Hop. reflexivity.
  - apply preserves_validated;
      [apply preserves_ctl_addStockMovement | exact Hw].
  - apply preserves_validated;
      [apply preserves_bulkUpdateInventory | exact Hw].
  - apply preserves_validated;
      [apply preserves_updateAlertSettings | exact Hw].
  - now apply preserves_handleOrderEvents.
Qed.

Lemma run_preserves_saving trace w :
  forallb (fun step => negb (isUpdate (snd step))) trace = true ->
  P w -> P (run trace w).
Proof.
  revert w. induction trace as [|[now op] trace IH]; intros w Ht Hw; simpl.
  - exact Hw.
  - simpl in Ht. apply andb_true_iff in Ht as [Hop Ht].
    apply IH; [exact Ht|]. apply perform_preserves_saving; [|exact Hw].
    intros user id body ->. discriminate.
Qed.

(** [P] survives the write of [findByIdAndUpdate]: any document with the id
    of a stored one that passed the unique index. *)
Hypothesis P_update :
  forall d doc w,
    In d (inventories w) -> _id doc = _id d ->
    indexConflict doc (inventories w) = false -> P w ->
    P (set_inventories w (replaceById doc (inventories w))).

Lemma preserves_findByIdAndUpdate id body :
  preserves P (Inventory_findByIdAndUpdate id body).
Proof.
  intros w Hw. unfold Inventory_findByIdAndUpdate.
  destruct (castUpdate body); [exact Hw|].
  destruct (validateUpdate body) eqn:E; [|exact Hw].
  destruct (updateConflict body); [exact Hw|].
  destruct (find _ (inventories w)) as [d|] eqn:F; [|exact Hw].
  destruct (indexConflict _ (inventories w)) eqn:C; [exact Hw|].
  simpl. apply P_update with (d := d); auto.
  - now apply find_some in F.
  - apply update_id.
Qed.

Lemma preserves_updateInventoryItem user id body :
  preserves P (Controller.updateInventoryItem user id body).
Proof.
  unfold Controller.updateInventoryItem.
  preserve. apply preserves_findByIdAndUpdate.
Qed.

Lemma perform_preserves now op w : P w -> P (perform now op w).
Proof.
  intros Hw. destruct op.
  2: { simpl; unfold execWorld.
       apply preserves_validated;
         [apply preserves_updateInventoryItem | exact Hw]. }
  all: apply perform_preserves_saving; [discriminate | exact Hw].
Qed.

Lemma run_preserves trace w : P w -> P (run trace w).
Proof.
  revert w. induction trace as [|[now op] trace IH]; intros w Hw; simpl.
  - exact Hw.
  - apply IH. now apply perform_preserves.
Qed.

End Preservation.

(** ** Invariants of the collection *)

Lemma NoDup_snoc {A} (l : list A) (x : A) :
  NoDup l -> ~ In x l -> NoDup (l ++ [x]).
Proof.
  intros Hnd Hnot. induction Hnd as [|y l Hy Hnd IH]; simpl.
  - constructor; [intros [] | constructor].
  - constructor.
    + intros Hin. apply in_app_or in Hin as [Hin|[Hin|[]]]; [auto|].
      apply Hnot. now left.
    + apply IH. intros Hin. apply Hnot. now right.
Qed.

Lemma replaceById_absent (doc : Inventory) (db : list Inventory) :
  ~ In (_id doc) (map _id db) -> replaceById doc db = db.
Proof.
  intros Hnot. induction db as [|h db IH]; simpl in *; [reflexivity|].
  destruct (Nat.eqb (_id h) (_id doc)) eqn:E.
  - apply Nat.eqb_eq in E. exfalso. apply Hnot. now left.
  - f_equal. apply IH. intros Hin. apply Hnot. now right.
Qed.

Lemma IdsFresh_write (doc : Inventory) (w : World) :
  IdsFresh w ->
  IdsFresh (set_inventories w (replaceById doc (inventories w))).
Proof.
  intros Hw.
  destruct (in_dec Nat.eq_dec (_id doc) (map _id (inventories w)))
    as [Hin|Hnot].
  - destruct Hw as [Hnd Hlt]. split; simpl.
    + now rewrite replaceById_ids.
    + apply replaceById_Forall; [|exact Hlt].
      apply in_map_iff in Hin as (d & E & Hd).
      rewrite Forall_forall in Hlt. rewrite <- E. now apply Hlt.
  - rewrite replaceById_absent by exact Hnot. destruct w; exact Hw.
Qed.

Lemma IdsFresh_run shops medicines trace :
  IdsFresh (run trace (initialWorld shops medicines)).
Proof.
  apply run_preserves.
  - intros w c p H. exact H.
  - intros doc w _ _ H. now apply IdsFresh_write.
  - intros doc w _ Hid _ [Hnd Hlt]. split; simpl.
    + rewrite map_app. simpl. apply NoDup_snoc; [exact Hnd|].
      intros Hin. apply in_map_iff in Hin as (d & E & Hd).
      rewrite Forall_forall in Hlt. specialize (Hlt d Hd). lia.
    + apply Forall_app. split.
      * eapply Forall_impl; [|exact Hlt]. intros d Hd. simpl in *. lia.
      * constructor; [simpl; lia | constructor].
  - intros d doc w _ _ _ H. now apply IdsFresh_write.
  - split; constructor.
Qed.

(** ** The order handlers on an event with one line *)

Lemma findOne_found (s m b : string) (w : World) :
  castObjectId s = true -> castObjectId m = true ->
  Inventory_findOne s m b w = (Ok (find (matchesLot s m b) (inventories w)), w).
Proof. intros Hs Hm. unfold Inventory_findOne. now rewrite Hs, Hm. Qed.

(** The reasons the order handlers pass are not reasons of the schema. *)
Lemma order_movement_refused type qty reason reference performedBy notes now :
  reason = "order_reservation" \/ reason = "order_confirmed"
  \/ reason = "order_cancelled" ->
  ~ movementOk
      (movementOf now type qty reason performedBy reference notes).
Proof.
  intros H (_ & Hr & _). simpl in Hr.
  destruct H as [ -> | [ -> | -> ] ]; discriminate.
Qed.

Section OneLine.

Variables (now : Z) (d : OrderData) (item : OrderItem) (inv : Inventory)
          (w : World).

Hypothesis shop_ok : castObjectId (ev_shopId d) = true.
Hypothesis medicine_ok : castObjectId (item_medicineId item) = true.
Hypothesis found :
  find (matchesLot (ev_shopId d) (item_medicineId item)
          (item_batchNumber item)) (inventories w) = Some inv.

Let qty := item_quantity item.

Lemma placedItem_reserves :
  Valid inv -> qty <= availableQuantity inv ->
  0 <= reservedQuantity inv + qty ->
  exists errs,
    Handlers.placedItem now d item w
    = (Throw (ValidationError errs),
       set_inventories w (replaceById (reservedDoc inv qty) (inventories w))).
Proof.
  intros Hv Hav Hres. unfold Handlers.placedItem, bind.
  rewrite findOne_found, found by assumption.
  destruct (availableQuantity inv <? item_quantity item) eqn:E;
    [apply Z.ltb_lt in E; subst qty; lia|].
  pose proof (find_some _ _ found) as [Hin _].
  cbv zeta. rewrite save_kept with (inv := inv); try reflexivity; auto.
  2: { destruct Hv. constructor; simpl; auto. }
  match goal with
  | |- context [Inventory_addStockMovement ?s ?n ?t ?q ?r ?p ?rf ?nt ?w0] =>
      destruct (addStockMovement_rejected s n t q r p rf nt w0) as [-> _]
  end.
  - apply order_movement_refused. auto.
  - eexists. reflexivity.
Qed.

Lemma placedItem_insufficient :
  availableQuantity inv < qty ->
  inventories (snd (Handlers.placedItem now d item w)) = inventories w.
Proof.
  intros Hav. unfold Handlers.placedItem, bind.
  rewrite findOne_found, found by assumption.
  apply Z.ltb_lt in Hav. subst qty. now rewrite Hav.
Qed.

Lemma confirmedItem_commits :
  Valid inv -> qty <= reservedQuantity inv -> qty <= quantity inv ->
  exists errs,
    Handlers.confirmedItem now d item w
    = (Throw (ValidationError errs),
       set_inventories w (replaceById (confirmedDoc inv qty) (inventories w))).
Proof.
  intros Hv Hres Hq. unfold Handlers.confirmedItem, bind.
  rewrite findOne_found, found by assumption.
  pose proof (find_some _ _ found) as [Hin _].
  cbv zeta. rewrite save_kept with (inv := inv); try reflexivity; auto.
  2: { destruct Hv. constructor; simpl; auto; subst qty; lia. }
  match goal with
  | |- context [Inventory_addStockMovement ?s ?n ?t ?q ?r ?p ?rf ?nt ?w0] =>
      destruct (addStockMovement_rejected s n t q r p rf nt w0) as [-> _]
  end.
  - apply order_movement_refused. auto.
  - eexists. reflexivity.
Qed.

Lemma confirmedItem_rejected :
  reservedQuantity inv < qty \/ quantity inv < qty ->
  exists errs,
    Handlers.confirmedItem now d item w = (Throw (ValidationError errs), w).
Proof.
  intros Hneg. unfold Handlers.confirmedItem, bind.
  rewrite findOne_found, found by assumption.
  cbv zeta. rewrite save_invalid.
  - eexists. reflexivity.
  - destruct Hneg as [H|H].
    + apply validate_negative_reserved. simpl. subst qty. lia.
    + apply validate_negative_quantity. simpl. subst qty. lia.
Qed.


End OneLine.

(** What a handler leaves in the collection is what its loop leaves: the
    lines written to the console around the loop do not touch it. *)
Lemma loop_single (body : OrderItem -> M unit) (item : OrderItem)
    (before after : string) (failure : Err -> string) (w : World) :
  inventories
    (snd ((console_log before ;;
           tryCatch (forOf [item] body ;; console_log after)
                    (fun e => console_error (failure e))) w))
  = inventories (snd (body item (snd (console_log before w)))).
Proof.
  unfold bind, tryCatch. simpl. unfold bind.
  destruct (body item _) as [[[]|e] w']; reflexivity.
Qed.

Lemma dispatch_inventories (now : Z) (event : Event) (w : World) :
  inventories (execWorld (Handlers.handleOrderEvents now event) w)
  = inventories
      (snd ((if String.eqb (ev_type event) "order.placed"
             then Handlers.handleOrderPlaced now event
             else if String.eqb (ev_type event) "order.confirmed"
             then Handlers.handleOrderConfirmed now event
             else if String.eqb (ev_type event) "order.delivered"
             then Handlers.handleOrderDelivered event
             else if String.eqb (ev_type event) "order.cancelled"
             then Handlers.handleOrderCancelled now event
             else console_log ("Unhandled order event: " ++ ev_type event))
            w)).
Proof.
  unfold execWorld, Handlers.handleOrderEvents, tryCatch.
  match goal with |- context [match ?m w with _ => _ end] =>
    destruct (m w) as [[[]|e] w'] end; reflexivity.
Qed.

Section OneLineEvent.

Variables (now : Z) (event : Event) (item : OrderItem) (inv : Inventory)
          (w : World).

Hypothesis target : Targets event item inv w.

Let qty := item_quantity item.
Let after : list Inventory :=
  inventories (execWorld (Handlers.handleOrderEvents now event) w).

Lemma placed_reserves :
  ev_type event = "order.placed" ->
  Valid inv -> qty <= availableQuantity inv ->
  0 <= reservedQuantity inv + qty ->
  after = replaceById (reservedDoc inv qty) (inventories w).
Proof.
  intros Ht Hv Hav Hres. destruct target as [Hi Hs Hm Hf].
  subst after. rewrite dispatch_inventories, Ht. simpl.
  unfold Handlers.handleOrderPlaced. cbv zeta. rewrite Hi, loop_single.
  edestruct placedItem_reserves as [errs ->]; eauto.
Qed.

Lemma placed_insufficient :
  ev_type event = "order.placed" ->
  availableQuantity inv < qty ->
  after = inventories w.
Proof.
  intros Ht Hav. destruct target as [Hi Hs Hm Hf].
  subst after. rewrite dispatch_inventories, Ht. simpl.
  unfold Handlers.handleOrderPlaced. cbv zeta. rewrite Hi, loop_single.
  rewrite placedItem_insufficient with (inv := inv); auto.
Qed.

Lemma confirmed_commits :
  ev_type event = "order.confirmed" ->
  Valid inv -> qty <= reservedQuantity inv -> qty <= quantity inv ->
  after = replaceById (confirmedDoc inv qty) (inventories w).
Proof.
  intros Ht Hv Hres Hq. destruct target as [Hi Hs Hm Hf].
  subst after. rewrite dispatch_inventories, Ht. simpl.
  unfold Handlers.handleOrderConfirmed. cbv zeta. rewrite Hi, loop_single.
  edestruct confirmedItem_commits as [errs ->]; eauto.
Qed.

Lemma confirmed_rejected :
  ev_type event = "order.confirmed" ->
  reservedQuantity inv < qty \/ quantity inv < qty ->
  after = inventories w.
Proof.
  intros Ht Hneg. destruct target as [Hi Hs Hm Hf].
  subst after. rewrite dispatch_inventories, Ht. simpl.
  unfold Handlers.handleOrderConfirmed. cbv zeta. rewrite Hi, loop_single.
  edestruct confirmedItem_rejected as [errs ->]; eauto.
Qed.


End OneLineEvent.

(** ** The audit trail under the order handlers *)

Lemma SameTrail_refl (w : World) : SameTrail w w.
Proof. split; reflexivity. Qed.

Lemma SameTrail_trans (w1 w2 w3 : World) :
  SameTrail w1 w2 -> SameTrail w2 w3 -> SameTrail w1 w3.
Proof. intros [A B] [C D]. split; congruence. Qed.

Lemma SameTrail_console (w : World) c p :
  SameTrail w
    (mkWorld (inventories w) (shops w) (medicines w) (nextId w) c p).
Proof. split; reflexivity. Qed.

(** The shape shared by the three writing handlers: save the changed
    document, then call the movement method with an order reason. *)
Lemma SameTrail_save_then_movement (doc inv : Inventory) (now : Z)
    (type reason performedBy : string) (qtyOf : Inventory -> Z)
    (reference : option string) (notes : string) (w : World) :
  reason = "order_reservation" \/ reason = "order_confirmed"
  \/ reason = "order_cancelled" ->
  NoDup (map _id (inventories w)) -> In inv (inventories w) ->
  _id doc = _id inv -> stockMovements doc = stockMovements inv ->
  SameTrail w
    (snd ((inventory <- save doc ;;
           Inventory_addStockMovement inventory now type (qtyOf inventory)
             reason performedBy reference notes ;;
           ret tt) w)).
Proof.
  intros Hreason Hnd Hin Hid Hmv. unfold bind.
  destruct (save_cases doc w) as [(Hv & _ & ->)|[e ->]];
    [|apply SameTrail_refl].
  match goal with
  | |- context [Inventory_addStockMovement ?s ?n ?t ?q ?r ?p ?rf ?nt ?w0] =>
      destruct (addStockMovement_rejected s n t q r p rf nt w0) as [-> _]
  end.
  - now apply order_movement_refused.
  - split; simpl.
    + apply replaceById_ids.
    + now apply replaceById_movements with (d := inv).
Qed.

Section TrailOfHandlers.

Variables (now : Z) (d : OrderData).

Ltac open_query :=
  unfold bind, Inventory_findOne;
  match goal with
  | |- context [castObjectId ?s] => destruct (castObjectId s); simpl
  end;
  [|apply SameTrail_refl];
  match goal with
  | |- context [castObjectId ?s] => destruct (castObjectId s); simpl
  end;
  [|apply SameTrail_refl];
  match goal with
  | |- context [find ?f ?l] =>
      let F := fresh "F" in
      destruct (find f l) as [inv|] eqn:F;
      [apply find_some in F as [F _]|]
  end.

Lemma SameTrail_placedItem item w :
  NoDup (map _id (inventories w)) ->
  SameTrail w (snd (Handlers.placedItem now d item w)).
Proof.
  intros Hnd. unfold Handlers.placedItem. open_query.
  - destruct (availableQuantity inv <? item_quantity item).
    + apply SameTrail_console.
    + cbv zeta.
      apply (SameTrail_save_then_movement _ inv now "out" "order_reservation"
               (userId d) (fun _ => item_quantity item)); auto.
  - apply SameTrail_console.
Qed.

Lemma SameTrail_confirmedItem item w :
  NoDup (map _id (inventories w)) ->
  SameTrail w (snd (Handlers.confirmedItem now d item w)).
Proof.
  intros Hnd. unfold Handlers.confirmedItem. open_query.
  - cbv zeta.
    apply (SameTrail_save_then_movement _ inv now "out" "order_confirmed"
             (userId d) (fun _ => item_quantity item)); auto.
  - apply SameTrail_refl.
Qed.

Lemma SameTrail_cancelledItem item w :
  NoDup (map _id (inventories w)) ->
  SameTrail w (snd (Handlers.cancelledItem now d item w)).
Proof.
  intros Hnd. unfold Handlers.cancelledItem. open_query.
  - cbv zeta.
    apply (SameTrail_save_then_movement _ inv now "adjustment"
             "order_cancelled" "system" quantity); auto.
  - apply SameTrail_refl.
Qed.

Lemma SameTrail_deliveredItem item w :
  SameTrail w (snd (Handlers.deliveredItem d item w)).
Proof.
  unfold Handlers.deliveredItem, bind, Inventory_findOneByMedicine.
  destruct (castObjectId (ev_shopId d)); simpl; [|apply SameTrail_refl].
  destruct (castObjectId (item_medicineId item)); simpl;
    [|apply SameTrail_refl].
  destruct (find _ (inventories w)) as [inv|]; [|apply SameTrail_refl].
  destruct (isLowStock inv); [apply SameTrail_console | apply SameTrail_refl].
Qed.

Lemma SameTrail_forOf (body : OrderItem -> M unit) :
  (forall item w, NoDup (map _id (inventories w)) ->
                  SameTrail w (snd (body item w))) ->
  forall xs w, NoDup (map _id (inventories w)) ->
               SameTrail w (snd (forOf xs body w)).
Proof.
  intros Hbody xs. induction xs as [|x xs IH]; intros w Hnd; simpl.
  - apply SameTrail_refl.
  - unfold bind. pose proof (Hbody x w Hnd) as Hx.
    destruct (body x w) as [[[]|e] w']; simpl in Hx; [|exact Hx].
    apply SameTrail_trans with (w2 := w'); [exact Hx|].
    apply IH. destruct Hx as [Hids _]. now rewrite Hids.
Qed.

(** The loop followed by the closing console line. *)
Lemma SameTrail_then_log (m : M unit) (closing : string) w :
  SameTrail w (snd (m w)) ->
  SameTrail w (snd ((m ;; console_log closing) w)).
Proof.
  intros Hm. unfold bind.
  destruct (m w) as [[[]|e] w']; simpl in *; [|exact Hm].
  apply SameTrail_trans with (w2 := w'); [exact Hm|].
  apply SameTrail_console.
Qed.

(** A handler: a console line, then the body under a try/catch that
    reports to the console. *)
Lemma SameTrail_handler (body : M unit) (before : string)
    (failure : Err -> string) w :
  (forall w, NoDup (map _id (inventories w)) -> SameTrail w (snd (body w))) ->
  NoDup (map _id (inventories w)) ->
  SameTrail w
    (snd ((console_log before ;;
           tryCatch body (fun e => console_error (failure e))) w)).
Proof.
  intros Hbody Hnd. unfold bind at 1. simpl.
  set (w1 := mkWorld _ _ _ _ _ _).
  apply SameTrail_trans with (w2 := w1); [apply SameTrail_console|].
  assert (NoDup (map _id (inventories w1))) as Hnd1 by exact Hnd.
  unfold tryCatch. specialize (Hbody w1 Hnd1).
  destruct (body w1) as [[[]|e] w2]; simpl in *; [exact Hbody|].
  apply SameTrail_trans with (w2 := w2); [exact Hbody|].
  apply SameTrail_console.
Qed.

End TrailOfHandlers.

Lemma SameTrail_handleOrderEvents now event w :
  NoDup (map _id (inventories w)) ->
  SameTrail w (execWorld (Handlers.handleOrderEvents now event) w).
Proof.
  intros Hnd.
  assert (forall (m : M unit),
             SameTrail w (snd (m w)) ->
             SameTrail w
               (snd (tryCatch m
                       (fun error =>
                          console_error ("Error handling order event: "
                                         ++ errMessage error)) w)))
    as Houter.
  { intros m Hm. unfold tryCatch.
    destruct (m w) as [[[]|e] w']; simpl in *; [exact Hm|].
    apply SameTrail_trans with (w2 := w'); [exact Hm|].
    apply SameTrail_console. }
  unfold execWorld, Handlers.handleOrderEvents. apply Houter.
  destruct (String.eqb (ev_type event) "order.placed").
  { apply SameTrail_handler; [|exact Hnd]. intros w0 H0.
    apply SameTrail_then_log, SameTrail_forOf; [|exact H0].
    intros. now apply SameTrail_placedItem. }
  destruct (String.eqb (ev_type event) "order.confirmed").
  { apply SameTrail_handler; [|exact Hnd]. intros w0 H0.
    apply SameTrail_then_log, SameTrail_forOf; [|exact H0].
    intros. now apply SameTrail_confirmedItem. }
  destruct (String.eqb (ev_type event) "order.delivered").
  { apply SameTrail_handler; [|exact Hnd]. intros w0 H0.
    apply SameTrail_forOf; [|exact H0].
    intros. apply SameTrail_deliveredItem. }
  destruct (String.eqb (ev_type event) "order.cancelled").
  { apply SameTrail_handler; [|exact Hnd]. intros w0 H0.
    apply SameTrail_then_log, SameTrail_forOf; [|exact H0].
    intros. now apply SameTrail_cancelledItem. }
  apply SameTrail_console.
Qed.

(** * The ledger properties, claim by claim *)

(** ** C1: the stored available quantity *)

(** Every operation that writes through [save()] or [create()] stores the
    derived available quantity. *)
Lemma AllDerived_saving_operations now op w :
  (forall user id body, op <> UpdateInventoryItem user id body) ->
  AllDerived w -> AllDerived (perform now op w).
Proof.
  apply perform_preserves_saving.
  - intros w0 c p H. exact H.
  - intros doc w0 _ _ H. unfold AllDerived in *. simpl.
    apply replaceById_Forall; [reflexivity | exact H].
  - intros doc w0 _ _ _ H. unfold AllDerived in *. simpl.
    apply Forall_app. split; [exact H|].
    constructor; [reflexivity | constructor].
Qed.

(** C1.  The claim: after every operation that writes a lot, the inventory
    update among them, the stored availableQuantity is
    max(0, quantity - reservedQuantity).  The code at the inventory update:
    on the lot of 100 units with nothing reserved, an update of quantity to
    50 stores quantity 50 and reservedQuantity 0 and leaves availableQuantity
    at 100, because [findByIdAndUpdate] runs no pre-save hook. *)
Theorem C1_update_leaves_available_stale :
  map ledger
    (inventories
       (perform 2001
          (UpdateInventoryItem Scenario.owner 0
             (mkUpdateBody (Some 50) noOther))
          Scenario.created))
  = [(50, 0, 100, "active", [])]
  /\ 100 <> Z.max 0 (50 - 0).
Proof. split; [vm_compute; reflexivity | discriminate]. Qed.

(** ** C3, C4, C9: the order events of the scenarios *)

(** C3.  The claim: [placed] for 95 on the lot of 100 units (threshold 10)
    gives reservedQuantity 95, availableQuantity 5, one movement
    out/order_reservation and status low-stock.  The code: reservedQuantity
    95 and availableQuantity 5 are stored and quantity stays 100, but the
    movement is refused by the schema, so no movement is stored and the
    status stays active; the console has the validation failure. *)
Theorem C3_placed_scenario_A_as_coded :
  map ledger (inventories Scenario.worldA) = [(100, 95, 5, "active", [])]
  /\ last (console Scenario.worldA) (ConsoleLog EmptyString)
     = ConsoleError
         "Failed to reserve inventory for order ORD1: Inventory validation failed: `order_reservation` is not a valid enum value for path `reason`.".
Proof. split; vm_compute; reflexivity. Qed.

(** C4.  The claim: from scenario A, [confirmed] for 95 gives quantity 5,
    reservedQuantity 0, availableQuantity 5, status low-stock and two
    movements in total; a confirmation without reservation is skipped.  The
    code: the three quantities are stored as claimed, but no movement is
    stored and the status stays active; a confirmation of 30 units on the
    fresh lot, with nothing reserved, is refused by the schema and leaves the
    lot as it was, with the failure on the console. *)
Theorem C4_confirmed_scenario_B_as_coded :
  map ledger (inventories Scenario.worldB) = [(5, 0, 5, "active", [])]
  /\ map ledger
       (inventories
          (perform 2002 (OrderEvent (Scenario.order "order.confirmed" 30))
             Scenario.created))
     = [(100, 0, 100, "active", [])]
  /\ last (console
             (perform 2002 (OrderEvent (Scenario.order "order.confirmed" 30))
                Scenario.created)) (ConsoleLog EmptyString)
     = ConsoleError
         "Failed to update inventory for confirmed order ORD1: Inventory validation failed: Reserved quantity cannot be negative".
Proof. repeat split; vm_compute; reflexivity. Qed.

(** C9.  The claim: [cancelled] for 30 with 10 reserved leaves
    reservedQuantity 0 and records a movement adjustment/order_cancelled, and
    the event always succeeds.  The code: reservedQuantity 0 is stored, but
    the movement is refused (reason outside the enum, performedBy 'system' is
    no ObjectId) and none is stored; and because the refusal leaves the loop,
    a cancelled event with two lines releases the first line only: the 5
    units reserved on the second lot stay reserved. *)
Theorem C9_cancelled_scenario_F_as_coded :
  map ledger (inventories Scenario.worldF) = [(100, 0, 100, "active", [])]
  /\ last (console Scenario.worldF) (ConsoleLog EmptyString)
     = ConsoleError
         "Failed to release inventory for cancelled order ORD1: Inventory validation failed: `order_cancelled` is not a valid enum value for path `reason`., Cast to ObjectId failed for value 'system' at path 'performedBy'"
  /\ map reservedQuantity
       (inventories
          (run [(2000, Scenario.createLot Scenario.medA "B1" 100);
                (2000, Scenario.createLot Scenario.medB "B7" 40);
                (2001, OrderEvent (Scenario.order "order.placed" 10));
                (2001, OrderEvent
                         (mkEvent "order.placed"
                            (mkOrderData "ORD3" Scenario.shopA Scenario.buyer
                               [mkItem Scenario.medB "B7" 5])));
                (2002, OrderEvent
                         (Scenario.orderTwoLines "order.cancelled" 10 5))]
             Scenario.world0))
     = [0; 5].
Proof. repeat split; vm_compute; reflexivity. Qed.

(** ** C7: the unique index *)

(** C7.  The claim: creating a lot with a fresh batch number for a shop and
    medicine that already have a lot under another batch number succeeds.
    The code: with batch B1 of the medicine stored, the create request for
    batch B2 passes the controller's own check on the triple and is then
    refused by the unique index on (shopId, medicineId); the collection keeps
    the one lot. *)
Theorem C7_second_batch_refused_by_index :
  let request :=
    mkCreateBody Scenario.shopA Scenario.medA "B2" 7 1000 9000000 noOther in
  evalOutcome
    (validated (createInventorySchema request)
       (Controller.addInventoryItem 2001 Scenario.owner request))
    Scenario.created
  = Throw (DuplicateKey "shopId")
  /\ evalOutcome
       (Inventory_findOne Scenario.shopA Scenario.medA "B2")
       Scenario.created
     = Ok None
  /\ map batchNumber
       (inventories
          (perform 2001 (AddInventoryItem Scenario.owner request)
             Scenario.created))
     = ["B1"].
Proof. repeat split; vm_compute; reflexivity. Qed.

(** ** C10: the movements of the order handlers *)

Lemma validate_movement_message (d : Inventory) (m : StockMovement)
    (msg : string) :
  In m (stockMovements d) -> In msg (validateMovement m) ->
  In msg (validate d).
Proof.
  intros Hm Hmsg. unfold validate.
  repeat (apply in_or_app; right).
  apply in_flat_map. exists m. auto.
Qed.

Lemma addStockMovement_message self now type qty reason performedBy
    reference notes w msg :
  In msg (validateMovement
            (movementOf now type qty reason performedBy reference notes))
  ->
  exists errs,
    Inventory_addStockMovement self now type qty reason performedBy
      reference notes w
    = (Throw (ValidationError errs), w)
    /\ In msg errs.
Proof.
  intros Hmsg.
  destruct (addStockMovement_rejected self now type qty reason performedBy
              reference notes w) as [E _].
  - intros Hok. apply validateMovement_nil in Hok.
    rewrite Hok in Hmsg. destruct Hmsg.
  - eexists. split; [exact E|].
    apply validate_movement_message with
      (m := movementOf now type qty reason performedBy reference notes);
      [|exact Hmsg].
    rewrite applyMovement_movements. apply in_or_app. right. now left.
Qed.

(** C10.  The call to [addStockMovement] that each of the placed, confirmed
    and cancelled handlers makes for a line throws a validation error and
    leaves the collection as it was, whatever the document, the quantity and
    the ids: the reason is no value of the schema's reason enum, and for the
    cancelled handler 'system' is moreover no ObjectId.  Hence, from any
    state the service can reach and for any order event, every stored lot
    has the movement list it had before the event. *)
Theorem C10_order_movements_never_written :
  (forall self now qty user order notes w,
      exists errs,
        Inventory_addStockMovement self now "out" qty "order_reservation"
          user (Some order) notes w
        = (Throw (ValidationError errs), w)
        /\ In (enumMessage "order_reservation" "reason") errs)
  /\ (forall self now qty user order notes w,
      exists errs,
        Inventory_addStockMovement self now "out" qty "order_confirmed"
          user (Some order) notes w
        = (Throw (ValidationError errs), w)
        /\ In (enumMessage "order_confirmed" "reason") errs)
  /\ (forall self now qty order notes w,
      exists errs,
        Inventory_addStockMovement self now "adjustment" qty
          "order_cancelled" "system" (Some order) notes w
        = (Throw (ValidationError errs), w)
        /\ In (enumMessage "order_cancelled" "reason") errs
        /\ In (castMessage "system" "performedBy") errs)
  /\ (forall shops medicines trace now event,
      map stockMovements
        (inventories
           (perform now (OrderEvent event)
              (run trace (initialWorld shops medicines))))
      = map stockMovements
          (inventories (run trace (initialWorld shops medicines)))).
Proof.
  split; [|split; [|split]].
  - intros. apply addStockMovement_message. simpl. now left.
  - intros. apply addStockMovement_message. simpl. now left.
  - intros.
    destruct (addStockMovement_message self now "adjustment" qty
                "order_cancelled" "system" (Some order) notes w
                (enumMessage "order_cancelled" "reason"))
      as (errs & E & H1); [simpl; now left|].
    destruct (addStockMovement_message self now "adjustment" qty
                "order_cancelled" "system" (Some order) notes w
                (castMessage "system" "performedBy"))
      as (errs' & E' & H2); [simpl; right; now left|].
    exists errs. rewrite E in E'. injection E' as <-. auto.
  - intros shops0 medicines0 trace now event. simpl.
    apply SameTrail_handleOrderEvents.
    apply (IdsFresh_run shops0 medicines0 trace).
Qed.

(** ** C2: quantities never go negative *)

(** C2.  The claim: in every state the service can reach, every stored lot
    has quantity >= 0 and reservedQuantity >= 0.  The code: the update route
    hands the request body to [findByIdAndUpdate] as the update.  A body
    whose only key is [$inc], with -500 for quantity and -1 for
    reservedQuantity, passes the request validator, which declares no such
    key and refuses none; the update validators run on the paths that are
    set and not on the increments; so the lot of 100 units is stored with
    quantity -400 and reservedQuantity -1, in a state reached from the empty
    collection by two requests of the shop's owner. *)
Theorem C2_increment_stores_negative_quantities :
  let body :=
    mkUpdateBody None
      (onlyInc (mkInc (Some (-500)) (Some (-1)) None None None)) in
  let reached :=
    run [(2000, Scenario.createLot Scenario.medA "B1" 100);
         (2001, UpdateInventoryItem Scenario.owner 0 body)]
        Scenario.world0 in
  updateInventorySchema body = true
  /\ validateUpdate body = []
  /\ map ledger (inventories reached) = [(-400, -1, 100, "active", [])]
  /\ exists d, In d (inventories reached)
               /\ quantity d < 0 /\ reservedQuantity d < 0.
Proof.
  cbv zeta. split; [|split; [|split]]; try (vm_compute; reflexivity).
  eexists. split; [vm_compute; left; reflexivity|].
  split; reflexivity.
Qed.

(** ** C5: the same placed event delivered twice *)

(** The lot a handler worked on, looked up again by the same query. *)
Lemma found_again (event : Event) (item : OrderItem) (inv doc : Inventory)
    (w : World) (after : list Inventory) :
  Targets event item inv w ->
  after = replaceById doc (inventories w) ->
  _id doc = _id inv -> shopId doc = shopId inv ->
  medicineId doc = medicineId inv -> batchNumber doc = batchNumber inv ->
  find (matchesLot (ev_shopId (data event)) (item_medicineId item)
          (item_batchNumber item)) after = Some doc.
Proof.
  intros [_ _ _ Hf] -> Hid Hs Hm Hb.
  apply find_replaceById with (d := inv); auto.
  apply find_some in Hf as [_ Hf].
  unfold matchesLot in *. now rewrite Hs, Hm, Hb.
Qed.

(** C5, as stated, fails: the lot of 100 units has nothing reserved; after
    the same [placed] event for 10 units is handled twice, 20 units are
    reserved, not 10. *)
Lemma C5_counterexample_replay :
  let twice :=
    run [(2001, OrderEvent (Scenario.order "order.placed" 10));
         (2002, OrderEvent (Scenario.order "order.placed" 10))]
        Scenario.created in
  map reservedQuantity (inventories Scenario.created) = [0]
  /\ map reservedQuantity (inventories twice) = [20]
  /\ map reservedQuantity (inventories twice)
     <> map (fun d => reservedQuantity d + 10) (inventories Scenario.created).
Proof.
  cbv zeta. split; [|split]; vm_compute; try reflexivity. discriminate.
Qed.

Lemma Valid_reservedDoc (inv : Inventory) (qty : Z) :
  Valid inv -> 0 <= reservedQuantity inv + qty -> Valid (reservedDoc inv qty).
Proof.
  intros Hv Hq. apply Valid_preSave. destruct Hv. constructor; simpl; auto.
Qed.

Lemma reservedDoc_reserved (inv : Inventory) (qty : Z) :
  reservedQuantity (reservedDoc inv qty) = reservedQuantity inv + qty.
Proof. reflexivity. Qed.

(** C5, amended.  Quantities are whole numbers in the safe-integer range.
    The handler keeps no record of the events it has handled: when the same
    [placed] event with a single line (lot found and valid, stock for both
    deliveries available) is handled twice, each delivery reserves the
    line's quantity, so reservedQuantity grows by twice the quantity; the
    on-hand quantity is unchanged, and the counts of the lot stay in the
    range. *)
Theorem C5_replayed_placed_reserves_again now1 now2 event item inv w :
  Targets event item inv w -> ev_type event = "order.placed" ->
  Valid inv -> safeLot inv ->
  0 <= item_quantity item ->
  item_quantity item <= availableQuantity inv ->
  2 * item_quantity item <= quantity inv - reservedQuantity inv ->
  exists inv2,
    find (matchesLot (ev_shopId (data event)) (item_medicineId item)
            (item_batchNumber item))
         (inventories
            (perform now2 (OrderEvent event)
               (perform now1 (OrderEvent event) w))) = Some inv2
    /\ reservedQuantity inv2 = reservedQuantity inv + 2 * item_quantity item
    /\ quantity inv2 = quantity inv
    /\ safeLot inv2.
Proof.
  intros Ht Hk Hv Hsafe Hq Hav Htwice.
  pose proof (valid_reserved _ Hv) as Hr.
  set (q := item_quantity item) in *.
  set (inv1 := reservedDoc inv q).
  set (w1 := perform now1 (OrderEvent event) w).
  assert (inventories w1 = replaceById inv1 (inventories w)) as H1.
  { subst w1 inv1 q. simpl. apply placed_reserves; auto. lia. }
  assert (Targets event item inv1 w1) as Ht1.
  { pose proof Ht as [Hi Hs Hm Hf]. constructor; auto.
    apply (found_again event item inv inv1 w); auto. }
  assert (Valid inv1) as Hv1 by (apply Valid_reservedDoc; auto; lia).
  exists (reservedDoc inv1 q). split; [|split; [|split]].
  - apply (found_again event item inv1 (reservedDoc inv1 q) w1); auto.
    simpl. apply placed_reserves; auto; subst inv1; simpl; fold q; lia.
  - subst inv1. rewrite !reservedDoc_reserved. subst q. lia.
  - reflexivity.
  - destruct Hsafe as (Sq & Sr & Sa & St).
    unfold safeLot, safeInteger, maxSafeInteger in *. subst inv1 q.
    unfold reservedDoc, preSave. simpl. lia.
Qed.

(** C5, amended, on the lot of 100 units and a [placed] event for 10. *)
Lemma C5_replayed_placed_reserves_again_witness :
  exists inv2,
    find (matchesLot Scenario.shopA Scenario.medA "B1")
         (inventories
            (perform 2002 (OrderEvent (Scenario.order "order.placed" 10))
               (perform 2001 (OrderEvent (Scenario.order "order.placed" 10))
                  Scenario.created))) = Some inv2
    /\ reservedQuantity inv2 = 0 + 2 * 10
    /\ quantity inv2 = 100
    /\ safeLot inv2.
Proof.
  apply (C5_replayed_placed_reserves_again 2001 2002
           (Scenario.order "order.placed" 10)
           (mkItem Scenario.medA "B1" 10)
           (mkInventory 0 Scenario.shopA Scenario.medA "B1" 100 0 100 1000
              9000000 "active" (mkAlerts 10 30) [] 2000
              (user_id Scenario.owner))
           Scenario.created).
  - constructor; vm_compute; reflexivity.
  - reflexivity.
  - constructor; simpl; try lia; try reflexivity. constructor.
  - unfold safeLot, safeInteger, maxSafeInteger; simpl; lia.
  - simpl; lia.
  - simpl; lia.
  - simpl; lia.
Defined.

(** ** C6: the effect of a direct movement on the on-hand quantity *)

Lemma validate_quantity_message (d : Inventory) :
  quantity d < 0 -> In "Quantity cannot be negative" (validate d).
Proof.
  intros Hq. unfold validate.
  apply in_or_app. right. apply in_or_app. left.
  apply Z.leb_gt in Hq. rewrite Hq. now left.
Qed.

(** A movement the schema accepts, on a stored lot and leaving a positive
    on-hand quantity, is written with the document. *)
Lemma addStockMovement_written self now type qty reason performedBy
    reference notes w :
  In self (inventories w) -> Valid self ->
  movementOk (movementOf now type qty reason performedBy reference notes)
  ->
  0 < quantity
        (applyMovement self now type qty reason performedBy reference notes)
  ->
  exists doc,
    Inventory_addStockMovement self now type qty reason performedBy
      reference notes w
    = (Ok doc, set_inventories w (replaceById doc (inventories w)))
    /\ quantity doc
       = quantity
           (applyMovement self now type qty reason performedBy reference
              notes).
Proof.
  intros Hin Hv Hm Hpos. eexists. split.
  - apply addStockMovement_saved; [exact Hin|].
    now apply applyMovement_Valid.
  - reflexivity.
Qed.

(** C6, as stated, fails for [return]: on the lot of 100 units the model
    method called with [return] and 5 stores the movement and leaves the
    quantity at 100, not 105; and the movement route does not accept the
    type at all, its validator allowing in, out and adjustment only. *)
Lemma C6_counterexample_return :
  let lot :=
    mkInventory 0 Scenario.shopA Scenario.medA "B1" 100 0 100 1000 9000000
      "active" (mkAlerts 10 30) [] 2000 (user_id Scenario.owner) in
  let viaMethod :=
    execWorld
      (Inventory_addStockMovement lot 2001 "return" 5 "correction"
         (user_id Scenario.owner) None "customer return")
      Scenario.created in
  inventories Scenario.created = [lot]
  /\ map quantity (inventories viaMethod) = [100]
  /\ map (fun d => List.length (stockMovements d)) (inventories viaMethod)
     = [1%nat]
  /\ map quantity (inventories viaMethod) <> [100 + 5]
  /\ perform 2001
       (AddStockMovement Scenario.owner 0
          (mkMovementBody "return" 5 "correction" None "customer return"))
       Scenario.created
     = Scenario.created.
Proof.
  cbv zeta. split; [|split; [|split; [|split]]]; vm_compute;
    try reflexivity. discriminate.
Qed.

(** C6, amended.  Quantities are whole numbers in the safe-integer range.
    For a stored valid lot, a reason of the schema, a performer that is an
    ObjectId and a quantity of at least 1, the movement method has this
    effect on the on-hand quantity: [in] adds, as long as the sum stays in
    the range; [out] subtracts when units remain, and is refused with the
    lot unwritten when it would go negative; [adjustment] sets the quantity
    to the given value; on a lot with units on hand, [return] records the
    movement and leaves the quantity; and the movement route refuses the
    type [return] before the method is reached. *)
Theorem C6_movement_effect_on_quantity self now qty reason performedBy
    reference notes w :
  In self (inventories w) -> Valid self -> safeLot self ->
  inEnum reason movementReasonEnum = true ->
  castObjectId performedBy = true -> 1 <= qty -> safeInteger qty ->
  let call type :=
    Inventory_addStockMovement self now type qty reason performedBy
      reference notes w in
  let stored doc := set_inventories w (replaceById doc (inventories w)) in
  (quantity self + qty <= maxSafeInteger ->
   exists doc, call "in" = (Ok doc, stored doc)
               /\ quantity doc = quantity self + qty)
  /\ (qty < quantity self ->
      exists doc, call "out" = (Ok doc, stored doc)
                  /\ quantity doc = quantity self - qty)
  /\ (quantity self < qty ->
      exists errs, call "out" = (Throw (ValidationError errs), w)
                   /\ In "Quantity cannot be negative" errs)
  /\ (exists doc, call "adjustment" = (Ok doc, stored doc)
                  /\ quantity doc = qty)
  /\ (0 < quantity self ->
      exists doc, call "return" = (Ok doc, stored doc)
                  /\ quantity doc = quantity self
                  /\ List.length (stockMovements doc)
                     = S (List.length (stockMovements self)))
  /\ (forall user id body,
         m_type body = "return" ->
         perform now (AddStockMovement user id body) w = w).
Proof.
  intros Hin Hv Hsafe Hreason Hby Hqty Hsq. cbv zeta.
  pose proof (valid_quantity _ Hv) as Hq0.
  assert (forall type, inEnum type movementTypeEnum = true ->
            movementOk
              (movementOf now type qty reason performedBy reference notes))
    as Hok.
  { intros type Ht. repeat split; assumption. }
  split; [|split; [|split; [|split; [|split]]]].
  - intros _.
    destruct (addStockMovement_written self now "in" qty reason performedBy
                reference notes w Hin Hv (Hok "in" eq_refl))
      as (doc & E & Q).
    + rewrite applyMovement_quantity. simpl. lia.
    + exists doc. split; [exact E|].
      rewrite Q, applyMovement_quantity. reflexivity.
  - intros Hlt.
    destruct (addStockMovement_written self now "out" qty reason performedBy
                reference notes w Hin Hv (Hok "out" eq_refl))
      as (doc & E & Q).
    + rewrite applyMovement_quantity. simpl. lia.
    + exists doc. split; [exact E|].
      rewrite Q, applyMovement_quantity. reflexivity.
  - intros Hlt. eexists. split.
    + unfold Inventory_addStockMovement. apply save_invalid.
      apply validate_negative_quantity.
      rewrite applyMovement_quantity. simpl. lia.
    + apply validate_quantity_message.
      rewrite applyMovement_quantity. simpl. lia.
  - destruct (addStockMovement_written self now "adjustment" qty reason
                performedBy reference notes w Hin Hv
                (Hok "adjustment" eq_refl))
      as (doc & E & Q).
    + rewrite applyMovement_quantity. simpl. lia.
    + exists doc. split; [exact E|].
      rewrite Q, applyMovement_quantity. reflexivity.
  - intros Hpos. eexists. split; [|split].
    + apply addStockMovement_saved; [exact Hin|].
      apply applyMovement_Valid; [exact Hv | now apply Hok |].
      rewrite applyMovement_quantity. simpl. exact Hpos.
    + reflexivity.
    + simpl. rewrite length_app. simpl. lia.
  - intros user id body Ht. simpl. unfold execWorld, validated.
    unfold stockMovementSchema. rewrite Ht. reflexivity.
Qed.

(** C6, amended, on the lot of 100 units and a movement of 40. *)
Lemma C6_movement_effect_on_quantity_witness :
  let lot :=
    mkInventory 0 Scenario.shopA Scenario.medA "B1" 100 0 100 1000 9000000
      "active" (mkAlerts 10 30) [] 2000 (user_id Scenario.owner) in
  let call type :=
    Inventory_addStockMovement lot 2001 type 40 "sale"
      (user_id Scenario.owner) None "counter" Scenario.created in
  exists doc,
    call "out"
    = (Ok doc,
       set_inventories Scenario.created
         (replaceById doc (inventories Scenario.created)))
    /\ quantity doc = 100 - 40.
Proof.
  cbv zeta.
  refine (proj1 (proj2
           (C6_movement_effect_on_quantity
              (mkInventory 0 Scenario.shopA Scenario.medA "B1" 100 0 100 1000
                 9000000 "active" (mkAlerts 10 30) [] 2000
                 (user_id Scenario.owner))
              2001 40 "sale" (user_id Scenario.owner) None "counter"
              Scenario.created _ _ _ _ _ _ _)) _).
  - vm_compute. left. reflexivity.
  - constructor; simpl; try lia; try reflexivity. constructor.
  - unfold safeLot, safeInteger, maxSafeInteger; simpl; lia.
  - reflexivity.
  - reflexivity.
  - lia.
  - unfold safeInteger, maxSafeInteger; lia.
  - simpl; lia.
Defined.

(** ** C8: the lot as created *)



Section FreshPair.

Variables (shop medicine : string) (db : list Inventory).

(** No stored lot is for this shop and medicine. *)
Hypothesis fresh :
  forall d, In d db -> shopId d = shop -> medicineId d <> medicine.



End FreshPair.



(** * Further properties of the ledger code *)

(** ** Apart from the two routes that write the request body, every write
       is a later state of a stored lot, or an insert *)

Lemma Keeps_refl (d : Inventory) : Keeps d d.
Proof.
  repeat split; try reflexivity. exists []. now rewrite app_nil_r.
Qed.

Lemma Keeps_trans (d1 d2 d3 : Inventory) :
  Keeps d1 d2 -> Keeps d2 d3 -> Keeps d1 d3.
Proof.
  intros (A1 & A2 & A3 & A4 & m1 & A5) (B1 & B2 & B3 & B4 & m2 & B5).
  repeat split; try congruence.
  exists (m1 ++ m2)%list. rewrite B5, A5. now rewrite app_assoc.
Qed.

Lemma Keeps_preSave (d doc : Inventory) : Keeps d doc -> Keeps d (preSave doc).
Proof. intros H. exact H. Qed.

Lemma Quiet_refl (w : World) : Quiet w w.
Proof. split; reflexivity. Qed.

Lemma Quiet_console (w : World) c p :
  Quiet w (mkWorld (inventories w) (shops w) (medicines w) (nextId w) c p).
Proof. split; reflexivity. Qed.

Lemma Quiet_trans (w1 w2 w3 : World) : Quiet w1 w2 -> Quiet w2 w3 -> Quiet w1 w3.
Proof. intros [A B] [C D]. split; congruence. Qed.

Lemma Quiet_OneWrite (w1 w2 w3 : World) :
  Quiet w1 w2 -> OneWrite w2 w3 -> OneWrite w1 w3.
Proof.
  intros [A B] (inv & doc & Hin & Hk & Hw & Hn).
  exists inv, doc. rewrite A in *.
  split; [|split; [|split]]; auto. congruence.
Qed.

Lemma OneWrite_Quiet (w1 w2 w3 : World) :
  OneWrite w1 w2 -> Quiet w2 w3 -> OneWrite w1 w3.
Proof.
  intros (inv & doc & Hin & Hk & Hw & Hn) [A B].
  exists inv, doc. split; [|split; [|split]]; auto; congruence.
Qed.

Lemma Steps_one (w w' : World) : Step w w' -> Steps w w'.
Proof. intros H. eapply steps_step; [apply steps_refl | exact H]. Qed.

Lemma Steps_trans (w1 w2 w3 : World) : Steps w1 w2 -> Steps w2 w3 -> Steps w1 w3.
Proof.
  intros H12 H23. induction H23; [exact H12|].
  eapply steps_step; [|eassumption]. auto.
Qed.

(** Saving a later state of a stored lot. *)
Lemma save_found (doc inv : Inventory) (w : World) :
  In inv (inventories w) -> Keeps inv doc ->
  match save doc w with
  | (Ok doc', w') =>
      OneWrite w w' /\ doc' = preSave doc /\ In doc' (inventories w')
  | (Throw _, w') => w' = w
  end.
Proof.
  intros Hin Hk. destruct (save_cases doc w) as [(Hv & _ & ->)|[e ->]];
    [|reflexivity].
  split; [|split; [reflexivity|]].
  - exists inv, (preSave doc). split; [|split; [|split]]; auto.
  - simpl. destruct Hk as (Hid & _). clear Hv.
    induction (inventories w) as [|h l IH]; simpl in *; [destruct Hin|].
    destruct (Nat.eqb (_id h) (_id doc)) eqn:E; [now left|].
    destruct Hin as [->|Hin]; [|right; auto].
    apply Nat.eqb_neq in E. congruence.
Qed.

Lemma save_found_step (doc inv : Inventory) (w : World) :
  In inv (inventories w) -> Keeps inv doc -> Step w (snd (save doc w)).
Proof.
  intros Hin Hk. pose proof (save_found doc inv w Hin Hk) as H.
  destruct (save doc w) as [[doc'|e] w']; simpl.
  - right. left. apply H.
  - subst. left. apply Quiet_refl.
Qed.

Lemma Keeps_applyMovement self now type qty reason performedBy reference
    notes :
  Keeps self
    (applyMovement self now type qty reason performedBy reference notes).
Proof.
  unfold Keeps, applyMovement.
  destruct (String.eqb type "in"), (String.eqb type "out"),
    (String.eqb type "adjustment"); simpl; repeat split; eauto.
Qed.

(** *** The controllers *)

Lemma create_step (now : Z) (data : InventoryData) (w : World) :
  Step w (snd (Inventory_create now data w)).
Proof.
  unfold Inventory_create.
  match goal with |- context [validate ?d] => set (doc := d) end.
  destruct (validate doc); [|left; apply Quiet_refl].
  destruct (uniqueIndexHit (preSave doc) (inventories w)) eqn:E;
    [left; apply Quiet_refl|].
  right. right. exists (preSave doc). simpl. auto.
Qed.

Lemma addInventoryItem_step now user body w :
  Step w (execWorld (Controller.addInventoryItem now user body) w).
Proof.
  unfold execWorld, Controller.addInventoryItem, bind, MedicalShop_findById.
  destruct (negb (castObjectId (b_shopId body))); [left; apply Quiet_refl|].
  destruct (find _ (shops w)) as [shop|]; [|left; apply Quiet_refl].
  destruct (Controller.notOwner shop user); [left; apply Quiet_refl|].
  unfold Medicine_findById.
  destruct (negb (castObjectId (b_medicineId body)));
    [left; apply Quiet_refl|].
  destruct (find _ (medicines w)); [|left; apply Quiet_refl].
  unfold Inventory_findOne.
  destruct (negb (castObjectId (b_shopId body))); [left; apply Quiet_refl|].
  destruct (negb (castObjectId (b_medicineId body)));
    [left; apply Quiet_refl|].
  destruct (find _ (inventories w)); [left; apply Quiet_refl|].
  match goal with |- context [Inventory_create ?n ?d w] =>
    pose proof (create_step n d w) as H;
    destruct (Inventory_create n d w) as [[doc|e] w'] end; simpl in *;
    [|exact H].
  destruct H as [H|[H|H]].
  - left. eapply Quiet_trans; [exact H | apply Quiet_console].
  - right. left. eapply OneWrite_Quiet; [exact H | apply Quiet_console].
  - right. right. destruct H as (d & H). exists d. exact H.
Qed.

Lemma ctl_addStockMovement_step now user id body w :
  Step w (execWorld (Controller.addStockMovement now user id body) w).
Proof.
  unfold execWorld, Controller.addStockMovement, bind, Inventory_findById.
  destruct (find _ (inventories w)) as [inv|] eqn:F; [|left; apply Quiet_refl].
  unfold MedicalShop_findById.
  destruct (negb (castObjectId (shopId inv))); [left; apply Quiet_refl|].
  destruct (find _ (shops w)) as [shop|]; [|left; apply Quiet_refl].
  destruct (Controller.notOwner shop user); [left; apply Quiet_refl|].
  apply find_some in F as [F _]. unfold Inventory_addStockMovement.
  match goal with |- context [save ?d w] =>
    pose proof (save_found d inv w F) as H;
    destruct (save d w) as [[doc'|e] w'] end; simpl in *.
  - right. left. eapply OneWrite_Quiet; [|apply Quiet_console].
    apply H, Keeps_applyMovement.
  - rewrite H by apply Keeps_applyMovement. left. apply Quiet_refl.
Qed.

Lemma updateAlertSettings_step user id settings w :
  Step w (execWorld (Controller.updateAlertSettings user id settings) w).
Proof.
  unfold execWorld, Controller.updateAlertSettings, bind, Inventory_findById.
  destruct (find _ (inventories w)) as [inv|] eqn:F; [|left; apply Quiet_refl].
  unfold MedicalShop_findById.
  destruct (negb (castObjectId (shopId inv))); [left; apply Quiet_refl|].
  destruct (find _ (shops w)) as [shop|]; [|left; apply Quiet_refl].
  destruct (Controller.notOwner shop user); [left; apply Quiet_refl|].
  apply find_some in F as [F _].
  assert (Keeps inv (set_alerts inv settings)) as Hk
    by (repeat split; simpl; try reflexivity; exists [];
        now rewrite app_nil_r).
  pose proof (save_found_step (set_alerts inv settings) inv w F Hk) as H.
  destruct (save (set_alerts inv settings) w) as [[doc'|e] w']; exact H.
Qed.

(** *** The order handlers *)

Lemma lineEffect_save_then_movement (doc inv : Inventory) (now : Z)
    (type reason performedBy : string) (qtyOf : Inventory -> Z)
    (reference : option string) (notes : string) (w : World) :
  reason = "order_reservation" \/ reason = "order_confirmed"
  \/ reason = "order_cancelled" ->
  In inv (inventories w) -> Keeps inv doc ->
  lineEffect w
    ((inventory <- save doc ;;
      Inventory_addStockMovement inventory now type (qtyOf inventory)
        reason performedBy reference notes ;;
      ret tt) w).
Proof.
  intros Hreason Hin Hk. unfold bind.
  pose proof (save_found doc inv w Hin Hk) as H.
  destruct (save doc w) as [[doc'|e] w'].
  - destruct H as (Hw & _ & _).
    match goal with
    | |- context [Inventory_addStockMovement ?s ?n ?t ?q ?r ?p ?rf ?nt ?w0] =>
        destruct (addStockMovement_rejected s n t q r p rf nt w0) as [-> _]
    end.
    + now apply order_movement_refused.
    + right. exact Hw.
  - subst. left. apply Quiet_refl.
Qed.

Section EffectOfHandlers.

Variables (now : Z) (d : OrderData).

Ltac open_line :=
  unfold bind, Inventory_findOne;
  match goal with
  | |- context [castObjectId ?s] => destruct (castObjectId s); simpl
  end;
  [|left; apply Quiet_refl];
  match goal with
  | |- context [castObjectId ?s] => destruct (castObjectId s); simpl
  end;
  [|left; apply Quiet_refl];
  match goal with
  | |- context [find ?f ?l] =>
      let F := fresh "F" in
      destruct (find f l) as [inv|] eqn:F;
      [apply find_some in F as [F _]|]
  end.

Lemma lineEffect_placedItem item w :
  lineEffect w (Handlers.placedItem now d item w).
Proof.
  unfold Handlers.placedItem. open_line.
  - destruct (availableQuantity inv <? item_quantity item).
    + apply Quiet_console.
    + cbv zeta.
      apply (lineEffect_save_then_movement _ inv now "out"
               "order_reservation" (userId d) (fun _ => item_quantity item));
        auto.
      repeat split; simpl; try reflexivity. exists []. now rewrite app_nil_r.
  - apply Quiet_console.
Qed.

Lemma lineEffect_confirmedItem item w :
  lineEffect w (Handlers.confirmedItem now d item w).
Proof.
  unfold Handlers.confirmedItem. open_line.
  - cbv zeta.
    apply (lineEffect_save_then_movement _ inv now "out" "order_confirmed"
             (userId d) (fun _ => item_quantity item)); auto.
    repeat split; simpl; try reflexivity. exists []. now rewrite app_nil_r.
  - apply Quiet_refl.
Qed.

Lemma lineEffect_cancelledItem item w :
  lineEffect w (Handlers.cancelledItem now d item w).
Proof.
  unfold Handlers.cancelledItem. open_line.
  - cbv zeta.
    apply (lineEffect_save_then_movement _ inv now "adjustment"
             "order_cancelled" "system" quantity); auto.
    repeat split; simpl; try reflexivity. exists []. now rewrite app_nil_r.
  - apply Quiet_refl.
Qed.

Lemma lineEffect_deliveredItem item w :
  lineEffect w (Handlers.deliveredItem d item w).
Proof.
  unfold Handlers.deliveredItem, bind, Inventory_findOneByMedicine.
  destruct (castObjectId (ev_shopId d)); simpl; [|left; apply Quiet_refl].
  destruct (castObjectId (item_medicineId item)); simpl;
    [|left; apply Quiet_refl].
  destruct (find _ (inventories w)) as [inv|]; [|apply Quiet_refl].
  destruct (isLowStock inv); [apply Quiet_console | apply Quiet_refl].
Qed.

Lemma lineEffect_forOf (body : OrderItem -> M unit) :
  (forall item w, lineEffect w (body item w)) ->
  forall xs w, lineEffect w (forOf xs body w).
Proof.
  intros Hbody xs. induction xs as [|x xs IH]; intros w; simpl.
  - apply Quiet_refl.
  - unfold bind. pose proof (Hbody x w) as Hx.
    destruct (body x w) as [[[]|e] w']; simpl in Hx; [|exact Hx].
    specialize (IH w').
    destruct (forOf xs body w') as [[[]|e] w'']; simpl in *.
    + eapply Quiet_trans; eauto.
    + destruct IH as [IH|IH].
      * left. eapply Quiet_trans; eauto.
      * right. eapply Quiet_OneWrite; eauto.
Qed.

End EffectOfHandlers.

Lemma atMostOneWrite_console w w' c p :
  atMostOneWrite w w' ->
  atMostOneWrite w
    (mkWorld (inventories w') (shops w') (medicines w') (nextId w') c p).
Proof.
  intros [H|H]; [left|right].
  - eapply Quiet_trans; [exact H | apply Quiet_console].
  - eapply OneWrite_Quiet; [exact H | apply Quiet_console].
Qed.

Lemma atMostOneWrite_line w r :
  lineEffect w r -> atMostOneWrite w (snd r).
Proof. destruct r as [[[]|e] w']; simpl; [now left | auto]. Qed.

(** A handler: console line, then the body under try/catch. *)
Lemma atMostOneWrite_handler (body : M unit) (before : string)
    (failure : Err -> string) w :
  (forall w, atMostOneWrite w (snd (body w))) ->
  atMostOneWrite w
    (snd ((console_log before ;;
           tryCatch body (fun e => console_error (failure e))) w)).
Proof.
  intros Hbody. unfold bind at 1. simpl.
  set (w1 := mkWorld _ _ _ _ _ _).
  assert (Quiet w w1) as H1 by apply Quiet_console.
  unfold tryCatch. specialize (Hbody w1).
  assert (atMostOneWrite w (snd (body w1))) as H.
  { destruct Hbody as [H|H]; [left|right].
    - eapply Quiet_trans; eauto.
    - eapply Quiet_OneWrite; eauto. }
  destruct (body w1) as [[[]|e] w2]; simpl in *; [exact H|].
  now apply atMostOneWrite_console.
Qed.

Lemma atMostOneWrite_then_log (m : M unit) (closing : string) w :
  lineEffect w (m w) ->
  atMostOneWrite w (snd ((m ;; console_log closing) w)).
Proof.
  intros Hm. unfold bind.
  destruct (m w) as [[[]|e] w']; simpl in *; [|exact Hm].
  left. eapply Quiet_trans; [exact Hm | apply Quiet_console].
Qed.

Lemma atMostOneWrite_handleOrderEvents now event w :
  atMostOneWrite w (execWorld (Handlers.handleOrderEvents now event) w).
Proof.
  assert (forall (m : M unit),
             atMostOneWrite w (snd (m w)) ->
             atMostOneWrite w
               (snd (tryCatch m
                       (fun error =>
                          console_error ("Error handling order event: "
                                         ++ errMessage error)) w)))
    as Houter.
  { intros m Hm. unfold tryCatch.
    destruct (m w) as [[[]|e] w']; simpl in *; [exact Hm|].
    now apply atMostOneWrite_console. }
  unfold execWorld, Handlers.handleOrderEvents. apply Houter.
  destruct (String.eqb (ev_type event) "order.placed").
  { apply atMostOneWrite_handler. intros w0.
    apply atMostOneWrite_then_log, lineEffect_forOf.
    intros. apply lineEffect_placedItem. }
  destruct (String.eqb (ev_type event) "order.confirmed").
  { apply atMostOneWrite_handler. intros w0.
    apply atMostOneWrite_then_log, lineEffect_forOf.
    intros. apply lineEffect_confirmedItem. }
  destruct (String.eqb (ev_type event) "order.delivered").
  { apply atMostOneWrite_handler. intros w0.
    apply atMostOneWrite_line, lineEffect_forOf.
    intros. apply lineEffect_deliveredItem. }
  destruct (String.eqb (ev_type event) "order.cancelled").
  { apply atMostOneWrite_handler. intros w0.
    apply atMostOneWrite_then_log, lineEffect_forOf.
    intros. apply lineEffect_cancelledItem. }
  left. apply Quiet_console.
Qed.

(** *** Every operation that does not write the request body *)

Lemma perform_steps now op w :
  writesBody op = false -> Steps w (perform now op w).
Proof.
  intros Hop.
  destruct op; simpl in Hop; try discriminate; simpl;
    unfold execWorld, validated.
  - destruct (createInventorySchema body); [|apply steps_refl].
    apply Steps_one, addInventoryItem_step.
  - destruct (stockMovementSchema body); [|apply steps_refl].
    apply Steps_one, ctl_addStockMovement_step.
  - destruct (updateAlertSettingsSchema settings); [|apply steps_refl].
    apply Steps_one, updateAlertSettings_step.
  - apply Steps_one.
    destruct (atMostOneWrite_handleOrderEvents now event w) as [H|H];
      [left | right; left]; exact H.
Qed.

Lemma run_steps trace w :
  forallb (fun step => negb (writesBody (snd step))) trace = true ->
  Steps w (run trace w).
Proof.
  revert w. induction trace as [|[now op] trace IH]; intros w Ht; simpl.
  - apply steps_refl.
  - simpl in Ht. apply andb_true_iff in Ht as [Hop Ht].
    apply negb_true_iff in Hop.
    eapply Steps_trans; [apply perform_steps; exact Hop | now apply IH].
Qed.

(** ** What the steps keep *)

Lemma replaceById_In_new (doc inv : Inventory) (db : list Inventory) :
  In inv db -> _id doc = _id inv -> In doc (replaceById doc db).
Proof.
  intros Hin Hid. induction db as [|h l IH]; simpl in *; [destruct Hin|].
  destruct (Nat.eqb (_id h) (_id doc)) eqn:E; [now left|].
  destruct Hin as [->|Hin]; [|right; auto].
  apply Nat.eqb_neq in E. congruence.
Qed.

Lemma replaceById_In_other (doc d : Inventory) (db : list Inventory) :
  In d db -> _id d <> _id doc -> In d (replaceById doc db).
Proof.
  intros Hin Hid. induction db as [|h l IH]; simpl in *; [destruct Hin|].
  destruct (Nat.eqb (_id h) (_id doc)) eqn:E.
  - apply Nat.eqb_eq in E. destruct Hin as [->|Hin]; [congruence|now right].
  - destruct Hin as [->|Hin]; [now left | right; auto].
Qed.

Lemma NoDup_map_In_eq {A B} (f : A -> B) (l : list A) (x y : A) :
  NoDup (map f l) -> In x l -> In y l -> f x = f y -> x = y.
Proof.
  intros Hnd Hx Hy Hf. induction l as [|h l IH]; simpl in *; [destruct Hx|].
  inversion Hnd as [|? ? Hnot Hnd']; subst.
  destruct Hx as [->|Hx], Hy as [->|Hy]; auto.
  - exfalso. apply Hnot. rewrite Hf. now apply in_map.
  - exfalso. apply Hnot. rewrite <- Hf. now apply in_map.
Qed.

Lemma replaceById_map_same {B} (f : Inventory -> B) (doc d : Inventory)
    (db : list Inventory) :
  NoDup (map _id db) -> In d db -> _id doc = _id d -> f doc = f d ->
  map f (replaceById doc db) = map f db.
Proof.
  intros Hnd Hin Hid Hf. induction db as [|h db IH]; simpl in *; [reflexivity|].
  inversion Hnd as [|? ? Hnotin Hnd']; subst.
  destruct (Nat.eqb (_id h) (_id doc)) eqn:E; simpl.
  - apply Nat.eqb_eq in E. destruct Hin as [->|Hin]; [now rewrite Hf|].
    exfalso. apply Hnotin. rewrite E, Hid. now apply in_map.
  - apply Nat.eqb_neq in E. destruct Hin as [->|Hin]; [congruence|].
    f_equal. auto.
Qed.

Lemma Step_IdsFresh (w w' : World) : IdsFresh w -> Step w w' -> IdsFresh w'.
Proof.
  intros [Hnd Hlt] [[Hi Hn]|[(inv & doc & Hin & Hk & Hi & Hn)
                            |(doc & Hi & Hid & Hn & _)]];
    unfold IdsFresh; rewrite Hi, Hn.
  - split; assumption.
  - split; [now rewrite replaceById_ids|].
    apply replaceById_Forall; [|exact Hlt].
    destruct Hk as (Hid & _). rewrite Hid.
    rewrite Forall_forall in Hlt. now apply Hlt.
  - split.
    + rewrite map_app. simpl. apply NoDup_snoc; [exact Hnd|].
      intros H. apply in_map_iff in H as (d & E & Hd).
      rewrite Forall_forall in Hlt. specialize (Hlt d Hd). lia.
    + apply Forall_app. split.
      * eapply Forall_impl; [|exact Hlt]. intros d Hd. simpl in *. lia.
      * constructor; [lia | constructor].
Qed.

Lemma Step_keeps (w w' : World) :
  IdsFresh w -> Step w w' ->
  forall d, In d (inventories w) ->
            exists d', In d' (inventories w') /\ Keeps d d'.
Proof.
  intros [Hnd _] [[Hi _]|[(inv & doc & Hin & Hk & Hi & _)
                          |(doc & Hi & _)]] d Hd; rewrite Hi.
  - exists d. split; [exact Hd | apply Keeps_refl].
  - destruct (Nat.eq_dec (_id d) (_id doc)) as [E|E].
    + assert (d = inv) as ->.
      { apply (NoDup_map_In_eq _id (inventories w)); auto.
        destruct Hk as (Hid & _). congruence. }
      exists doc. split; [|exact Hk].
      apply replaceById_In_new with (inv := inv); [exact Hin | apply Hk].
    + exists d. split; [now apply replaceById_In_other | apply Keeps_refl].
  - exists d. split; [apply in_or_app; now left | apply Keeps_refl].
Qed.

Lemma Step_PairUnique (w w' : World) :
  IdsFresh w -> PairUnique w -> Step w w' -> PairUnique w'.
Proof.
  unfold PairUnique.
  intros [Hnd _] Hp [[Hi _]|[(inv & doc & Hin & Hk & Hi & _)
                            |(doc & Hi & _ & _ & Hu)]]; rewrite Hi.
  - exact Hp.
  - rewrite replaceById_map_same with (d := inv); auto; try apply Hk.
    destruct Hk as (_ & Hs & Hm & _). unfold pairKey. now rewrite Hs, Hm.
  - rewrite map_app. simpl. apply NoDup_snoc; [exact Hp|].
    intros H. apply in_map_iff in H as (d & E & Hd).
    unfold uniqueIndexHit in Hu.
    assert (existsb
              (fun d0 => String.eqb (shopId d0) (shopId doc)
                         && String.eqb (medicineId d0) (medicineId doc))
              (inventories w) = true) as Hex; [|congruence].
    apply existsb_exists. exists d. split; [exact Hd|].
    unfold pairKey in E. injection E as E1 E2.
    rewrite E1, E2, !String.eqb_refl. reflexivity.
Qed.

Lemma Step_IdsFresh_PairUnique_insert (doc : Inventory) (w : World) :
  IdsFresh w -> PairUnique w -> _id doc = nextId w ->
  uniqueIndexHit (preSave doc) (inventories w) = false ->
  IdsFresh (mkWorld (inventories w ++ [preSave doc]) (shops w) (medicines w)
              (S (nextId w)) (console w) (published w))
  /\ PairUnique (mkWorld (inventories w ++ [preSave doc]) (shops w)
                   (medicines w) (S (nextId w)) (console w) (published w)).
Proof.
  intros Hi Hp Hid Hu.
  set (w' := mkWorld _ _ _ _ _ _).
  assert (Step w w') as Hs.
  { right. right. exists (preSave doc). simpl. auto. }
  split; [eapply Step_IdsFresh | eapply Step_PairUnique]; eauto.
Qed.

Lemma Steps_invariants (w w' : World) :
  Steps w w' -> IdsFresh w -> PairUnique w ->
  IdsFresh w' /\ PairUnique w'
  /\ forall d, In d (inventories w) ->
               exists d', In d' (inventories w') /\ Keeps d d'.
Proof.
  intros H Hids Hp. induction H as [w|w1 w2 w3 H12 IH H23].
  - split; [|split]; auto. intros d Hd. exists d. split; auto.
    apply Keeps_refl.
  - destruct (IH Hids Hp) as (I2 & P2 & K2).
    split; [|split].
    + eapply Step_IdsFresh; eauto.
    + eapply Step_PairUnique; eauto.
    + intros d Hd. destruct (K2 d Hd) as (d2 & Hd2 & Hk2).
      destruct (Step_keeps w2 w3 I2 H23 d2 Hd2) as (d3 & Hd3 & Hk3).
      exists d3. split; [exact Hd3 | eapply Keeps_trans; eauto].
Qed.

Lemma replaceById_In (x doc : Inventory) (db : list Inventory) :
  In x (replaceById doc db) -> x = doc \/ In x db.
Proof.
  induction db as [|h db IH]; simpl; [intros []|].
  destruct (Nat.eqb (_id h) (_id doc)).
  - intros [<-|H]; auto.
  - intros [<-|H]; auto. destruct (IH H); auto.
Qed.

Lemma replaceById_NoDup_fresh {B} (f : Inventory -> B) (doc : Inventory)
    (db : list Inventory) :
  NoDup (map f db) -> ~ In (f doc) (map f db) ->
  NoDup (map f (replaceById doc db)).
Proof.
  intros Hnd Hnot. induction db as [|h db IH]; simpl in *; [constructor|].
  inversion Hnd as [|? ? Hh Hnd']; subst.
  destruct (Nat.eqb (_id h) (_id doc)); simpl.
  - constructor; [|exact Hnd']. intros H. apply Hnot. now right.
  - constructor.
    + intros H. apply in_map_iff in H as (x & E & Hx).
      apply replaceById_In in Hx as [->|Hx].
      * apply Hnot. left. now symmetry.
      * apply Hh. rewrite <- E. now apply in_map.
    + apply IH; [exact Hnd'|]. intros H. apply Hnot. now right.
Qed.

(** A write that passed the unique index keeps the pairs distinct. *)
Lemma PairUnique_write (d doc : Inventory) (db : list Inventory) :
  NoDup (map _id db) -> NoDup (map pairKey db) -> In d db ->
  _id doc = _id d -> indexConflict doc db = false ->
  NoDup (map pairKey (replaceById doc db)).
Proof.
  intros Hids Hp Hin Hid Hc.
  destruct (string_dec (shopId doc) (shopId d)) as [Es|Es];
    [destruct (string_dec (medicineId doc) (medicineId d)) as [Em|Em]|].
  - rewrite replaceById_map_same with (d := d); auto.
    unfold pairKey. now rewrite Es, Em.
  - apply replaceById_NoDup_fresh; [exact Hp|].
    unfold indexConflict in Hc. apply andb_false_iff in Hc as [Hc|Hc].
    + apply negb_false_iff, existsb_exists in Hc as (x & Hx & E).
      apply andb_true_iff in E as [E E3]. apply andb_true_iff in E as [E1 E2].
      apply Nat.eqb_eq in E1. apply String.eqb_eq in E2, E3.
      assert (x = d) as ->
        by (apply (NoDup_map_In_eq _id db); auto; congruence).
      congruence.
    + intros H. apply in_map_iff in H as (x & E & Hx).
      unfold pairKey in E. injection E as E1 E2.
      assert (uniqueIndexHit doc db = true) as Hex; [|congruence].
      apply existsb_exists. exists x. split; [exact Hx|].
      now rewrite E1, E2, !String.eqb_refl.
  - apply replaceById_NoDup_fresh; [exact Hp|].
    unfold indexConflict in Hc. apply andb_false_iff in Hc as [Hc|Hc].
    + apply negb_false_iff, existsb_exists in Hc as (x & Hx & E).
      apply andb_true_iff in E as [E E3]. apply andb_true_iff in E as [E1 E2].
      apply Nat.eqb_eq in E1. apply String.eqb_eq in E2, E3.
      assert (x = d) as ->
        by (apply (NoDup_map_In_eq _id db); auto; congruence).
      congruence.
    + intros H. apply in_map_iff in H as (x & E & Hx).
      unfold pairKey in E. injection E as E1 E2.
      assert (uniqueIndexHit doc db = true) as Hex; [|congruence].
      apply existsb_exists. exists x. split; [exact Hx|].
      now rewrite E1, E2, !String.eqb_refl.
Qed.

Lemma PairUnique_written (doc : Inventory) (w : World) :
  IdsFresh w -> PairUnique w ->
  indexConflict doc (inventories w) = false ->
  PairUnique (set_inventories w (replaceById doc (inventories w))).
Proof.
  intros [Hids _] Hp Hc. unfold PairUnique. simpl.
  destruct (in_dec Nat.eq_dec (_id doc) (map _id (inventories w)))
    as [Hin|Hnot].
  - apply in_map_iff in Hin as (d & E & Hd).
    apply PairUnique_write with (d := d); auto.
  - now rewrite replaceById_absent.
Qed.

(** In every state the service can reach, whatever routes led to it: ids
    are distinct and below the counter, and no two lots share shop and
    medicine. *)
Lemma reachable_invariants shops0 medicines0 trace :
  IdsFresh (run trace (initialWorld shops0 medicines0))
  /\ PairUnique (run trace (initialWorld shops0 medicines0)).
Proof.
  apply (run_preserves (fun w => IdsFresh w /\ PairUnique w)).
  - intros w c p H. exact H.
  - intros doc w _ Hc [Hi Hp]. split.
    + now apply IdsFresh_write.
    + now apply PairUnique_written.
  - intros doc w _ Hid Hu [Hi Hp].
    apply Step_IdsFresh_PairUnique_insert; auto.
  - intros d doc w _ _ Hc [Hi Hp]. split.
    + now apply IdsFresh_write.
    + now apply PairUnique_written.
  - split; [split; constructor | constructor].
Qed.

(** No operation deletes a lot: an id that is stored stays stored. *)
Lemma ids_kept_run (id : nat) trace w :
  In id (map _id (inventories w)) ->
  In id (map _id (inventories (run trace w))).
Proof.
  apply (run_preserves (fun w0 => In id (map _id (inventories w0)))).
  - intros w0 c p H. exact H.
  - intros doc w0 _ _ H. simpl. now rewrite replaceById_ids.
  - intros doc w0 _ _ _ H. simpl. rewrite map_app. apply in_or_app. now left.
  - intros d doc w0 _ _ _ H. simpl. now rewrite replaceById_ids.
Qed.

(** ** X1, X2: lots are kept, and one lot per shop and medicine *)

(** X1.  From any state the service can reach, and over any further
    operations, no lot is deleted: every stored lot has a later state in the
    collection under the same id.  When none of the further operations is an
    inventory update or a bulk update, the two routes that write the keys of
    the request body over the lot, that later state has the same shop,
    medicine and batch number, and its movement list starts with the
    movements the lot had. *)
Theorem lots_outlive_operations shops0 medicines0 trace later d :
  In d (inventories (run trace (initialWorld shops0 medicines0))) ->
  (exists d',
      In d' (inventories
               (run later (run trace (initialWorld shops0 medicines0))))
      /\ _id d' = _id d)
  /\ (forallb (fun step => negb (writesBody (snd step))) later = true ->
      exists d',
        In d' (inventories
                 (run later (run trace (initialWorld shops0 medicines0))))
        /\ Keeps d d').
Proof.
  intros Hd. split.
  - pose proof (ids_kept_run (_id d) later
                  (run trace (initialWorld shops0 medicines0))
                  (in_map _id _ _ Hd)) as H.
    apply in_map_iff in H as (d' & E & Hd'). eauto.
  - intros Hlater.
    destruct (reachable_invariants shops0 medicines0 trace) as [Hids Hp].
    destruct (Steps_invariants _ _
                (run_steps later (run trace (initialWorld shops0 medicines0))
                   Hlater)
                Hids Hp) as (_ & _ & Hk).
    now apply Hk.
Qed.

(** X1 on the lot of 100 units, followed by a purchase of 40, a placed event
    for 10 and new alert settings. *)
Lemma lots_outlive_operations_witness :
  exists d',
    In d'
      (inventories
         (run [(2001, AddStockMovement Scenario.owner 0
                        (mkMovementBody "in" 40 "purchase" None "restock"));
               (2002, OrderEvent (Scenario.order "order.placed" 10));
               (2003, UpdateAlertSettings Scenario.owner 0 (mkAlerts 20 15))]
              Scenario.created))
    /\ Keeps
         (mkInventory 0 Scenario.shopA Scenario.medA "B1" 100 0 100 1000
            9000000 "active" (mkAlerts 10 30) [] 2000
            (user_id Scenario.owner))
         d'.
Proof.
  refine (proj2
            (lots_outlive_operations
               [mkShop Scenario.shopA (user_id Scenario.owner)]
               [Scenario.medA; Scenario.medB]
               [(2000, Scenario.createLot Scenario.medA "B1" 100)]
               _ _ _) _).
  - vm_compute. left. reflexivity.
  - reflexivity.
Defined.

(** X2.  In every state the service can reach, a shop holds at most one lot
    of a medicine, whatever the batch numbers: two stored lots with the same
    shop and medicine are the same lot.  The unique index is checked by the
    insert of a create and by the write of a save and of an update, so a
    request body that names another shop or medicine cannot bring two lots
    together either. *)
Theorem one_lot_per_shop_and_medicine shops0 medicines0 trace d1 d2 :
  In d1 (inventories (run trace (initialWorld shops0 medicines0))) ->
  In d2 (inventories (run trace (initialWorld shops0 medicines0))) ->
  shopId d1 = shopId d2 -> medicineId d1 = medicineId d2 ->
  d1 = d2.
Proof.
  intros H1 H2 Hs Hm.
  destruct (reachable_invariants shops0 medicines0 trace) as [_ Hp].
  apply (NoDup_map_In_eq pairKey _ d1 d2 Hp H1 H2).
  unfold pairKey. now rewrite Hs, Hm.
Qed.

(** X2 after two lots were created for two medicines, a second batch of the
    first medicine was requested, and an update asked to move the second lot
    to the first medicine: the two lots are as they were. *)
Lemma one_lot_per_shop_and_medicine_witness :
  let lotA :=
    mkInventory 0 Scenario.shopA Scenario.medA "B1" 100 0 100 1000 9000000
      "active" (mkAlerts 10 30) [] 2000 (user_id Scenario.owner) in
  let trace :=
    [(2000, Scenario.createLot Scenario.medA "B1" 100);
     (2000, Scenario.createLot Scenario.medB "B7" 40);
     (2001, Scenario.createLot Scenario.medA "B2" 5);
     (2002, UpdateInventoryItem Scenario.owner 1
              (mkUpdateBody None
                 (mkOther None None None None None (Some Scenario.medA) None
                    None None None None None noInc)))] in
  map (fun d => (medicineId d, batchNumber d))
    (inventories (run trace Scenario.world0))
  = [(Scenario.medA, "B1"); (Scenario.medB, "B7")]
  /\ lotA = lotA.
Proof.
  cbv zeta. split; [vm_compute; reflexivity|].
  apply (one_lot_per_shop_and_medicine
           [mkShop Scenario.shopA (user_id Scenario.owner)]
           [Scenario.medA; Scenario.medB]
           [(2000, Scenario.createLot Scenario.medA "B1" 100);
            (2000, Scenario.createLot Scenario.medB "B7" 40);
            (2001, Scenario.createLot Scenario.medA "B2" 5);
            (2002, UpdateInventoryItem Scenario.owner 1
                     (mkUpdateBody None
                        (mkOther None None None None None
                           (Some Scenario.medA) None None None None None
                           None noInc)))]).
  - vm_compute. left. reflexivity.
  - vm_compute. left. reflexivity.
  - reflexivity.
  - reflexivity.
Defined.

(** ** X3: only the owner of the shop, or an admin, writes *)

Lemma stranger_notOwner (u : User) (w : World) (f : MedicalShop -> bool)
    (s : MedicalShop) :
  stranger u w -> find f (shops w) = Some s -> Controller.notOwner s u = true.
Proof.
  intros [Hrole Hown] Hf. apply find_some in Hf as [Hin _].
  unfold Controller.notOwner. now rewrite (Hown s Hin), Hrole.
Qed.

(** X3.  A request of a user who is no admin and owns no shop changes no
    lot, whichever of the five writing routes it uses and whatever its
    body. *)
Theorem stranger_changes_no_lot now op u w :
  requester op = Some u -> stranger u w ->
  inventories (perform now op w) = inventories w.
Proof.
  intros Hreq Hs.
  destruct op; simpl in Hreq; try discriminate; injection Hreq as ->;
    simpl; unfold execWorld, validated.
  - destruct (createInventorySchema body); [|reflexivity].
    unfold Controller.addInventoryItem, bind, MedicalShop_findById.
    destruct (negb (castObjectId (b_shopId body))); [reflexivity|].
    destruct (find _ (shops w)) as [s|] eqn:F; [|reflexivity].
    now rewrite (stranger_notOwner _ _ _ _ Hs F).
  - destruct (updateInventorySchema body); [|reflexivity].
    unfold Controller.updateInventoryItem, bind, Inventory_findById.
    destruct (find _ (inventories w)) as [inv|]; [|reflexivity].
    unfold MedicalShop_findById.
    destruct (negb (castObjectId (shopId inv))); [reflexivity|].
    destruct (find _ (shops w)) as [s|] eqn:F; [|reflexivity].
    now rewrite (stranger_notOwner _ _ _ _ Hs F).
  - destruct (stockMovementSchema body); [|reflexivity].
    unfold Controller.addStockMovement, bind, Inventory_findById.
    destruct (find _ (inventories w)) as [inv|]; [|reflexivity].
    unfold MedicalShop_findById.
    destruct (negb (castObjectId (shopId inv))); [reflexivity|].
    destruct (find _ (shops w)) as [s|] eqn:F; [|reflexivity].
    now rewrite (stranger_notOwner _ _ _ _ Hs F).
  - destruct (bulkInventoryUpdateSchema items0); [|reflexivity].
    unfold Controller.bulkUpdateInventory, bind, MedicalShop_findById.
    destruct (negb (castObjectId shop)); [reflexivity|].
    destruct (find _ (shops w)) as [s|] eqn:F; [|reflexivity].
    now rewrite (stranger_notOwner _ _ _ _ Hs F).
  - destruct (updateAlertSettingsSchema settings); [|reflexivity].
    unfold Controller.updateAlertSettings, bind, Inventory_findById.
    destruct (find _ (inventories w)) as [inv|]; [|reflexivity].
    unfold MedicalShop_findById.
    destruct (negb (castObjectId (shopId inv))); [reflexivity|].
    destruct (find _ (shops w)) as [s|] eqn:F; [|reflexivity].
    now rewrite (stranger_notOwner _ _ _ _ Hs F).
Qed.

(** X3 for a customer who asks to take 40 units out of the lot of 100. *)
Lemma stranger_changes_no_lot_witness :
  inventories
    (perform 2001
       (AddStockMovement (mkUser Scenario.buyer "customer") 0
          (mkMovementBody "out" 40 "sale" None "counter"))
       Scenario.created)
  = inventories Scenario.created.
Proof.
  apply (stranger_changes_no_lot 2001 _ (mkUser Scenario.buyer "customer")).
  - reflexivity.
  - split; [reflexivity|].
    intros s [<-|[]]. reflexivity.
Defined.

(** ** X4: an order event writes at most one lot *)

(** X4.  Whatever its kind and however many lines it carries, an order
    event leaves the collection as it was or writes exactly one stored lot
    over with a later state of itself: the first line that reaches a write
    ends the loop, because the movement that follows the write is refused.
    A delivered event writes nothing. *)
Theorem order_event_writes_at_most_one_lot now event w :
  (inventories (perform now (OrderEvent event) w) = inventories w
   \/ exists inv doc,
        In inv (inventories w) /\ Keeps inv doc
        /\ inventories (perform now (OrderEvent event) w)
           = replaceById doc (inventories w))
  /\ (ev_type event = "order.delivered" ->
      inventories (perform now (OrderEvent event) w) = inventories w).
Proof.
  split.
  - simpl.
    destruct (atMostOneWrite_handleOrderEvents now event w)
      as [[H _]|(inv & doc & Hin & Hk & H & _)].
    + now left.
    + right. exists inv, doc. auto.
  - intros Ht. simpl. rewrite dispatch_inventories, Ht. simpl.
    unfold Handlers.handleOrderDelivered. cbv zeta.
    match goal with |- inventories (snd (?m w)) = _ =>
      assert (forall w0, Quiet w0 (snd (m w0))) as H end.
    { intros w0. unfold bind at 1. simpl. set (w1 := mkWorld _ _ _ _ _ _).
      unfold tryCatch.
      assert (forall item w2,
                 Quiet w2 (snd (Handlers.deliveredItem (data event) item w2)))
        as Hq.
      { intros item w2.
        unfold Handlers.deliveredItem, bind, Inventory_findOneByMedicine.
        destruct (castObjectId (ev_shopId (data event))); simpl;
          [|apply Quiet_refl].
        destruct (castObjectId (item_medicineId item)); simpl;
          [|apply Quiet_refl].
        destruct (find _ (inventories w2)) as [inv|]; [|apply Quiet_refl].
        destruct (isLowStock inv);
          [apply Quiet_console | apply Quiet_refl]. }
      assert (forall xs w2,
                 Quiet w2
                   (snd (forOf xs (Handlers.deliveredItem (data event)) w2)))
        as Hloop.
      { induction xs as [|x xs IH]; intros w2; simpl; [apply Quiet_refl|].
        unfold bind. specialize (Hq x w2).
        destruct (Handlers.deliveredItem (data event) x w2)
          as [[[]|e] w3]; simpl in *; [|exact Hq].
        eapply Quiet_trans; [exact Hq | apply IH]. }
      specialize (Hloop (items (data event)) w1).
      destruct (forOf _ _ w1) as [[[]|e] w2]; simpl in *.
      - eapply Quiet_trans; [apply Quiet_console | exact Hloop].
      - eapply Quiet_trans; [apply Quiet_console|].
        eapply Quiet_trans; [exact Hloop | apply Quiet_console]. }
    apply H.
Qed.

(** X4 on scenario A: a delivered event for the lot writes nothing. *)
Lemma order_event_writes_at_most_one_lot_witness :
  inventories
    (perform 2003 (OrderEvent (Scenario.order "order.delivered" 95))
       Scenario.worldA)
  = inventories Scenario.worldA.
Proof.
  apply (proj2 (order_event_writes_at_most_one_lot 2003
                  (Scenario.order "order.delivered" 95) Scenario.worldA)).
  reflexivity.
Defined.

(** ** X5, X6: a reservation followed by its release or its confirmation *)

Lemma Targets_after (event : Event) (item : OrderItem) (inv doc : Inventory)
    (w w' : World) :
  Targets event item inv w ->
  inventories w' = replaceById doc (inventories w) ->
  _id doc = _id inv -> shopId doc = shopId inv ->
  medicineId doc = medicineId inv -> batchNumber doc = batchNumber inv ->
  Targets event item doc w'.
Proof.
  intros Ht Hw Hid Hs Hm Hb. pose proof Ht as [Hi Hsh Hmed Hf].
  constructor; auto.
  apply (found_again event item inv doc w); auto.
Qed.



(** X6.  Quantities are whole numbers in the safe-integer range.  A placed
    event for one line, followed by a confirmed event for the same line, on
    a lot whose stored available quantity is the derived one:
    the lot found afterwards has the on-hand quantity lowered by the line's
    quantity, the reserved quantity it had before the two events, the
    available quantity derived from both, and its status and movement list
    unchanged. *)
Theorem placed_then_confirmed_sells now1 now2 placed confirmed item inv w :
  Targets placed item inv w -> ev_type placed = "order.placed" ->
  data confirmed = data placed -> ev_type confirmed = "order.confirmed" ->
  Valid inv -> safeLot inv -> availableDerived inv ->
  0 <= item_quantity item -> item_quantity item <= availableQuantity inv ->
  exists sold,
    find (matchesLot (ev_shopId (data placed)) (item_medicineId item)
            (item_batchNumber item))
         (inventories
            (perform now2 (OrderEvent confirmed)
               (perform now1 (OrderEvent placed) w)))
    = Some sold
    /\ quantity sold = quantity inv - item_quantity item
    /\ reservedQuantity sold = reservedQuantity inv
    /\ availableQuantity sold
       = Z.max 0 (quantity inv - item_quantity item - reservedQuantity inv)
    /\ status sold = status inv
    /\ stockMovements sold = stockMovements inv.
Proof.
  intros Ht Hp Hdata Hc Hv Hsafe Hd Hq Hav.
  pose proof (valid_reserved _ Hv) as Hr.
  pose proof (valid_quantity _ Hv) as Hq0.
  unfold availableDerived in Hd.
  set (q := item_quantity item) in *.
  set (w1 := perform now1 (OrderEvent placed) w).
  assert (inventories w1 = replaceById (reservedDoc inv q) (inventories w))
    as H1.
  { subst w1 q. simpl. apply placed_reserves; auto. lia. }
  assert (Targets confirmed item (reservedDoc inv q) w1) as Ht1.
  { pose proof (Targets_after placed item inv (reservedDoc inv q) w w1 Ht H1
                  eq_refl eq_refl eq_refl eq_refl) as [A B C D].
    constructor; rewrite ?Hdata; auto. }
  exists (confirmedDoc (reservedDoc inv q) q).
  split; [|split; [|split; [|split; [|split]]]].
  - rewrite <- Hdata.
    apply (found_again confirmed item (reservedDoc inv q) _ w1); auto.
    simpl. apply confirmed_commits; auto.
    + apply Valid_reservedDoc; auto. lia.
    + rewrite reservedDoc_reserved. fold q. lia.
    + change (quantity (reservedDoc inv q)) with (quantity inv). fold q. lia.
  - reflexivity.
  - change (reservedQuantity (confirmedDoc (reservedDoc inv q) q))
      with (reservedQuantity inv + q - q). lia.
  - change (availableQuantity (confirmedDoc (reservedDoc inv q) q))
      with (Z.max 0 (quantity inv - q - (reservedQuantity inv + q - q))).
    lia.
  - reflexivity.
  - reflexivity.
Qed.

(** X6 on the lot of 100 units and a line of 95. *)
Lemma placed_then_confirmed_sells_witness :
  exists sold,
    find (matchesLot Scenario.shopA Scenario.medA "B1")
         (inventories Scenario.worldB) = Some sold
    /\ quantity sold = 100 - 95
    /\ reservedQuantity sold = 0
    /\ availableQuantity sold = Z.max 0 (100 - 95 - 0)
    /\ status sold = "active"
    /\ stockMovements sold = [].
Proof.
  apply (placed_then_confirmed_sells 2001 2002
           (Scenario.order "order.placed" 95)
           (Scenario.order "order.confirmed" 95)
           (mkItem Scenario.medA "B1" 95)
           (mkInventory 0 Scenario.shopA Scenario.medA "B1" 100 0 100 1000
              9000000 "active" (mkAlerts 10 30) [] 2000
              (user_id Scenario.owner))
           Scenario.created).
  - constructor; vm_compute; reflexivity.
  - reflexivity.
  - reflexivity.
  - reflexivity.
  - constructor; simpl; try lia; try reflexivity. constructor.
  - unfold safeLot, safeInteger, maxSafeInteger; simpl; lia.
  - reflexivity.
  - simpl; lia.
  - simpl; lia.
Defined.

(** ** X7, X8: the movement route at the edge and on success *)

Lemma save_applyMovement self now type qty reason performedBy reference
    notes w :
  let after :=
    applyMovement self now type qty reason performedBy reference notes in
  In self (inventories w) -> Valid after ->
  save after w
  = (Ok (preSave after),
     set_inventories w (replaceById (preSave after) (inventories w))).
Proof. intros after. apply addStockMovement_saved. Qed.

Lemma validate_status_message (d : Inventory) :
  inEnum (status d) statusEnum = false ->
  In (enumMessage (status d) "status") (validate d).
Proof.
  intros Hs. unfold validate.
  do 4 (apply in_or_app; right). apply in_or_app. left.
  rewrite Hs. now left.
Qed.

Section MovementRoute.

Variables (now : Z) (user : User) (id : nat) (body : MovementBody)
          (inv : Inventory) (shop : MedicalShop) (w : World).

Hypothesis stored :
  find (fun d => Nat.eqb (_id d) id) (inventories w) = Some inv.
Hypothesis shop_castable : castObjectId (shopId inv) = true.
Hypothesis shop_found :
  find (fun s => String.eqb (shop_id s) (shopId inv)) (shops w) = Some shop.
Hypothesis authorized : Controller.notOwner shop user = false.

Let after : Inventory :=
  applyMovement inv now (m_type body) (m_quantity body) (m_reason body)
    (user_id user) (m_reference body) (m_notes body).

(** Behind the authorisation checks the route is the save of the changed
    document, followed by the publication of the movement. *)
Lemma movement_route_is_save :
  Controller.addStockMovement now user id body w
  = match save after w with
    | (Ok doc, w') =>
        (Ok doc,
         mkWorld (inventories w') (shops w') (medicines w') (nextId w')
           (console w')
           (published w' ++ [("inventory-events", "inventory.stock_movement")]))
    | (Throw e, w') => (Throw e, w')
    end.
Proof.
  unfold Controller.addStockMovement, bind, Inventory_findById.
  rewrite stored. unfold MedicalShop_findById.
  rewrite shop_castable. simpl. rewrite shop_found, authorized.
  unfold Inventory_addStockMovement. fold after.
  destruct (save after w) as [[doc|e] w']; reflexivity.
Qed.

End MovementRoute.

(** X7.  A stock movement of type out for exactly the on-hand quantity of a
    lot that has not expired is refused: the status the method derives for
    an empty lot, out-of-stock, is no value of the schema's status enum, so
    the save throws a validation error naming the status, and the world is
    as before (nothing stored, nothing published).  On a lot that has
    expired the same movement is stored: the lot is left with quantity 0 and
    status expired. *)
Theorem emptying_movement now user id body inv shop w :
  find (fun d => Nat.eqb (_id d) id) (inventories w) = Some inv ->
  Valid inv -> castObjectId (shopId inv) = true ->
  find (fun s => String.eqb (shop_id s) (shopId inv)) (shops w) = Some shop ->
  Controller.notOwner shop user = false ->
  castObjectId (user_id user) = true ->
  stockMovementSchema body = true ->
  m_type body = "out" -> m_quantity body = quantity inv ->
  let route :=
    validated (stockMovementSchema body)
      (Controller.addStockMovement now user id body) in
  (now <= expiryDate inv ->
   (exists errs,
       evalOutcome route w = Throw (ValidationError errs)
       /\ In (enumMessage "out-of-stock" "status") errs)
   /\ execWorld route w = w)
  /\ (expiryDate inv < now ->
      exists doc,
        evalOutcome route w = Ok doc
        /\ inventories (execWorld route w)
           = replaceById doc (inventories w)
        /\ quantity doc = 0 /\ status doc = "expired").
Proof.
  intros Hst Hv Hsc Hsf Hauth Hu Hschema Htype Hqty. cbv zeta.
  unfold evalOutcome, execWorld, validated. rewrite Hschema.
  rewrite (movement_route_is_save now user id body inv shop w Hst Hsc Hsf
             Hauth).
  set (after := applyMovement inv now (m_type body) (m_quantity body)
                  (m_reason body) (user_id user) (m_reference body)
                  (m_notes body)).
  assert (quantity after = 0) as Hq0.
  { unfold after. rewrite applyMovement_quantity, Htype, Hqty. simpl. lia. }
  split.
  - intros Hlive.
    assert (status after = "out-of-stock") as Hs.
    { pose proof (applyMovement_status inv now (m_type body)
                    (m_quantity body) (m_reason body) (user_id user)
                    (m_reference body) (m_notes body)) as E.
      fold after in E. rewrite E, Hq0.
      apply Z.ltb_ge in Hlive. now rewrite Hlive. }
    assert (validate after <> []) as Hbad.
    { intros H. apply validate_nil in H. destruct H as [_ _ _ _ H _ _ _ _].
      rewrite Hs in H. discriminate. }
    rewrite (save_invalid after w Hbad). simpl. split; [|reflexivity].
    eexists. split; [reflexivity|].
    rewrite <- Hs. apply validate_status_message. now rewrite Hs.
  - intros Hexp.
    assert (Valid after) as Hva.
    { pose proof Hv as [Hb Hq Hr Ha Hs Ht Hd Hc Hm].
      unfold stockMovementSchema in Hschema.
      apply andb_true_iff in Hschema as [Hschema _].
      apply andb_true_iff in Hschema as [Hschema Hreason].
      assert (batchNumber after = batchNumber inv
              /\ alerts after = alerts inv
              /\ createdBy after = createdBy inv) as (E1 & E2 & E3).
      { unfold after. unfold applyMovement. rewrite Htype. simpl. auto. }
      constructor.
      - now rewrite E1.
      - lia.
      - unfold after. now rewrite applyMovement_reserved.
      - unfold after. rewrite applyMovement_available. lia.
      - unfold after. rewrite applyMovement_status.
        apply Z.ltb_lt in Hexp. now rewrite Hexp.
      - now rewrite E2.
      - now rewrite E2.
      - now rewrite E3.
      - unfold after. rewrite applyMovement_movements.
        apply Forall_app. split; [exact Hm|].
        constructor; [|constructor].
        repeat split; simpl; auto. now rewrite Htype. }
    pose proof (find_some _ _ Hst) as [Hin _].
    pose proof (save_applyMovement inv now (m_type body) (m_quantity body)
                  (m_reason body) (user_id user) (m_reference body)
                  (m_notes body) w Hin Hva) as Es.
    fold after in Es. rewrite Es. simpl.
    exists (preSave after). repeat split; auto.
    change (status (preSave after)) with (status after).
    unfold after. rewrite applyMovement_status.
    apply Z.ltb_lt in Hexp. now rewrite Hexp.
Qed.

(** X7 on the lot of 100 units, which expires at 9000000: an out of 100 at
    time 2001 is refused. *)
Lemma emptying_movement_witness :
  let route :=
    validated
      (stockMovementSchema (mkMovementBody "out" 100 "sale" None "counter"))
      (Controller.addStockMovement 2001 Scenario.owner 0
         (mkMovementBody "out" 100 "sale" None "counter")) in
  (exists errs,
      evalOutcome route Scenario.created = Throw (ValidationError errs)
      /\ In (enumMessage "out-of-stock" "status") errs)
  /\ execWorld route Scenario.created = Scenario.created.
Proof.
  cbv zeta.
  refine (proj1
            (emptying_movement 2001 Scenario.owner 0
               (mkMovementBody "out" 100 "sale" None "counter")
               (mkInventory 0 Scenario.shopA Scenario.medA "B1" 100 0 100
                  1000 9000000 "active" (mkAlerts 10 30) [] 2000
                  (user_id Scenario.owner))
               (mkShop Scenario.shopA (user_id Scenario.owner))
               Scenario.created _ _ _ _ _ _ _ _ _) _).
  - vm_compute; reflexivity.
  - constructor; simpl; try lia; try reflexivity. constructor.
  - reflexivity.
  - reflexivity.
  - reflexivity.
  - reflexivity.
  - reflexivity.
  - reflexivity.
  - reflexivity.
  - simpl; lia.
Defined.

(** X8.  Quantities are whole numbers in the safe-integer range, the new
    on-hand quantity included.  A stock movement on a stored lot that is
    stored replaces the lot's status by the derived one, whatever the status
    was (a lot marked damaged or returned by hand included): expired when
    the expiry date has passed, else low-stock when the new available
    quantity is at most the threshold, else active.  The stored lot has the
    new available quantity max(0, quantity - reservedQuantity), the time of
    the call as last stock update, and the movement list extended by exactly
    the one entry of the call, with its reference and its notes trimmed. *)
Theorem stored_movement_rederives_status self now type qty reason
    performedBy reference notes w :
  In self (inventories w) -> Valid self -> safeLot self -> safeInteger qty ->
  movementOk (movementOf now type qty reason performedBy reference notes)
  ->
  0 < quantity
        (applyMovement self now type qty reason performedBy reference notes)
    <= maxSafeInteger
  ->
  exists doc,
    Inventory_addStockMovement self now type qty reason performedBy
      reference notes w
    = (Ok doc, set_inventories w (replaceById doc (inventories w)))
    /\ status doc
       = (if expiryDate self <? now then "expired"
          else if availableQuantity doc <=? lowStockThreshold (alerts self)
               then "low-stock"
          else "active")
    /\ availableQuantity doc
       = Z.max 0 (quantity doc - reservedQuantity self)
    /\ lastStockUpdate doc = now
    /\ stockMovements doc
       = (stockMovements self
          ++ [mkStockMovement type qty reason (option_map trim reference)
                performedBy (trim notes) now])%list.
Proof.
  intros Hin Hv Hsafe Hsq Hm [Hpos Hmax].
  set (after :=
         applyMovement self now type qty reason performedBy reference notes)
    in *.
  exists (preSave after).
  assert (availableQuantity (preSave after) = availableQuantity after) as Ha.
  { change (availableQuantity (preSave after))
      with (Z.max 0 (quantity after - reservedQuantity after)).
    symmetry. apply applyMovement_available. }
  split; [|split; [|split; [|split]]].
  - apply addStockMovement_saved; [exact Hin|].
    now apply applyMovement_Valid.
  - rewrite Ha. change (status (preSave after)) with (status after).
    subst after. rewrite applyMovement_status.
    destruct (expiryDate self <? now); [reflexivity|].
    match goal with |- context [?q =? 0] =>
      destruct (q =? 0) eqn:E; [apply Z.eqb_eq in E; lia|] end.
    reflexivity.
  - rewrite Ha. change (quantity (preSave after)) with (quantity after).
    subst after. rewrite applyMovement_available, applyMovement_reserved.
    reflexivity.
  - subst after. unfold applyMovement.
    destruct (String.eqb type "in"), (String.eqb type "out"),
      (String.eqb type "adjustment"); reflexivity.
  - change (stockMovements (preSave after)) with (stockMovements after).
    subst after. apply applyMovement_movements.
Qed.

(** X8 on the lot of 100 units, marked damaged in the meantime: a purchase
    of 5, its notes given with blanks around them, is stored and the lot is
    active again. *)
Lemma stored_movement_rederives_status_witness :
  let marked :=
    perform 2001
      (UpdateInventoryItem Scenario.owner 0
         (mkUpdateBody None
            (mkOther None None (Some "damaged") None None None None None
               None None None None noInc)))
      Scenario.created in
  let damaged :=
    mkInventory 0 Scenario.shopA Scenario.medA "B1" 100 0 100 1000 9000000
      "damaged" (mkAlerts 10 30) [] 2000 (user_id Scenario.owner) in
  exists doc,
    Inventory_addStockMovement damaged 2002 "in" 5 "purchase"
      (user_id Scenario.owner) None "  restock " marked
    = (Ok doc, set_inventories marked (replaceById doc (inventories marked)))
    /\ status doc
       = (if 9000000 <? 2002 then "expired"
          else if availableQuantity doc <=? 10 then "low-stock"
          else "active")
    /\ availableQuantity doc = Z.max 0 (quantity doc - 0)
    /\ lastStockUpdate doc = 2002
    /\ stockMovements doc
       = ([] ++ [mkStockMovement "in" 5 "purchase" None
                   (user_id Scenario.owner) "restock" 2002])%list.
Proof.
  cbv zeta.
  apply (stored_movement_rederives_status
           (mkInventory 0 Scenario.shopA Scenario.medA "B1" 100 0 100 1000
              9000000 "damaged" (mkAlerts 10 30) [] 2000
              (user_id Scenario.owner))
           2002 "in" 5 "purchase" (user_id Scenario.owner) None "  restock ").
  - vm_compute. left. reflexivity.
  - constructor; simpl; try lia; try reflexivity. constructor.
  - unfold safeLot, safeInteger, maxSafeInteger; simpl; lia.
  - unfold safeInteger, maxSafeInteger; lia.
  - repeat split; reflexivity.
  - vm_compute. split; [reflexivity | discriminate].
Defined.

(** ** X9, X10: the bulk update *)





(** X10.  Quantities are whole numbers in the safe-integer range.  A bulk
    update item for a stored, valid lot, carrying only medicine, batch
    number and quantity, sets the on-hand quantity to the given value and
    re-derives the available quantity; it records no movement and leaves
    the batch number, the status, the reserved quantity and the alert
    settings as they were. *)
Theorem bulk_item_sets_quantity now user shop s item inv w :
  castObjectId shop = true ->
  find (fun x => String.eqb (shop_id x) shop) (shops w) = Some s ->
  Controller.notOwner s user = false ->
  castObjectId (bi_medicineId item) = true ->
  find (matchesLot shop (bi_medicineId item) (bi_batchNumber item))
       (inventories w) = Some inv ->
  Valid inv -> safeLot inv -> bi_other item = noOther ->
  0 <= bi_quantity item <= maxSafeInteger ->
  exists doc,
    find (matchesLot shop (bi_medicineId item) (bi_batchNumber item))
         (inventories (perform now (BulkUpdateInventory user shop [item]) w))
    = Some doc
    /\ quantity doc = bi_quantity item
    /\ availableQuantity doc
       = Z.max 0 (bi_quantity item - reservedQuantity inv)
    /\ reservedQuantity doc = reservedQuantity inv
    /\ batchNumber doc = batchNumber inv
    /\ status doc = status inv
    /\ alerts doc = alerts inv
    /\ stockMovements doc = stockMovements inv.
Proof.
  intros Hc Hf Hown Hm Hfind Hv Hsafe Hother [Hq Hqmax].
  pose proof (find_some _ _ Hfind) as [Hin Hk].
  pose proof Hk as Hk'. unfold matchesLot in Hk'.
  apply andb_true_iff in Hk' as [Hk' Hb].
  apply andb_true_iff in Hk' as [Hsh Hmed].
  apply String.eqb_eq in Hsh, Hmed, Hb.
  assert (Controller.assignItem inv item
          = set_quantity inv (bi_quantity item)) as Hdoc.
  { unfold Controller.assignItem. rewrite Hother, <- Hmed, <- Hb.
    destruct inv; reflexivity. }
  exists (preSave (set_quantity inv (bi_quantity item))).
  split; [|repeat split].
  simpl. unfold execWorld, validated.
  assert (bulkInventoryUpdateSchema [item] = true) as Hschema.
  { unfold bulkInventoryUpdateSchema. simpl.
    apply Z.leb_le in Hq. rewrite Hq.
    destruct Hv as [Hbn _ _ _ _ _ _ _ _]. rewrite Hb in Hbn.
    destruct (bi_medicineId item) eqn:Em; [discriminate Hm|].
    destruct (bi_batchNumber item); [discriminate Hbn|]. reflexivity. }
  rewrite Hschema.
  unfold Controller.bulkUpdateInventory, bind, MedicalShop_findById.
  rewrite Hc. simpl. rewrite Hf, Hown.
  unfold Controller.bulkItem, bind.
  rewrite findOne_found by assumption. rewrite Hfind, Hdoc.
  rewrite save_kept with (inv := inv); try reflexivity; auto.
  2: { destruct Hv. constructor; simpl; auto. }
  simpl.
  apply find_replaceById with (d := inv); auto.
Qed.

(** X10 on the lot of 100 units, counted again as 60. *)
Lemma bulk_item_sets_quantity_witness :
  exists doc,
    find (matchesLot Scenario.shopA Scenario.medA "B1")
         (inventories
            (perform 2001
               (BulkUpdateInventory Scenario.owner Scenario.shopA
                  [mkBulkItem Scenario.medA "B1" 60 noOther])
               Scenario.created))
    = Some doc
    /\ quantity doc = 60
    /\ availableQuantity doc = Z.max 0 (60 - 0)
    /\ reservedQuantity doc = 0
    /\ batchNumber doc = "B1"
    /\ status doc = "active"
    /\ alerts doc = mkAlerts 10 30
    /\ stockMovements doc = [].
Proof.
  apply (bulk_item_sets_quantity 2001 Scenario.owner Scenario.shopA
           (mkShop Scenario.shopA (user_id Scenario.owner))
           (mkBulkItem Scenario.medA "B1" 60 noOther)
           (mkInventory 0 Scenario.shopA Scenario.medA "B1" 100 0 100 1000
              9000000 "active" (mkAlerts 10 30) [] 2000
              (user_id Scenario.owner))
           Scenario.created).
  - reflexivity.
  - reflexivity.
  - reflexivity.
  - reflexivity.
  - vm_compute; reflexivity.
  - constructor; simpl; try lia; try reflexivity. constructor.
  - unfold safeLot, safeInteger, maxSafeInteger; simpl; lia.
  - reflexivity.
  - unfold maxSafeInteger; simpl; lia.
Defined.

(** ** X11: the delivered handler *)



(** ** X12: the alert settings route *)

(** X12.  Quantities are whole numbers in the safe-integer range.  An
    alert settings request by the owner, for a stored valid lot and with
    non-negative settings, stores the two settings and, because it
    goes through save(), the available quantity derived from quantity and
    reserved quantity, whatever available quantity was stored before;
    quantity, reserved quantity, status and movements are untouched. *)
Theorem alert_settings_rederive_available user id settings inv shop w :
  find (fun d => Nat.eqb (_id d) id) (inventories w) = Some inv ->
  Valid inv -> safeLot inv -> castObjectId (shopId inv) = true ->
  find (fun s => String.eqb (shop_id s) (shopId inv)) (shops w) = Some shop ->
  Controller.notOwner shop user = false ->
  updateAlertSettingsSchema settings = true ->
  forall now,
  exists doc,
    find (fun d => Nat.eqb (_id d) id)
         (inventories (perform now (UpdateAlertSettings user id settings) w))
    = Some doc
    /\ alerts doc = settings
    /\ availableQuantity doc
       = Z.max 0 (quantity inv - reservedQuantity inv)
    /\ quantity doc = quantity inv
    /\ reservedQuantity doc = reservedQuantity inv
    /\ status doc = status inv
    /\ stockMovements doc = stockMovements inv.
Proof.
  intros Hst Hv Hsafe Hsc Hsf Hauth Hschema now.
  pose proof (find_some _ _ Hst) as [Hin _].
  exists (preSave (set_alerts inv settings)).
  split; [|repeat split].
  simpl. unfold execWorld, validated. rewrite Hschema.
  unfold Controller.updateAlertSettings, bind, Inventory_findById.
  rewrite Hst. unfold MedicalShop_findById.
  rewrite Hsc. simpl. rewrite Hsf, Hauth.
  rewrite save_kept with (inv := inv); try reflexivity; auto.
  2: { unfold updateAlertSettingsSchema in Hschema.
       apply andb_true_iff in Hschema as [H1 H2].
       apply Z.leb_le in H1, H2.
       destruct Hv. constructor; simpl; auto. }
  simpl. apply find_replaceById with (d := inv); auto.
  apply find_some in Hst as [_ Hk]. exact Hk.
Qed.

(** X12 after the inventory update that left quantity 50 with a stored
    available quantity of 100: the alert settings request stores 50. *)
Lemma alert_settings_rederive_available_witness :
  exists doc,
    find (fun d => Nat.eqb (_id d) 0)
         (inventories
            (perform 2002
               (UpdateAlertSettings Scenario.owner 0 (mkAlerts 20 15))
               (perform 2001
                  (UpdateInventoryItem Scenario.owner 0
                     (mkUpdateBody (Some 50) noOther))
                  Scenario.created)))
    = Some doc
    /\ alerts doc = mkAlerts 20 15
    /\ availableQuantity doc = Z.max 0 (50 - 0)
    /\ quantity doc = 50
    /\ reservedQuantity doc = 0
    /\ status doc = "active"
    /\ stockMovements doc = [].
Proof.
  apply (alert_settings_rederive_available Scenario.owner 0 (mkAlerts 20 15)
           (mkInventory 0 Scenario.shopA Scenario.medA "B1" 50 0 100 1000
              9000000 "active" (mkAlerts 10 30) [] 2000
              (user_id Scenario.owner))
           (mkShop Scenario.shopA (user_id Scenario.owner))).
  - vm_compute; reflexivity.
  - constructor; simpl; try lia; try reflexivity. constructor.
  - unfold safeLot, safeInteger, maxSafeInteger; simpl; lia.
  - reflexivity.
  - vm_compute; reflexivity.
  - reflexivity.
  - reflexivity.
Defined.

(** ** X13: stored lots pass the schema *)

Lemma AllValid_run_saving shops0 medicines0 trace :
  forallb (fun step => negb (isUpdate (snd step))) trace = true ->
  AllValid (run trace (initialWorld shops0 medicines0)).
Proof.
  intros Ht. apply run_preserves_saving; [| | |exact Ht|].
  - intros w c p H. exact H.
  - intros doc w Hv _ H. unfold AllValid in *. simpl.
    apply replaceById_Forall; [now apply Valid_preSave | exact H].
  - intros doc w Hv _ _ H. unfold AllValid in *. simpl.
    apply Forall_app. split; [exact H|].
    constructor; [now apply Valid_preSave | constructor].
  - constructor.
Qed.

(** X13.  Every route but the inventory update writes through save() or
    create(), which run the validators of the whole document.  So in a state
    reached without an inventory update, every stored lot passes the
    schema: its quantities are non-negative, its status is one of active,
    expired, damaged, returned and low-stock (out-of-stock is never stored),
    its alert settings are non-negative, and each of its movements has a
    type and a reason of the schema's enums and an ObjectId as performer; so
    no movement with an order reason is in a stored lot. *)
Theorem stored_lots_pass_schema shops0 medicines0 trace d :
  forallb (fun step => negb (isUpdate (snd step))) trace = true ->
  In d (inventories (run trace (initialWorld shops0 medicines0))) ->
  Valid d
  /\ status d <> "out-of-stock"
  /\ forall m, In m (stockMovements d) ->
               mv_reason m <> "order_reservation"
               /\ mv_reason m <> "order_confirmed"
               /\ mv_reason m <> "order_cancelled"
               /\ mv_performedBy m <> "system".
Proof.
  intros Ht Hd.
  pose proof (AllValid_run_saving shops0 medicines0 trace Ht) as H.
  unfold AllValid in H. rewrite Forall_forall in H. specialize (H d Hd).
  split; [exact H|]. destruct H as [_ _ _ _ Hs _ _ _ Hm]. split.
  - intros E. rewrite E in Hs. discriminate.
  - intros m Hin. rewrite Forall_forall in Hm.
    destruct (Hm m Hin) as (_ & Hr & Hp).
    repeat split; intros E; rewrite E in *; discriminate.
Qed.

(** X13 on the lot of scenario B. *)
Lemma stored_lots_pass_schema_witness :
  let lot :=
    mkInventory 0 Scenario.shopA Scenario.medA "B1" 5 0 5 1000 9000000
      "active" (mkAlerts 10 30) [] 2000 (user_id Scenario.owner) in
  Valid lot /\ status lot <> "out-of-stock"
  /\ forall m, In m (stockMovements lot) ->
               mv_reason m <> "order_reservation"
               /\ mv_reason m <> "order_confirmed"
               /\ mv_reason m <> "order_cancelled"
               /\ mv_performedBy m <> "system".
Proof.
  cbv zeta.
  apply (stored_lots_pass_schema
           [mkShop Scenario.shopA (user_id Scenario.owner)]
           [Scenario.medA; Scenario.medB]
           [(2000, Scenario.createLot Scenario.medA "B1" 100);
            (2001, OrderEvent (Scenario.order "order.placed" 95));
            (2002, OrderEvent (Scenario.order "order.confirmed" 95))]).
  - reflexivity.
  - vm_compute. left. reflexivity.
Defined.

(** ** X14: a created lot is found again *)

Lemma find_snoc {A} (f : A -> bool) (l : list A) (x : A) :
  find f (l ++ [x])
  = match find f l with
    | Some y => Some y
    | None => if f x then Some x else None
    end.
Proof.
  induction l as [|h l IH]; simpl; [reflexivity|].
  destruct (f h); [reflexivity | exact IH].
Qed.

Lemma find_fresh_id (w : World) :
  IdsFresh w ->
  find (fun d => Nat.eqb (_id d) (nextId w)) (inventories w) = None.
Proof.
  intros [_ Hlt]. destruct (find _ (inventories w)) as [d|] eqn:F;
    [|reflexivity].
  apply find_some in F as [Hin E]. apply Nat.eqb_eq in E.
  rewrite Forall_forall in Hlt. specialize (Hlt d Hin). lia.
Qed.

(** X14.  When the create route answers with a lot, that lot is in the
    collection under a new id: looking it up by its id, or by the shop,
    medicine and batch number of the request, returns it.  It carries the
    requested quantity and the batch number of the request, trimmed.  The
    route records no movement of its own: the movement list of the lot is
    the one the request body carried, if it carried one, and is empty
    otherwise. *)
Theorem created_lot_is_found now user body lot w w' :
  IdsFresh w ->
  Controller.addInventoryItem now user body w = (Ok lot, w') ->
  Inventory_findById (_id lot) w' = (Ok (Some lot), w')
  /\ Inventory_findOne (b_shopId body) (b_medicineId body)
       (b_batchNumber body) w' = (Ok (Some lot), w')
  /\ batchNumber lot = trim (b_batchNumber body)
  /\ quantity lot = b_quantity body
  /\ stockMovements lot
     = map castMovement
         (orDefault (od_stockMovements (b_otherData body)) []).
Proof.
  intros Hids. unfold Controller.addInventoryItem, bind, MedicalShop_findById.
  destruct (castObjectId (b_shopId body)) eqn:Hs; simpl; [|discriminate].
  destruct (find _ (shops w)) as [shop|]; [|discriminate].
  destruct (Controller.notOwner shop user); [discriminate|].
  unfold Medicine_findById.
  destruct (castObjectId (b_medicineId body)) eqn:Hm; simpl; [|discriminate].
  destruct (find _ (medicines w)); [|discriminate].
  rewrite findOne_found by assumption.
  destruct (find _ (inventories w)) eqn:Hnone; [discriminate|].
  unfold Inventory_create.
  match goal with |- context [validate ?d] => set (doc := d) end.
  destruct (validate doc); [|discriminate].
  destruct (uniqueIndexHit (preSave doc) (inventories w)); [discriminate|].
  simpl. intros E. injection E as <- <-.
  split; [|split; [|split; [|split]]]; try reflexivity.
  - unfold Inventory_findById. simpl. rewrite find_snoc.
    rewrite (find_fresh_id w Hids). simpl. now rewrite Nat.eqb_refl.
  - rewrite findOne_found by assumption. simpl.
    rewrite find_snoc, Hnone. unfold matchesLot. simpl.
    now rewrite !String.eqb_refl.
Qed.

(** X14 on the first create request of the scenarios, its batch number
    given with a blank behind it. *)
Lemma created_lot_is_found_witness :
  let body :=
    mkCreateBody Scenario.shopA Scenario.medA "B1 " 100 1000 9000000
      (onlyAlerts (mkAlerts 10 30)) in
  let lot :=
    mkInventory 0 Scenario.shopA Scenario.medA "B1" 100 0 100 1000 9000000
      "active" (mkAlerts 10 30) [] 2000 (user_id Scenario.owner) in
  let w' :=
    snd (Controller.addInventoryItem 2000 Scenario.owner body
           Scenario.world0) in
  Inventory_findById (_id lot) w' = (Ok (Some lot), w')
  /\ Inventory_findOne Scenario.shopA Scenario.medA "B1 " w'
     = (Ok (Some lot), w')
  /\ batchNumber lot = trim "B1 "
  /\ quantity lot = 100
  /\ stockMovements lot = map castMovement [].
Proof.
  cbv zeta.
  apply (created_lot_is_found 2000 Scenario.owner
           (mkCreateBody Scenario.shopA Scenario.medA "B1 " 100 1000 9000000
              (onlyAlerts (mkAlerts 10 30)))
           _ Scenario.world0).
  - split; constructor.
  - vm_compute. reflexivity.
Defined.

(** ** X15: the alerts report *)

(** X15.  The alerts report of a shop reads the collection and changes
    nothing; it reads the clock three times, at [t1] and [t2] for the
    expiring list and at [t3] for the expired list.  Its low stock list
    holds every lot of the shop whose status is active or low-stock,
    whatever its quantities.  Its expiring list holds the active lots of the
    shop that expire after [t2] and within 30 days of [t1]; its expired list
    holds the active lots of the shop that expired before [t3].  A lot whose
    status is expired, as a stock movement after the expiry date leaves it,
    is in none of the three lists. *)
Theorem alerts_report_lists t1 t2 t3 user shop report w w' :
  Controller.getInventoryAlerts t1 t2 t3 user shop w = (Ok report, w') ->
  w' = w
  /\ (forall d, In d (Controller.lowStock report)
                <-> In d (inventories w) /\ shopId d = shop
                    /\ (status d = "active" \/ status d = "low-stock"))
  /\ (forall d, In d (Controller.expiring report)
                <-> In d (inventories w) /\ shopId d = shop
                    /\ status d = "active"
                    /\ t2 < expiryDate d <= addDays t1 30)
  /\ (forall d, In d (Controller.expired report)
                <-> In d (inventories w) /\ shopId d = shop
                    /\ status d = "active" /\ expiryDate d < t3)
  /\ (forall d, status d = "expired" ->
                ~ In d (Controller.lowStock report)
                /\ ~ In d (Controller.expiring report)
                /\ ~ In d (Controller.expired report)).
Proof.
  unfold Controller.getInventoryAlerts, bind, MedicalShop_findById.
  destruct (castObjectId shop) eqn:Hs; simpl; [|discriminate].
  destruct (find _ (shops w)) as [s|]; [|discriminate].
  destruct (Controller.notOwner s user); [discriminate|].
  unfold Inventory_findLowStockItems, Inventory_findExpiringItems,
    Inventory_findExpiredActive.
  rewrite Hs. simpl. intros E. injection E as <- <-. simpl.
  split; [reflexivity|]. split; [|split; [|split]].
  - intros d. rewrite filter_In. split.
    + intros [Hin Hf]. apply andb_true_iff in Hf as [Hsh Hst].
      apply String.eqb_eq in Hsh. split; [exact Hin|]. split; [exact Hsh|].
      simpl in Hst. rewrite orb_false_r in Hst.
      apply orb_true_iff in Hst as [H|H]; apply String.eqb_eq in H; auto.
    + intros (Hin & Hsh & Hst). split; [exact Hin|].
      rewrite Hsh, String.eqb_refl. simpl.
      destruct Hst as [-> | ->]; reflexivity.
  - intros d. rewrite filter_In. split.
    + intros [Hin Hf]. apply andb_true_iff in Hf as [Hf Hst].
      apply andb_true_iff in Hf as [Hf Hgt].
      apply andb_true_iff in Hf as [Hsh Hle].
      apply String.eqb_eq in Hsh, Hst.
      apply Z.leb_le in Hle. apply Z.ltb_lt in Hgt. auto.
    + intros (Hin & Hsh & Hst & Hgt & Hle). split; [exact Hin|].
      apply Z.leb_le in Hle. apply Z.ltb_lt in Hgt.
      now rewrite Hsh, Hst, Hle, Hgt, !String.eqb_refl.
  - intros d. rewrite filter_In. split.
    + intros [Hin Hf]. apply andb_true_iff in Hf as [Hf Hst].
      apply andb_true_iff in Hf as [Hsh Hlt].
      apply String.eqb_eq in Hsh, Hst. apply Z.ltb_lt in Hlt. auto.
    + intros (Hin & Hsh & Hst & Hlt). split; [exact Hin|].
      apply Z.ltb_lt in Hlt.
      now rewrite Hsh, Hst, Hlt, !String.eqb_refl.
  - intros d Hst. repeat split; intros H; apply filter_In in H as [_ H];
      repeat (apply andb_true_iff in H; destruct H as [H ?]);
      rewrite Hst in *; simpl in *; discriminate.
Qed.

(** X15 on a lot that expires at 9000000, for its owner, when the clock
    passes the expiry date between the second and the third reading: the
    lot is listed as low stock, as expiring and as expired. *)
Lemma alerts_report_lists_witness :
  let lotA :=
    mkInventory 0 Scenario.shopA Scenario.medA "B1" 100 95 5 1000 9000000
      "active" (mkAlerts 10 30) [] 2000 (user_id Scenario.owner) in
  let report := Controller.mkAlertsReport [lotA] [lotA] [lotA] in
  evalOutcome
    (Controller.getInventoryAlerts 8999998 8999999 9000001 Scenario.owner
       Scenario.shopA) Scenario.worldA
  = Ok report
  /\ forall d, In d (Controller.expired report)
               <-> In d (inventories Scenario.worldA)
                   /\ shopId d = Scenario.shopA
                   /\ status d = "active" /\ expiryDate d < 9000001.
Proof.
  cbv zeta. split; [vm_compute; reflexivity|].
  refine (proj1 (proj2 (proj2 (proj2
            (alerts_report_lists 8999998 8999999 9000001 Scenario.owner
               Scenario.shopA
               (Controller.mkAlertsReport
                  [mkInventory 0 Scenario.shopA Scenario.medA "B1" 100 95 5
                     1000 9000000 "active" (mkAlerts 10 30) [] 2000
                     (user_id Scenario.owner)]
                  [mkInventory 0 Scenario.shopA Scenario.medA "B1" 100 95 5
                     1000 9000000 "active" (mkAlerts 10 30) [] 2000
                     (user_id Scenario.owner)]
                  [mkInventory 0 Scenario.shopA Scenario.medA "B1" 100 95 5
                     1000 9000000 "active" (mkAlerts 10 30) [] 2000
                     (user_id Scenario.owner)])
               Scenario.worldA Scenario.worldA _))))).
  vm_compute. reflexivity.
Defined.

(** ** X16: when the movement route stores and when it refuses *)

Lemma applyMovement_Valid_iff self now type qty reason performedBy reference
    notes :
  Valid self ->
  movementOk (movementOf now type qty reason performedBy reference notes)
  ->
  let after :=
    applyMovement self now type qty reason performedBy reference notes in
  Valid after
  <-> 0 <= quantity after /\ (quantity after = 0 -> expiryDate self < now).
Proof.
  intros Hv Hm after.
  pose proof (applyMovement_status self now type qty reason performedBy
                reference notes) as Hst. fold after in Hst.
  split.
  - intros [_ Hq _ _ Hs _ _ _ _]. split; [exact Hq|].
    intros H0. rewrite Hst, H0 in Hs.
    destruct (expiryDate self <? now) eqn:E; [now apply Z.ltb_lt|].
    discriminate.
  - intros [Hq Hz].
    destruct (Z.eq_dec (quantity after) 0) as [H0|Hn].
    + specialize (Hz H0). apply Z.ltb_lt in Hz.
      pose proof Hv as [Hb _ Hr Ha _ Ht Hd Hc Hmv].
      assert (batchNumber after = batchNumber self
              /\ alerts after = alerts self
              /\ createdBy after = createdBy self) as (E1 & E2 & E3).
      { unfold after, applyMovement.
        destruct (String.eqb type "in"), (String.eqb type "out"),
          (String.eqb type "adjustment"); auto. }
      constructor.
      * now rewrite E1.
      * exact Hq.
      * unfold after. now rewrite applyMovement_reserved.
      * unfold after. rewrite applyMovement_available. lia.
      * rewrite Hst, Hz. reflexivity.
      * now rewrite E2.
      * now rewrite E2.
      * now rewrite E3.
      * unfold after. rewrite applyMovement_movements.
        apply Forall_app. split; [exact Hmv|].
        constructor; [exact Hm | constructor].
    + apply applyMovement_Valid; auto. fold after. lia.
Qed.

Lemma stockMovementSchema_cases (body : MovementBody) :
  stockMovementSchema body = true ->
  (m_type body = "in" \/ m_type body = "out" \/ m_type body = "adjustment")
  /\ 1 <= m_quantity body
  /\ inEnum (m_reason body) movementReasonEnum = true.
Proof.
  unfold stockMovementSchema. intros H.
  apply andb_true_iff in H as [H _].
  apply andb_true_iff in H as [H Hr].
  apply andb_true_iff in H as [Ht Hq].
  split; [|split; [now apply Z.leb_le | exact Hr]].
  simpl in Ht. rewrite orb_false_r in Ht.
  apply orb_true_iff in Ht as [Ht|Ht];
    [|apply orb_true_iff in Ht as [Ht|Ht]];
    apply String.eqb_eq in Ht; auto.
Qed.

(** X16.  For a stored valid lot and its shop's owner, a movement request
    that passes the route's validator is stored, with one movement appended
    (its reference and its notes trimmed) and the movement published, in
    every case but one: an out movement for
    more than the on-hand quantity, or for exactly the on-hand quantity of a
    lot that has not expired, is refused with a validation error and leaves
    the world as it was. *)
Theorem movement_route_outcome now user id body inv shop w :
  find (fun d => Nat.eqb (_id d) id) (inventories w) = Some inv ->
  Valid inv -> castObjectId (shopId inv) = true ->
  find (fun s => String.eqb (shop_id s) (shopId inv)) (shops w) = Some shop ->
  Controller.notOwner shop user = false ->
  castObjectId (user_id user) = true ->
  stockMovementSchema body = true ->
  let route :=
    validated (stockMovementSchema body)
      (Controller.addStockMovement now user id body) in
  let refused :=
    m_type body = "out"
    /\ (quantity inv < m_quantity body
        \/ (m_quantity body = quantity inv /\ now <= expiryDate inv)) in
  (~ refused ->
   exists doc,
     evalOutcome route w = Ok doc
     /\ inventories (execWorld route w) = replaceById doc (inventories w)
     /\ published (execWorld route w)
        = (published w
           ++ [("inventory-events", "inventory.stock_movement")])%list
     /\ stockMovements doc
        = (stockMovements inv
           ++ [mkStockMovement (m_type body) (m_quantity body)
                 (m_reason body) (option_map trim (m_reference body))
                 (user_id user) (trim (m_notes body)) now])%list)
  /\ (refused ->
      (exists errs, evalOutcome route w = Throw (ValidationError errs))
      /\ execWorld route w = w).
Proof.
  intros Hst Hv Hsc Hsf Hauth Hu Hschema. cbv zeta.
  unfold evalOutcome, execWorld, validated. rewrite Hschema.
  rewrite (movement_route_is_save now user id body inv shop w Hst Hsc Hsf
             Hauth).
  destruct (stockMovementSchema_cases body Hschema) as (Htype & Hq & Hreason).
  pose proof (valid_quantity _ Hv) as Hq0.
  assert (movementOk
            (movementOf now (m_type body) (m_quantity body) (m_reason body)
               (user_id user) (m_reference body) (m_notes body))) as Hm.
  { repeat split; simpl; auto.
    destruct Htype as [-> | [-> | ->]]; reflexivity. }
  pose proof (applyMovement_Valid_iff inv now (m_type body) (m_quantity body)
                (m_reason body) (user_id user) (m_reference body)
                (m_notes body) Hv Hm) as Hiff. cbv zeta in Hiff.
  pose proof (applyMovement_quantity inv now (m_type body) (m_quantity body)
                (m_reason body) (user_id user) (m_reference body)
                (m_notes body)) as Hqa.
  set (after := applyMovement inv now (m_type body) (m_quantity body)
                  (m_reason body) (user_id user) (m_reference body)
                  (m_notes body)) in *.
  split.
  - intros Hnot.
    assert (Valid after) as Hva.
    { apply Hiff. destruct Htype as [E | [E | E]].
      - assert (quantity after = quantity inv + m_quantity body) as ->
          by (rewrite Hqa, E; reflexivity).
        split; lia.
      - assert (quantity after = quantity inv - m_quantity body) as ->
          by (rewrite Hqa, E; reflexivity).
        split.
        + destruct (Z_lt_le_dec (quantity inv) (m_quantity body)); [|lia].
          exfalso. apply Hnot. auto.
        + intros H0. destruct (Z_lt_le_dec (expiryDate inv) now); [lia|].
          exfalso. apply Hnot. split; [exact E|]. right. split; lia.
      - assert (quantity after = m_quantity body) as ->
          by (rewrite Hqa, E; reflexivity).
        split; lia. }
    pose proof (find_some _ _ Hst) as [Hin _].
    pose proof (save_applyMovement inv now (m_type body) (m_quantity body)
                  (m_reason body) (user_id user) (m_reference body)
                  (m_notes body) w Hin Hva) as Es.
    fold after in Es. rewrite Es. simpl.
    exists (preSave after). repeat split.
    change (stockMovements (preSave after)) with (stockMovements after).
    unfold after. apply applyMovement_movements.
  - intros [E Hbad].
    assert (validate after <> []) as Hne.
    { intros H. apply validate_nil in H. apply Hiff in H as [H1 H2].
      assert (quantity after = quantity inv - m_quantity body) as Hq'
        by (rewrite Hqa, E; reflexivity).
      rewrite Hq' in *.
      destruct Hbad as [Hbad|[Hbad Hlive]]; lia. }
    rewrite (save_invalid after w Hne). simpl.
    split; [eexists|]; reflexivity.
Qed.

(** X16 on the lot of 100 units: an out of 40, its notes given with a
    blank before them, is stored. *)
Lemma movement_route_outcome_witness :
  let body := mkMovementBody "out" 40 "sale" None " counter" in
  let route :=
    validated (stockMovementSchema body)
      (Controller.addStockMovement 2001 Scenario.owner 0 body) in
  exists doc,
    evalOutcome route Scenario.created = Ok doc
    /\ inventories (execWorld route Scenario.created)
       = replaceById doc (inventories Scenario.created)
    /\ published (execWorld route Scenario.created)
       = (published Scenario.created
          ++ [("inventory-events", "inventory.stock_movement")])%list
    /\ stockMovements doc
       = ([] ++ [mkStockMovement "out" 40 "sale" None
                   (user_id Scenario.owner) "counter" 2001])%list.
Proof.
  cbv zeta.
  refine (proj1
            (movement_route_outcome 2001 Scenario.owner 0
               (mkMovementBody "out" 40 "sale" None " counter")
               (mkInventory 0 Scenario.shopA Scenario.medA "B1" 100 0 100
                  1000 9000000 "active" (mkAlerts 10 30) [] 2000
                  (user_id Scenario.owner))
               (mkShop Scenario.shopA (user_id Scenario.owner))
               Scenario.created _ _ _ _ _ _ _) _).
  - vm_compute; reflexivity.
  - constructor; simpl; try lia; try reflexivity. constructor.
  - reflexivity.
  - reflexivity.
  - reflexivity.
  - reflexivity.
  - reflexivity.
  - simpl. intros [_ [H|[H _]]]; lia.
Defined.

(** ** X17: a placed line that cannot be reserved is skipped *)






